(** * Learning and knowledge-coordination layer: a shallow embedding

    Source files embedded here:
    - [src/factory/factory_config.py]: [PatternLearningSystem],
      [ContinuousImprovementEngine] and the text similarity of
      [AutoGenFactory];
    - [src/factory/inter_agent_learning_system.py]:
      [InterAgentLearningCoordinator] and [LearningEnabledAgent];
    - [src/factory/tasks.py]: what [execute_deployment_task] does with the
      ledger and with the engine.

    Conventions of the embedding.
    - Python [float]s are exact rationals ([Q]) in the modules
      [PatternLearning], [Improvement], [Coordinator] and [Factory]; every
      comparison and arithmetic operation of the source is written with
      the same operands in the same order. The source rounds each result
      to binary64: a statement on these modules holds of the source where
      the rounded and the exact value fall on the same side of every test
      it speaks of, and the statements are chosen accordingly (counts,
      structure, bounds, tests on ratios of small counts).
    - Module [Binary64] embeds the ranking of [suggest_solution] a second
      time, in IEEE binary64 (the primitive [float] of the Standard
      Library), where the solution returned can depend on rounding.
    - A [str] is the sequence of bytes of its UTF-8 encoding.
    - [datetime] values are integers, microseconds since
      1970-01-01T00:00:00; [datetime.now()] is an argument [now] of the
      operation that reads the clock.
    - A [dict] whose iteration order is observable is an association list in
      insertion order ([odict]); the other dictionaries are [gmap]s.
    - [uuid.uuid4()] returns the value of a counter kept in the state, which
      is then incremented: identifiers never repeat.
    - Logging and the best-effort Redis persistence (both wrapped in
      [try/except] by the source) do not change the in-memory state and are
      left out. *)

From Stdlib Require Import Floats.
From Stdlib Require Import Ascii String QArith Qminmax Lqa Sorted.
From stdpp Require Import gmap strings list fin_maps.

Local Open Scope string_scope.
Local Open Scope list_scope.
Local Open Scope nat_scope.

(** ** Python values and strings *)

(** The scalar Python values a caller can put under a dictionary key. *)
Inductive PyVal :=
| PyNone
| PyBool (b : bool)
| PyInt (z : Z)
| PyFloat (q : Q)
| PyStr (s : string)
| PyUuid (n : nat).      (* the text of the [n]-th [uuid.uuid4()] *)

(** [x < y] on floats, as a boolean. *)
Definition Qltb (x y : Q) : bool := negb (Qle_bool y x).

(** A [str] is the sequence of bytes of its UTF-8 encoding: equal texts
    have equal bytes, and concatenation is that of the bytes.  The
    functions that look at characters recover them from the bytes. *)

(** A byte [10xxxxxx], which continues a character. *)
Definition is_continuation_byte (c : ascii) : bool :=
  let n := nat_of_ascii c in (128 <=? n) && (n <? 192).

(** The characters of a text, each as the bytes of its encoding: a byte
    followed by a continuation byte belongs to the same character. *)
Fixpoint utf8_chars (s : string) : list string :=
  match s with
  | EmptyString => []
  | String c r =>
      match utf8_chars r with
      | String c' ch :: chs =>
          if is_continuation_byte c' then String c (String c' ch) :: chs
          else String c EmptyString :: String c' ch :: chs
      | chs => String c EmptyString :: chs
      end
  end.

(** The six payload bits of a continuation byte. *)
Definition continuation_bits (c : ascii) : option N :=
  if is_continuation_byte c then Some (N_of_ascii c - 128)%N else None.

(** The code point of a character given by its bytes; [None] when the
    bytes are not the encoding of one character. *)
Definition code_point (ch : string) : option N :=
  match ch with
  | String a EmptyString =>
      if (N_of_ascii a <? 128)%N then Some (N_of_ascii a) else None
  | String a (String b EmptyString) =>
      if (192 <=? N_of_ascii a)%N && (N_of_ascii a <? 224)%N then
        x ← continuation_bits b;
        Some ((N_of_ascii a - 192) * 64 + x)%N
      else None
  | String a (String b (String c EmptyString)) =>
      if (224 <=? N_of_ascii a)%N && (N_of_ascii a <? 240)%N then
        x ← continuation_bits b;
        y ← continuation_bits c;
        Some (((N_of_ascii a - 224) * 64 + x) * 64 + y)%N
      else None
  | String a (String b (String c (String d EmptyString))) =>
      if (240 <=? N_of_ascii a)%N && (N_of_ascii a <? 248)%N then
        x ← continuation_bits b;
        y ← continuation_bits c;
        z ← continuation_bits d;
        Some ((((N_of_ascii a - 240) * 64 + x) * 64 + y) * 64 + z)%N
      else None
  | _ => None
  end.

(** The characters for which [str.isspace] holds, which are those that
    [str.strip] removes and at which [str.split] cuts: U+0009 to U+000D,
    U+001C to U+0020, U+0085, U+00A0, U+1680, U+2000 to U+200A, U+2028,
    U+2029, U+202F, U+205F and U+3000. *)
Definition whitespace_code_points : list N :=
  [9; 10; 11; 12; 13; 28; 29; 30; 31; 32; 133; 160; 5760;
   8192; 8193; 8194; 8195; 8196; 8197; 8198; 8199; 8200; 8201; 8202;
   8232; 8233; 8239; 8287; 12288]%N.

(** [ch.isspace()] for a character [ch]. *)
Definition py_isspace (ch : string) : bool :=
  match code_point ch with
  | Some cp => existsb (N.eqb cp) whitespace_code_points
  | None => false
  end.

Fixpoint drop_while {A} (f : A -> bool) (l : list A) : list A :=
  match l with
  | [] => []
  | x :: r => if f x then drop_while f r else l
  end.

(** [s.strip()]: the text without its leading and trailing whitespace
    characters. *)
Definition py_strip (s : string) : string :=
  String.concat ""
    (rev (drop_while py_isspace (rev (drop_while py_isspace (utf8_chars s))))).

(** U+00A0 NO-BREAK SPACE, a whitespace character beyond ASCII. *)
Definition no_break_space : string :=
  String (ascii_of_nat 194) (String (ascii_of_nat 160) EmptyString).


(** [not s] for a string. *)
Definition str_falsy (s : string) : bool :=
  match s with EmptyString => true | _ => false end.

(** ** Sequences *)

(** [l[-n:]] for [n > 0]. *)
Definition lastn {A} (n : nat) (l : list A) : list A := drop (length l - n) l.

(** [deque(maxlen=m).append(x)]: a full deque drops its leftmost element. *)
Definition deque_append {A} (maxlen : nat) (x : A) (d : list A) : list A :=
  if decide (maxlen <= length d) then tail d ++ [x] else d ++ [x].

(** ** Insertion-ordered dictionaries *)

Definition odict (V : Type) := list (string * V).

Fixpoint od_get {V} (k : string) (d : odict V) : option V :=
  match d with
  | [] => None
  | (k', v) :: r => if String.eqb k k' then Some v else od_get k r
  end.

(** [d[k] = v]: an existing key keeps its position. *)
Fixpoint od_set {V} (k : string) (v : V) (d : odict V) : odict V :=
  match d with
  | [] => [(k, v)]
  | (k', v') :: r =>
      if String.eqb k k' then (k, v) :: r else (k', v') :: od_set k v r
  end.

(** * PatternLearningSystem *)

Module PatternLearning.

(** One microsecond is the clock unit. *)
Definition days (n : Z) : Z := (n * 86400 * 1000000)%Z.

(** The [deployment_data] argument.  [error_type] and [success] are kept
    as raw Python values because the function checks their types; the other
    keys carry the types of the docstring.  [None] means that the key is
    absent, except for [d_solution], where [.get('solution')] does not
    tell an absent key from a [None] value. *)
Record DeploymentData := {
  d_error_type : option PyVal;
  d_success : option PyVal;
  d_solution : option string;
  d_timestamp : option Z;
  d_context : option (list (string * PyVal));
  d_execution_time : option (option Q)
}.

(** [learning_entry] *)
Record Entry := {
  e_solution : option string;
  e_success : bool;
  e_timestamp : Z;
  e_context : list (string * PyVal);
  e_execution_time : option Q
}.

Record PatternLearningSystem := {
  error_database : gmap string (list Entry);
  success_patterns : gmap string (list Entry);
  performance_metrics : gmap string (list (option Q))
}.

Definition max_patterns_per_error : nat := 50.
Definition min_success_rate : Q := 0.7.

(** [__init__] *)
Definition init : PatternLearningSystem :=
  {| error_database := ∅; success_patterns := ∅; performance_metrics := ∅ |}.

(** The body shared by [_store_success_pattern] and [_store_error_pattern]:
    [db[error_type]] on a [defaultdict(list)], [pop(0)] at the cap, then
    [append]. *)
Definition store_pattern (error_type : string) (entry : Entry)
    (db : gmap string (list Entry)) : gmap string (list Entry) :=
  let l := default [] (db !! error_type) in
  let l' := if decide (max_patterns_per_error <= length l) then tail l else l in
  <[error_type := l' ++ [entry]]> db.

Definition _store_success_pattern (error_type : string) (entry : Entry)
    (s : PatternLearningSystem) : PatternLearningSystem :=
  {| error_database := error_database s;
     success_patterns := store_pattern error_type entry (success_patterns s);
     performance_metrics := performance_metrics s |}.

Definition _store_error_pattern (error_type : string) (entry : Entry)
    (s : PatternLearningSystem) : PatternLearningSystem :=
  {| error_database := store_pattern error_type entry (error_database s);
     success_patterns := success_patterns s;
     performance_metrics := performance_metrics s |}.

(** [self.performance_metrics[key].append(x)] on
    [defaultdict(lambda: deque(maxlen=100))]. *)
Definition record_metric (key : string) (x : option Q)
    (s : PatternLearningSystem) : PatternLearningSystem :=
  {| error_database := error_database s;
     success_patterns := success_patterns s;
     performance_metrics :=
       <[key := deque_append 100 x (default [] (performance_metrics s !! key))]>
         (performance_metrics s) |}.

(** The [learning_entry] built for a call that passed the validation. *)
Definition entry_of (now : Z) (success : bool) (d : DeploymentData) : Entry :=
  {| e_solution := d_solution d;
     e_success := success;
     e_timestamp := default now (d_timestamp d);
     e_context := default [] (d_context d);
     e_execution_time := mjoin (d_execution_time d) |}.

Definition learn_from_deployment (now : Z) (d : DeploymentData)
    (s : PatternLearningSystem) : bool * PatternLearningSystem :=
  match d_error_type d, d_success d with
  | None, _ | _, None => (false, s)            (* missing required field *)
  | Some error_type, Some success =>
      match success with
      | PyBool success =>
          match error_type with
          | PyStr error_type =>
              if str_falsy (py_strip error_type) then (false, s)
              else
                let learning_entry := entry_of now success d in
                let s1 :=
                  if success then _store_success_pattern error_type learning_entry s
                  else _store_error_pattern error_type learning_entry s in
                let s2 :=
                  match d_execution_time d with
                  | Some t =>
                      record_metric
                        (if success then String.append error_type "_success"
                         else String.append error_type "_failure") t s1
                  | None => s1
                  end in
                (true, s2)
          | _ => (false, s)                    (* not a str *)
          end
      | _ => (false, s)                        (* not a bool *)
      end
  end.

(** The per-solution accumulator built by [_calculate_solution_stats]. *)
Record StatsAcc := {
  count : nat;
  success_count : nat;
  total_execution_time : Q;
  recent_count : nat;
  timestamps : list Z
}.

(** The accumulator once the three derived keys have been added. *)
Record SolutionStats := {
  st_acc : StatsAcc;
  success_rate : Q;
  avg_execution_time : Q;
  recency_score : Q
}.

Definition stats_zero : StatsAcc :=
  {| count := 0; success_count := 0; total_execution_time := 0;
     recent_count := 0; timestamps := [] |}.

Definition Qnat (n : nat) : Q := inject_Z (Z.of_nat n).

(** Is the solution kept by the grouping loop?  ([not solution] covers [None]
    and the empty string.) *)
Definition counted_solution (pattern : Entry) : option string :=
  match e_solution pattern with
  | None => None
  | Some solution =>
      if str_falsy solution || String.eqb solution "unknown" then None
      else Some solution
  end.

(** The counters of a solution after one more of its records. *)
Definition tally (cutoff_time : Z) (stats : StatsAcc) (pattern : Entry)
    : StatsAcc :=
  {| count := count stats + 1;
     timestamps := timestamps stats ++ [e_timestamp pattern];
     success_count :=
       if e_success pattern then success_count stats + 1
       else success_count stats;
     total_execution_time :=
       match e_execution_time pattern with
       | Some t =>
           if Qeq_bool t 0 then total_execution_time stats
           else (total_execution_time stats + t)%Q
       | None => total_execution_time stats
       end;
     recent_count :=
       if decide (cutoff_time < e_timestamp pattern)%Z
       then recent_count stats + 1 else recent_count stats |}.

(** One iteration of [for pattern in patterns]. *)
Definition stats_step (cutoff_time : Z) (acc : odict StatsAcc) (pattern : Entry)
    : odict StatsAcc :=
  match counted_solution pattern with
  | None => acc
  | Some solution =>
      let stats := default stats_zero (od_get solution acc) in
      od_set solution (tally cutoff_time stats pattern) acc
  end.

(** The second loop of [_calculate_solution_stats]. *)
Definition finalize_stats (stats : StatsAcc) : SolutionStats :=
  if decide (0 < count stats) then
    {| st_acc := stats;
       success_rate := (Qnat (success_count stats) / Qnat (count stats))%Q;
       avg_execution_time := (total_execution_time stats / Qnat (count stats))%Q;
       recency_score :=
         Qmin (Qnat (recent_count stats) / Qnat (Nat.max (count stats) 1)) 1 |}
  else
    {| st_acc := stats; success_rate := 0; avg_execution_time := 0;
       recency_score := 0 |}.

Definition _calculate_solution_stats (now : Z) (patterns : list Entry)
    : odict SolutionStats :=
  let cutoff_time := (now - days 30)%Z in
  map (fun kv => (fst kv, finalize_stats (snd kv)))
      (fold_left (stats_step cutoff_time) patterns []).

(** An element of [scored_solutions], in exact arithmetic; module
    [Binary64] below has the rounded scores that decide the ranking. *)
Record Scored := {
  sc_solution : string;
  sc_score : Q;
  sc_success_rate : Q;
  sc_recency_score : Q;
  sc_avg_execution_time : Q;
  sc_count : nat
}.

Definition score_solution (solution : string) (stats : SolutionStats) : Scored :=
  let success_weight := 0.6%Q in
  let recency_weight := 0.3%Q in
  let performance_weight := 0.1%Q in
  let avg_time := avg_execution_time stats in
  let time_score := Qmax 0 (1 - avg_time / 3600) in
  let composite_score :=
    (success_rate stats * success_weight
     + recency_score stats * recency_weight
     + time_score * performance_weight)%Q in
  {| sc_solution := solution;
     sc_score := composite_score;
     sc_success_rate := success_rate stats;
     sc_recency_score := recency_score stats;
     sc_avg_execution_time := avg_time;
     sc_count := count (st_acc stats) |}.

(** [list.sort(key=score, reverse=True)]: descending and stable, elements
    of equal score keep their order. *)
Fixpoint insert_by_score (x : Scored) (l : list Scored) : list Scored :=
  match l with
  | [] => [x]
  | y :: r =>
      if Qle_bool (sc_score y) (sc_score x) then x :: y :: r
      else y :: insert_by_score x r
  end.

Definition sort_by_score_desc (l : list Scored) : list Scored :=
  fold_right insert_by_score [] l.

Definition _select_best_solution (solution_stats : odict SolutionStats)
    : option Scored :=
  match solution_stats with
  | [] => None
  | _ =>
      let scored_solutions :=
        map (fun kv => score_solution (fst kv) (snd kv)) solution_stats in
      head (sort_by_score_desc scored_solutions)
  end.

(** [error_patterns + success_patterns] *)
Definition all_patterns (error_type : string) (s : PatternLearningSystem)
    : list Entry :=
  default [] (error_database s !! error_type)
  ++ default [] (success_patterns s !! error_type).

Definition suggest_solution (now : Z) (error_type : string)
    (s : PatternLearningSystem) : option string :=
  match error_database s !! error_type, success_patterns s !! error_type with
  | None, None => None
  | _, _ =>
      match all_patterns error_type s with
      | [] => None
      | patterns =>
          let solution_stats := _calculate_solution_stats now patterns in
          match _select_best_solution solution_stats with
          | Some best_solution =>
              if Qle_bool min_success_rate (sc_success_rate best_solution)
              then Some (sc_solution best_solution)
              else None
          | None => None   (* the log line raises, the handler returns None *)
          end
      end
  end.

(** ** The ranking as the specification words it *)

(** [composite = 0.6*success_rate + 0.3*recency_score
                 + 0.1*max(0, 1 - avg_time/3600)] *)
Definition spec_composite (st : SolutionStats) : Q :=
  (0.6 * success_rate st + 0.3 * recency_score st
   + 0.1 * Qmax 0 (1 - avg_execution_time st / 3600))%Q.

(** A solution that takes part in the ranking. *)
Definition rankable (solution : string) : Prop :=
  solution <> "" /\ solution <> "unknown".



(** The execution times of the records, summed in order; a record without
    a time, or with a zero time, adds nothing. *)
Definition add_time (total : Q) (p : Entry) : Q :=
  match e_execution_time p with
  | Some t => if Qeq_bool t 0 then total else (total + t)%Q
  | None => total
  end.

Definition total_time (records : list Entry) : Q := fold_left add_time records 0%Q.

(** [solution] is the top-ranked entry of [stats] by composite score. *)
Definition top_composite (stats : odict SolutionStats) (solution : string)
    (st : SolutionStats) : Prop :=
  In (solution, st) stats
  /\ forall solution' st', In (solution', st') stats ->
        (spec_composite st' <= spec_composite st)%Q.

(** The grouping loop of [_calculate_solution_stats], seen from one
    solution. *)
Definition key_step (cutoff : Z) (solution : string) (o : option StatsAcc)
    (p : Entry) : option StatsAcc :=
  if bool_decide (counted_solution p = Some solution)
  then Some (tally cutoff (default stats_zero o) p) else o.


(** A batch of calls, each at its own clock reading. *)
Definition learn_all (calls : list (Z * DeploymentData))
    (s : PatternLearningSystem) : PatternLearningSystem :=
  fold_left (fun s c => snd (learn_from_deployment (fst c) (snd c) s)) calls s.

(** The store a record with the given outcome goes to. *)
Definition store_of (success : bool) (s : PatternLearningSystem)
    : gmap string (list Entry) :=
  if success then success_patterns s else error_database s.

(** The entries kept under a key in one store. *)
Definition entries_under (key : string) (db : gmap string (list Entry))
    : list Entry :=
  default [] (db !! key).

(** Inputs the validation rejects: the key is missing, is not a string or
    strips to the empty string. *)
Definition key_invalid (d : DeploymentData) : Prop :=
  match d_error_type d with
  | None => True
  | Some (PyStr k) => py_strip k = ""
  | Some _ => True
  end.

(** Inputs the validation rejects: [success] is missing or not a [bool]. *)
Definition success_invalid (d : DeploymentData) : Prop :=
  match d_success d with
  | Some (PyBool _) => False
  | _ => True
  end.

(** A call that passes the validation, for the key and outcome given. *)
Definition valid_for (key : string) (success : bool) (d : DeploymentData) : Prop :=
  d_error_type d = Some (PyStr key) /\ py_strip key <> ""
  /\ d_success d = Some (PyBool success).

(** A well-formed record for a key, used to build concrete ledgers. *)
Definition sample_data (key solution : string) (success : bool) : DeploymentData :=
  {| d_error_type := Some (PyStr key);
     d_success := Some (PyBool success);
     d_solution := Some solution;
     d_timestamp := None;
     d_context := None;
     d_execution_time := None |}.

(** The cap holds in each store, for every key. *)
Definition capped (s : PatternLearningSystem) : Prop :=
  forall key,
    length (entries_under key (success_patterns s)) <= max_patterns_per_error
    /\ length (entries_under key (error_database s)) <= max_patterns_per_error.

(** Ten successes of one solution followed by one failure of it. *)
Definition ten_to_one : PatternLearningSystem :=
  learn_all (repeat (0%Z, sample_data "deploy" "restart" true) 10
             ++ [(0%Z, sample_data "deploy" "restart" false)]) init.

(** A ledger on which rounding decides: solution A (two successes in four
    records, three of them recent) and solution B (seven successes in eight
    records, none recent) have the same composite score, 0.625, as exact
    numbers, and A is met first. *)
Definition near_tie : PatternLearningSystem :=
  let recent := days 39 in
  let old := 0%Z in
  learn_all
    ([(recent, sample_data "deploy" "A" false);
      (old, sample_data "deploy" "A" false);
      (old, sample_data "deploy" "B" false);
      (recent, sample_data "deploy" "A" true);
      (recent, sample_data "deploy" "A" true)]
     ++ repeat (old, sample_data "deploy" "B" true) 7)
    init.

(** One hundred calls under one key, successes and failures alternating. *)
Definition mixed_calls : list (Z * DeploymentData) :=
  flat_map (fun _ => [(0%Z, sample_data "deploy" "restart" true);
                      (0%Z, sample_data "deploy" "restart" false)])
           (seq 0 50).

(** One hundred successful calls under one key, numbered by timestamp. *)
Definition uniform_calls : list (Z * DeploymentData) :=
  map (fun i => (Z.of_nat i, sample_data "deploy" "restart" true)) (seq 0 100).

(** The dictionary returned by [get_learning_stats]. *)
Record LearningStats := {
  total_error_patterns : nat;
  total_success_patterns : nat;
  unique_error_types : nat;
  average_success_rate : Q;
  performance_metrics_count : gmap string nat;
  last_updated : Z
}.

(** [list(d.values())]; the sums taken over it do not depend on its
    order. *)
Definition dict_values {V} (d : gmap string V) : list V := map snd (map_to_list d).

(** [get_learning_stats]; the statistics of every list of either store are
    computed as [_calculate_solution_stats] does, and their counters
    summed. *)
Definition get_learning_stats (now : Z) (s : PatternLearningSystem)
    : LearningStats :=
  let total_errors := list_sum (map length (dict_values (error_database s))) in
  let total_successes :=
    list_sum (map length (dict_values (success_patterns s))) in
  let all_stats :=
    flat_map (fun patterns => map snd (_calculate_solution_stats now patterns))
             (dict_values (error_database s)
              ++ dict_values (success_patterns s)) in
  let avg_success_rate :=
    if decide (0 < total_errors + total_successes) then
      let total_attempts :=
        list_sum (map (fun stats => count (st_acc stats)) all_stats) in
      if decide (0 < total_attempts) then
        let total_successes_count :=
          list_sum (map (fun stats => success_count (st_acc stats)) all_stats) in
        (Qnat total_successes_count / Qnat total_attempts)%Q
      else 0%Q
    else 0%Q in
  {| total_error_patterns := total_errors;
     total_success_patterns := total_successes;
     unique_error_types := size (error_database s);
     average_success_rate := avg_success_rate;
     performance_metrics_count := length <$> performance_metrics s;
     last_updated := now |}.

(** ** The ledger as [execute_deployment_task] (tasks.py) drives it *)










End PatternLearning.

(** * PatternLearningSystem: the ranking in binary64

    [_calculate_solution_stats], [_select_best_solution] and
    [suggest_solution] once more, over the same ledger, with the rates,
    the execution times and the scores as the floats of the source: which
    solution comes first, and whether its rate passes, can depend on the
    last bit of a score. *)

Module Binary64.
Import PatternLearning.

(** The float nearest to a rational, ties to even: what Python reads from
    a decimal numeral and what [a / b] returns for two [int]s. *)
Definition float_of_Q (q : Q) : float :=
  match Qnum q with
  | Z0 => 0%float
  | Zpos n =>
      SF2Prim (SFdiv prec emax (S754_finite false n 0)
                               (S754_finite false (Qden q) 0))
  | Zneg n =>
      SF2Prim (SFdiv prec emax (S754_finite true n 0)
                               (S754_finite false (Qden q) 0))
  end.

(** [float(n)] *)
Definition float_of_nat (n : nat) : float := float_of_Q (inject_Z (Z.of_nat n)).

(** [a / b] for two counts, [b] positive. *)
Definition int_div (a b : nat) : float :=
  float_of_Q (Z.of_nat a # Pos.of_nat b).

(** [max(0, x)] and [min(x, 1.0)]: the first argument is kept unless the
    second is beyond it. *)
Definition py_max0 (x : float) : float := if (0 <? x)%float then x else 0%float.
Definition py_min1 (x : float) : float := if (1 <? x)%float then 1%float else x.

(** [x] as a condition: a float other than zero. *)
Definition float_truthy (x : float) : bool := negb (x =? 0)%float.

#[warnings="-inexact-float"]
Definition min_success_rate : float := 0.7%float.

(** The per-solution accumulator built by [_calculate_solution_stats]. *)
Record StatsAcc := {
  count : nat;
  success_count : nat;
  total_execution_time : float;
  recent_count : nat;
  timestamps : list Z
}.

(** The accumulator once the three derived keys have been added. *)
Record SolutionStats := {
  st_acc : StatsAcc;
  success_rate : float;
  avg_execution_time : float;
  recency_score : float
}.

Definition stats_zero : StatsAcc :=
  {| count := 0; success_count := 0; total_execution_time := 0%float;
     recent_count := 0; timestamps := [] |}.

(** [stats['total_execution_time'] += pattern['execution_time']], under
    [if pattern.get('execution_time')]. *)
Definition add_time (total : float) (pattern : Entry) : float :=
  match e_execution_time pattern with
  | Some t =>
      if float_truthy (float_of_Q t) then (total + float_of_Q t)%float
      else total
  | None => total
  end.

(** The counters of a solution after one more of its records. *)
Definition tally (cutoff_time : Z) (stats : StatsAcc) (pattern : Entry)
    : StatsAcc :=
  {| count := count stats + 1;
     timestamps := timestamps stats ++ [e_timestamp pattern];
     success_count :=
       if e_success pattern then success_count stats + 1
       else success_count stats;
     total_execution_time := add_time (total_execution_time stats) pattern;
     recent_count :=
       if decide (cutoff_time < e_timestamp pattern)%Z
       then recent_count stats + 1 else recent_count stats |}.

(** One iteration of [for pattern in patterns]. *)
Definition stats_step (cutoff_time : Z) (acc : odict StatsAcc) (pattern : Entry)
    : odict StatsAcc :=
  match counted_solution pattern with
  | None => acc
  | Some solution =>
      let stats := default stats_zero (od_get solution acc) in
      od_set solution (tally cutoff_time stats pattern) acc
  end.

(** The second loop of [_calculate_solution_stats]. *)
Definition finalize_stats (stats : StatsAcc) : SolutionStats :=
  if decide (0 < count stats) then
    {| st_acc := stats;
       success_rate := int_div (success_count stats) (count stats);
       avg_execution_time :=
         (total_execution_time stats / float_of_nat (count stats))%float;
       recency_score :=
         py_min1 (int_div (recent_count stats) (Nat.max (count stats) 1)) |}
  else
    {| st_acc := stats; success_rate := 0%float; avg_execution_time := 0%float;
       recency_score := 0%float |}.

Definition _calculate_solution_stats (now : Z) (patterns : list Entry)
    : odict SolutionStats :=
  let cutoff_time := (now - days 30)%Z in
  map (fun kv => (fst kv, finalize_stats (snd kv)))
      (fold_left (stats_step cutoff_time) patterns []).

(** An element of [scored_solutions]. *)
Record Scored := {
  sc_solution : string;
  sc_score : float;
  sc_success_rate : float;
  sc_recency_score : float;
  sc_avg_execution_time : float;
  sc_count : nat
}.

#[warnings="-inexact-float"]
Definition score_solution (solution : string) (stats : SolutionStats) : Scored :=
  let success_weight := 0.6%float in
  let recency_weight := 0.3%float in
  let performance_weight := 0.1%float in
  let avg_time := avg_execution_time stats in
  let time_score := py_max0 (1 - avg_time / 3600)%float in
  let composite_score :=
    (success_rate stats * success_weight
     + recency_score stats * recency_weight
     + time_score * performance_weight)%float in
  {| sc_solution := solution;
     sc_score := composite_score;
     sc_success_rate := success_rate stats;
     sc_recency_score := recency_score stats;
     sc_avg_execution_time := avg_time;
     sc_count := count (st_acc stats) |}.

(** [list.sort(key=score, reverse=True)]: descending and stable, elements
    of equal score keep their order. *)
Fixpoint insert_by_score (x : Scored) (l : list Scored) : list Scored :=
  match l with
  | [] => [x]
  | y :: r =>
      if (sc_score y <=? sc_score x)%float then x :: y :: r
      else y :: insert_by_score x r
  end.

Definition sort_by_score_desc (l : list Scored) : list Scored :=
  fold_right insert_by_score [] l.

Definition _select_best_solution (solution_stats : odict SolutionStats)
    : option Scored :=
  match solution_stats with
  | [] => None
  | _ =>
      let scored_solutions :=
        map (fun kv => score_solution (fst kv) (snd kv)) solution_stats in
      head (sort_by_score_desc scored_solutions)
  end.

Definition suggest_solution (now : Z) (error_type : string)
    (s : PatternLearningSystem) : option string :=
  match error_database s !! error_type, success_patterns s !! error_type with
  | None, None => None
  | _, _ =>
      match all_patterns error_type s with
      | [] => None
      | patterns =>
          let solution_stats := _calculate_solution_stats now patterns in
          match _select_best_solution solution_stats with
          | Some best_solution =>
              if (min_success_rate <=? sc_success_rate best_solution)%float
              then Some (sc_solution best_solution)
              else None
          | None => None   (* the log line raises, the handler returns None *)
          end
      end
  end.

(** ** The ranking as the specification words it *)

(** [composite = 0.6*success_rate + 0.3*recency_score
                 + 0.1*max(0, 1 - avg_time/3600)] *)
#[warnings="-inexact-float"]
Definition spec_composite (st : SolutionStats) : float :=
  (0.6 * success_rate st + 0.3 * recency_score st
   + 0.1 * py_max0 (1 - avg_execution_time st / 3600))%float.

(** The execution times of the records, summed in order. *)
Definition total_time (records : list Entry) : float :=
  fold_left add_time records 0%float.

(** [solution] is ranked and no ranked solution has a composite score
    above its own. *)
Definition top_composite (stats : odict SolutionStats) (solution : string)
    (st : SolutionStats) : Prop :=
  In (solution, st) stats
  /\ forall solution' st', In (solution', st') stats ->
        (spec_composite st <? spec_composite st')%float = false.

(** The grouping loop of [_calculate_solution_stats], seen from one
    solution. *)
Definition key_step (cutoff : Z) (solution : string) (o : option StatsAcc)
    (p : Entry) : option StatsAcc :=
  if bool_decide (counted_solution p = Some solution)
  then Some (tally cutoff (default stats_zero o) p) else o.



End Binary64.

(** * ContinuousImprovementEngine *)

Module Improvement.

Inductive RiskLevel := LOW | MEDIUM | HIGH | CRITICAL.
Inductive OptimizationType := PERFORMANCE | MEMORY | RELIABILITY | SECURITY.

#[export] Instance RiskLevel_eq_dec : EqDecision RiskLevel.
Proof. solve_decision. Defined.
#[export] Instance OptimizationType_eq_dec : EqDecision OptimizationType.
Proof. solve_decision. Defined.

(** [RiskLevel.value] *)
Definition risk_value (r : RiskLevel) : string :=
  match r with
  | LOW => "low" | MEDIUM => "medium" | HIGH => "high" | CRITICAL => "critical"
  end.

(** A dictionary from names to numbers, such as [metrics['memory_usage']]. *)
Definition NumDict := odict Q.

(** [d1 == d2] on such dictionaries (keys are distinct; order is ignored). *)
Definition numdict_eqb (d1 d2 : NumDict) : bool :=
  (length d1 =? length d2)
  && forallb (fun kv => match od_get (fst kv) d2 with
                        | Some v => Qeq_bool (snd kv) v
                        | None => false
                        end) d1.

(** The text of a suggestion's ['description'].  The source renders a number
    into it with an f-string; the rendering is kept symbolic, as the
    constructor applied to the number it formats. *)
Inductive Description :=
| DescMemory (memory_mb : Q)        (* 'Process using {memory_mb:.1f}MB of memory' *)
| DescResponse (avg_response : Q)   (* 'Average response time: {avg_response:.2f}s' *)
| DescErrorRate (error_rate : Q)    (* 'Error rate: {error_rate:.2%}' *)
| DescText (s : string).

Definition description_eqb (a b : Description) : bool :=
  match a, b with
  | DescMemory x, DescMemory y => Qeq_bool x y
  | DescResponse x, DescResponse y => Qeq_bool x y
  | DescErrorRate x, DescErrorRate y => Qeq_bool x y
  | DescText x, DescText y => String.eqb x y
  | _, _ => false
  end.

(** A suggestion dictionary.  [s_type = None] stands for a ['type'] that is
    absent or not an [OptimizationType]; [s_risk_level = None] for a
    ['risk_level'] that is absent or not a [RiskLevel]; [s_title = None] for
    an absent ['title']. *)
Record Suggestion := {
  s_type : option OptimizationType;
  s_title : option string;
  s_description : Description;
  s_risk_level : option RiskLevel;
  s_suggested_action : string;
  s_confidence : Q;
  s_metrics : NumDict
}.

(** [a == b] on suggestion dictionaries. *)
Definition suggestion_eqb (a b : Suggestion) : bool :=
  bool_decide (s_type a = s_type b)
  && bool_decide (s_title a = s_title b)
  && description_eqb (s_description a) (s_description b)
  && bool_decide (s_risk_level a = s_risk_level b)
  && String.eqb (s_suggested_action a) (s_suggested_action b)
  && Qeq_bool (s_confidence a) (s_confidence b)
  && numdict_eqb (s_metrics a) (s_metrics b).

(** An entry of [improvement_log] (written by [analyze_performance]). *)
Record LogEntry := {
  l_timestamp : Z;
  l_suggestions_generated : nat
}.

(** An entry of [performance_history]. *)
Record PerfEntry := {
  p_response_time : option Q;
  p_success : option bool
}.

(** The [log_entry] of [log_improvement]. *)
Record AppliedEntry := {
  a_timestamp : Z;
  a_title : option string;
  a_type : string;
  a_risk_level : string;
  a_confidence : Q;
  a_description : Description;
  a_status : string
}.

Record Engine := {
  improvement_log : list LogEntry;
  optimization_suggestions : list Suggestion;
  applied_improvements : list AppliedEntry;
  performance_history : list PerfEntry
}.

(** [__init__] *)
Definition init : Engine :=
  {| improvement_log := []; optimization_suggestions := [];
     applied_improvements := []; performance_history := [] |}.

Definition set_suggestions (l : list Suggestion) (e : Engine) : Engine :=
  {| improvement_log := improvement_log e;
     optimization_suggestions := l;
     applied_improvements := applied_improvements e;
     performance_history := performance_history e |}.

(** The [metrics] argument of [generate_optimization_suggestions]; [None] is
    an absent key or a value that is not a dictionary. *)
Record Metrics := {
  m_memory_usage : option NumDict;
  m_response_times : option NumDict;
  m_error_rates : option NumDict
}.

Definition type_value (t : OptimizationType) : string :=
  match t with
  | PERFORMANCE => "performance" | MEMORY => "memory"
  | RELIABILITY => "reliability" | SECURITY => "security"
  end.

Definition memory_suggestion (memory_usage : NumDict) (memory_mb : Q) : Suggestion :=
  {| s_type := Some MEMORY;
     s_title := Some "High Memory Usage Detected";
     s_description := DescMemory memory_mb;
     s_risk_level := Some MEDIUM;
     s_suggested_action :=
       "Consider optimizing memory usage or increasing available memory";
     s_confidence := 0.8;
     s_metrics := memory_usage |}.

Definition response_suggestion (response_times : NumDict) (avg_response : Q)
    : Suggestion :=
  {| s_type := Some PERFORMANCE;
     s_title := Some "Slow Response Times";
     s_description := DescResponse avg_response;
     s_risk_level := Some LOW;
     s_suggested_action :=
       "Consider caching frequently accessed data or optimizing algorithms";
     s_confidence := 0.7;
     s_metrics := response_times |}.

Definition error_rate_suggestion (error_rates : NumDict) (error_rate : Q)
    : Suggestion :=
  {| s_type := Some RELIABILITY;
     s_title := Some "High Error Rate";
     s_description := DescErrorRate error_rate;
     s_risk_level := Some HIGH;
     s_suggested_action :=
       "Review error patterns and implement additional error handling";
     s_confidence := 0.9;
     s_metrics := error_rates |}.

Definition cleanup_suggestion (suggestion_count : nat) : Suggestion :=
  {| s_type := Some MEMORY;
     s_title := Some "Suggestion Cleanup";
     s_description := DescText "Accumulated many optimization suggestions";
     s_risk_level := Some LOW;
     s_suggested_action :=
       "Clean up old optimization suggestions to free memory";
     s_confidence := 0.6;
     s_metrics := [("suggestion_count", inject_Z (Z.of_nat suggestion_count))] |}.

(** The suggestion of one rule: the metric [key] of the sub-dictionary [d],
    when present and strictly above [threshold]. *)
Definition rule (d : option NumDict) (key : string) (threshold : Q)
    (mk : NumDict -> Q -> Suggestion) : list Suggestion :=
  match d with
  | Some d =>
      match od_get key d with
      | Some v => if Qltb threshold v then [mk d v] else []
      | None => []
      end
  | None => []
  end.

Definition generate_optimization_suggestions (metrics : Metrics) (e : Engine)
    : list Suggestion * Engine :=
  let suggestions :=
    rule (m_memory_usage metrics) "rss_mb" 500 memory_suggestion
    ++ rule (m_response_times metrics) "average" 30 response_suggestion
    ++ rule (m_error_rates metrics) "recent_error_rate" 0.1 error_rate_suggestion
    ++ (if decide (10 < length (optimization_suggestions e))
        then [cleanup_suggestion (length (optimization_suggestions e))]
        else []) in
  (suggestions, set_suggestions (optimization_suggestions e ++ suggestions) e).

Definition _apply_memory_optimization (e : Engine) : bool * Engine :=
  if decide (800 < length (performance_history e)) then
    (true, {| improvement_log := improvement_log e;
              optimization_suggestions := optimization_suggestions e;
              applied_improvements := applied_improvements e;
              performance_history := lastn 500 (performance_history e) |})
  else if decide (100 < length (improvement_log e)) then
    (true, {| improvement_log := lastn 50 (improvement_log e);
              optimization_suggestions := optimization_suggestions e;
              applied_improvements := applied_improvements e;
              performance_history := performance_history e |})
  else (true, e).

Definition apply_improvement (suggestion : Suggestion) (e : Engine)
    : bool * Engine :=
  match s_type suggestion with
  | None => (false, e)
  | Some MEMORY => _apply_memory_optimization e
  | Some PERFORMANCE => (true, e)
  | Some RELIABILITY => (true, e)
  | Some SECURITY => (true, e)
  end.

Definition log_improvement (now : Z) (suggestion : Suggestion) (e : Engine)
    : Engine :=
  match s_type suggestion, s_risk_level suggestion with
  | Some ty, Some risk =>
      let log_entry :=
        {| a_timestamp := now;
           a_title := s_title suggestion;
           a_type := type_value ty;
           a_risk_level := risk_value risk;
           a_confidence := s_confidence suggestion;
           a_description := s_description suggestion;
           a_status := "applied" |} in
      let applied := applied_improvements e ++ [log_entry] in
      {| improvement_log := improvement_log e;
         optimization_suggestions := optimization_suggestions e;
         applied_improvements :=
           if decide (100 < length applied) then lastn 100 applied else applied;
         performance_history := performance_history e |}
  | _, _ => e     (* ['unknown'.value] raises, the handler only logs *)
  end.

(** [x in l] *)
Definition list_contains (x : Suggestion) (l : list Suggestion) : bool :=
  existsb (fun y => suggestion_eqb y x) l.

(** [l.remove(x)]: drops the first element equal to [x]; [None] is the
    [ValueError] raised when there is none. *)
Fixpoint list_remove (x : Suggestion) (l : list Suggestion)
    : option (list Suggestion) :=
  match l with
  | [] => None
  | y :: r =>
      if suggestion_eqb y x then Some r
      else match list_remove x r with
           | Some r' => Some (y :: r')
           | None => None
           end
  end.

Inductive PyError :=
| KeyError (key : string)
| ValueError (msg : string).

(** An element of [results['details']]. *)
Record Detail := {
  det_title : string;
  det_success : bool;
  det_error : option PyError;
  det_risk_level : string
}.

Record Results := {
  implemented : nat;
  skipped : nat;
  failed : nat;
  details : list Detail
}.

Definition results_zero : Results :=
  {| implemented := 0; skipped := 0; failed := 0; details := [] |}.

(** The [except Exception] handler inside the loop. *)
Definition on_exception (err : PyError) (suggestion : Suggestion) (res : Results)
    : Results :=
  {| implemented := implemented res;
     skipped := skipped res;
     failed := failed res + 1;
     details :=
       details res
       ++ [{| det_title := default "unknown" (s_title suggestion);
              det_success := false;
              det_error := Some err;
              det_risk_level :=
                match s_risk_level suggestion with
                | Some r => risk_value r
                | None => "unknown"
                end |}] |}.

(** [results['details'].append({'title': suggestion['title'], ...})], with
    the [KeyError] of a missing title handled as the source does. *)
Definition append_detail (success : bool) (suggestion : Suggestion)
    (res : Results) : Results :=
  match s_title suggestion, s_risk_level suggestion with
  | Some title, Some risk =>
      {| implemented := implemented res; skipped := skipped res;
         failed := failed res;
         details :=
           details res
           ++ [{| det_title := title; det_success := success;
                  det_error := None; det_risk_level := risk_value risk |}] |}
  | None, _ => on_exception (KeyError "title") suggestion res
  | _, None => on_exception (KeyError "risk_level") suggestion res
  end.

Definition bump_implemented (res : Results) : Results :=
  {| implemented := implemented res + 1; skipped := skipped res;
     failed := failed res; details := details res |}.

Definition bump_failed (res : Results) : Results :=
  {| implemented := implemented res; skipped := skipped res;
     failed := failed res + 1; details := details res |}.

(** One iteration of [for suggestion in low_risk_suggestions[:5]]. *)
Definition implement_step (now : Z) (st : Results * Engine)
    (suggestion : Suggestion) : Results * Engine :=
  let '(res, e) := st in
  let '(success, e1) := apply_improvement suggestion e in
  if success then
    let res1 := bump_implemented res in
    let e2 := log_improvement now suggestion e1 in
    match list_remove suggestion (optimization_suggestions e2) with
    | Some l => (append_detail true suggestion res1, set_suggestions l e2)
    | None =>
        (on_exception (ValueError "list.remove(x): x not in list") suggestion res1,
         e2)
    end
  else (append_detail false suggestion (bump_failed res), e1).

(** One iteration of the closing loop
    [for suggestion in low_risk_suggestions[:results['implemented']]]. *)
Definition cleanup_step (e : Engine) (suggestion : Suggestion) : Engine :=
  if list_contains suggestion (optimization_suggestions e) then
    match list_remove suggestion (optimization_suggestions e) with
    | Some l => set_suggestions l e
    | None => e
    end
  else e.

(** [s.get('risk_level') == RiskLevel.LOW] *)
Definition is_low_risk (s : Suggestion) : bool :=
  bool_decide (s_risk_level s = Some LOW).

Definition implement_improvements (now : Z) (e : Engine) : Results * Engine :=
  let low_risk_suggestions :=
    List.filter is_low_risk (optimization_suggestions e) in
  let '(results, e1) :=
    fold_left (implement_step now) (take 5 low_risk_suggestions)
              (results_zero, e) in
  let e2 :=
    fold_left cleanup_step (take (implemented results) low_risk_suggestions) e1 in
  (results, e2).

(** A cycle of the engine, as driven by its callers. *)
Inductive Op :=
| OpGenerate (metrics : Metrics)
| OpImplement (now : Z).

Definition step (e : Engine) (op : Op) : Engine :=
  match op with
  | OpGenerate metrics => snd (generate_optimization_suggestions metrics e)
  | OpImplement now => snd (implement_improvements now e)
  end.

Definition run (ops : list Op) (e : Engine) : Engine := fold_left step ops e.

(** [s.get('risk_level') != RiskLevel.LOW] *)
Definition non_low (s : Suggestion) : bool := negb (is_low_risk s).

(** Metrics with 600 MB of memory in use and a mean response time of 40 s:
    each call of [generate_optimization_suggestions] on them yields one
    MEDIUM memory suggestion and one LOW performance suggestion. *)
Definition busy_metrics : Metrics :=
  {| m_memory_usage := Some [("rss_mb", 600%Q)];
     m_response_times := Some [("average", 40%Q)];
     m_error_rates := None |}.

(** The backlog after six analyses of the same metrics: twelve pending
    suggestions, six of them LOW. *)
Definition repeated_backlog : Engine :=
  run (repeat (OpGenerate busy_metrics) 6) init.

(** A LOW suggestion whose ['type'] is not an [OptimizationType], followed
    by a valid one. *)
Definition untyped_suggestion : Suggestion :=
  {| s_type := None; s_title := Some "Untyped"; s_description := DescText "";
     s_risk_level := Some LOW; s_suggested_action := ""; s_confidence := 0.5;
     s_metrics := [] |}.

Definition mixed_backlog : Engine :=
  set_suggestions [untyped_suggestion; response_suggestion [("average", 40%Q)] 40]
                  init.

(** Metrics with half of the recent requests failing: each call yields one
    HIGH reliability suggestion. *)
Definition failing_metrics : Metrics :=
  {| m_memory_usage := None; m_response_times := None;
     m_error_rates := Some [("recent_error_rate", 0.5%Q)] |}.

(** [n] cycles of analysis followed by implementation. *)
Definition cycles (n : nat) : list Op :=
  flat_map (fun _ => [OpGenerate failing_metrics; OpImplement 0]) (seq 0 n).

(** ** Collecting metrics *)

(** [statistics.mean] of a non-empty list: the exact mean, which the
    source rounds once, to the nearest float. *)
Definition py_mean (l : list Q) : Q :=
  (fold_left Qplus l 0 / inject_Z (Z.of_nat (length l)))%Q.

(** [sorted(l)]: ascending and stable. *)
Fixpoint insert_ascending (x : Q) (l : list Q) : list Q :=
  match l with
  | [] => [x]
  | y :: r => if Qle_bool x y then x :: y :: r else y :: insert_ascending x r
  end.

Definition py_sorted (l : list Q) : list Q := fold_right insert_ascending [] l.

(** [statistics.median] of a non-empty list. *)
Definition py_median (l : list Q) : Q :=
  let data := py_sorted l in
  let n := length data in
  if Nat.even n then
    ((nth (n / 2 - 1) data 0 + nth (n / 2) data 0) / 2)%Q
  else nth (n / 2) data 0%Q.

(** [min(l)] and [max(l)] of a non-empty list: the first minimal, resp.
    maximal, element. *)
Definition py_min (l : list Q) : Q :=
  match l with
  | [] => 0%Q
  | x :: r => fold_left (fun m y => if Qltb y m then y else m) r x
  end.

Definition py_max (l : list Q) : Q :=
  match l with
  | [] => 0%Q
  | x :: r => fold_left (fun m y => if Qltb m y then y else m) r x
  end.

Definition Qcount (n : nat) : Q := inject_Z (Z.of_nat n).

(** [entry.get('response_time', 0)] *)
Definition response_time_of (entry : PerfEntry) : Q :=
  default 0%Q (p_response_time entry).

(** [not entry.get('success', True)] *)
Definition is_error (entry : PerfEntry) : bool :=
  negb (default true (p_success entry)).

(** The entries over which the error rate is taken. *)
Definition recent_entries (e : Engine) : list PerfEntry :=
  if decide (100 < length (performance_history e))
  then lastn 100 (performance_history e)
  else performance_history e.

(** [collect_metrics].  [memory_usage] holds the numbers read from
    [psutil] (none when it is unavailable); the keys ['timestamp'] and
    ['throughput'] are not read by the engine. *)
Definition collect_metrics (memory_usage : NumDict) (e : Engine) : Metrics :=
  let response_times := map response_time_of (performance_history e) in
  {| m_memory_usage := Some memory_usage;
     m_response_times :=
       Some (match response_times with
             | [] => []
             | _ =>
                 [("average", py_mean response_times);
                  ("median", py_median response_times);
                  ("min", py_min response_times);
                  ("max", py_max response_times);
                  ("count", Qcount (length response_times))]
             end);
     m_error_rates :=
       Some (match recent_entries e with
             | [] => []
             | recent =>
                 let error_count := length (List.filter is_error recent) in
                 [("recent_error_rate",
                   (Qcount error_count / Qcount (length recent))%Q);
                  ("total_entries", Qcount (length recent))]
             end) |}.

(** [analyze_performance] *)
Definition analyze_performance (now : Z) (memory_usage : NumDict) (e : Engine)
    : list Suggestion * Engine :=
  let metrics := collect_metrics memory_usage e in
  let '(suggestions, e1) := generate_optimization_suggestions metrics e in
  (suggestions,
   {| improvement_log :=
        improvement_log e1
        ++ [{| l_timestamp := now;
               l_suggestions_generated := length suggestions |}];
      optimization_suggestions := optimization_suggestions e1;
      applied_improvements := applied_improvements e1;
      performance_history := performance_history e1 |}).

(** ** The engine as [execute_deployment_task] (tasks.py) drives it *)

(** The entry appended after a task: it has a ['success'] key and no
    ['response_time'] key. *)
Definition task_entry (success : bool) : PerfEntry :=
  {| p_response_time := None; p_success := Some success |}.

(** [performance_history.append(entry)] on [deque(maxlen=1000)]. *)
Definition record_entry (entry : PerfEntry) (e : Engine) : Engine :=
  {| improvement_log := improvement_log e;
     optimization_suggestions := optimization_suggestions e;
     applied_improvements := applied_improvements e;
     performance_history := deque_append 1000 entry (performance_history e) |}.

(** Is the periodic analysis due? *)
Definition analysis_due (e : Engine) : bool :=
  length (performance_history e) mod 10 =? 0.

(** What [execute_deployment_task] does with the engine after a task that
    returned a result; a task that raises leaves the engine as it was. *)
Definition record_task (now : Z) (memory_usage : NumDict) (success : bool)
    (e : Engine) : Engine :=
  let e1 := record_entry (task_entry success) e in
  if analysis_due e1 then
    let '(suggestions, e2) := analyze_performance now memory_usage e1 in
    match suggestions with
    | [] => e2
    | _ => snd (implement_improvements now e2)
    end
  else e1.

Definition record_tasks (tasks : list (Z * NumDict * bool)) (e : Engine)
    : Engine :=
  fold_left (fun e t => record_task (fst (fst t)) (snd (fst t)) (snd t) e)
            tasks e.

(** An engine fed by task runs only: no entry of its history carries a
    response time, no pending suggestion is about response times, the
    pending LOW suggestions and the applied ones are suggestion
    cleanups. *)
Definition task_engine (e : Engine) : Prop :=
  length (performance_history e) <= 1000
  /\ Forall (fun entry => p_response_time entry = None) (performance_history e)
  /\ Forall (fun x => s_type x <> Some PERFORMANCE
                      /\ (is_low_risk x = true ->
                          s_title x = Some "Suggestion Cleanup"))
            (optimization_suggestions e)
  /\ length (applied_improvements e) <= 100
  /\ Forall (fun a => a_title a = Some "Suggestion Cleanup")
            (applied_improvements e).

End Improvement.

(** * InterAgentLearningCoordinator *)

Module Coordinator.

Inductive LearningType :=
| EXPERIENCE_SHARING | PATTERN_RECOGNITION | COLLABORATIVE_PROBLEM_SOLVING
| KNOWLEDGE_TRANSFER | PERFORMANCE_IMPROVEMENT | ERROR_PREVENTION.

Inductive AgentCapability :=
| CODE_GENERATION | CODE_REVIEW | TESTING | DEBUGGING | DEPLOYMENT
| MONITORING | SECURITY_SCANNING | PERFORMANCE_OPTIMIZATION.

#[export] Instance AgentCapability_eq_dec : EqDecision AgentCapability.
Proof. solve_decision. Defined.

(** [AgentCapability.value] *)
Definition capability_value (c : AgentCapability) : string :=
  match c with
  | CODE_GENERATION => "code_generation"
  | CODE_REVIEW => "code_review"
  | TESTING => "testing"
  | DEBUGGING => "debugging"
  | DEPLOYMENT => "deployment"
  | MONITORING => "monitoring"
  | SECURITY_SCANNING => "security_scanning"
  | PERFORMANCE_OPTIMIZATION => "performance_optimization"
  end.

Definition all_capabilities : list AgentCapability :=
  [CODE_GENERATION; CODE_REVIEW; TESTING; DEBUGGING; DEPLOYMENT; MONITORING;
   SECURITY_SCANNING; PERFORMANCE_OPTIMIZATION].

(** [AgentCapability(value)]; [None] is the [ValueError] of an unknown value. *)
Definition capability_of_value (v : string) : option AgentCapability :=
  List.find (fun c => String.eqb (capability_value c) v) all_capabilities.

(** An identifier: a caller's string or the text of a generated uuid. *)
Inductive Ident :=
| IdStr (s : string)
| IdUuid (n : nat).

(** [experience.outcome]: the three keys the coordinator reads (absent keys
    read as the empty list) and the remaining items. *)
Record Outcome := {
  o_success_patterns : list string;
  o_failure_patterns : list string;
  o_best_practices : list string;
  o_other : odict PyVal
}.

(** A [LearningExperience]; [context] is a dictionary with string values.
    The deque stores [to_dict()] of it, which holds the same fields with
    the two enumerations replaced by their values. *)
Record LearningExperience := {
  experience_id : Ident;
  agent_id : string;
  agent_type : string;
  learning_type : LearningType;
  capability : AgentCapability;
  context : odict string;
  outcome : Outcome;
  success : bool;
  confidence : Q;
  lessons_learned : list string;
  timestamp : Z;
  metadata : odict PyVal
}.

Record AgentProfile := {
  p_agent_id : string;
  p_agent_type : string;
  capabilities : list AgentCapability;
  experience_count : nat;
  success_rate : Q;
  average_confidence : Q;
  specializations : list string;
  collaboration_history : list string;
  last_active : Z;
  reputation_score : Q
}.

(** ['pending', 'accepted', 'rejected', 'applied'] *)
Inductive Status := pending | accepted | rejected | applied.

#[export] Instance Status_eq_dec : EqDecision Status.
Proof. solve_decision. Defined.

(** [KnowledgeTransfer.content]: the dictionary built by
    [_extract_knowledge_content] or the one built by
    [request_knowledge_transfer]. *)
Inductive Content :=
| Extracted (capability : string) (context_summary : string)
            (lessons_learned success_patterns failure_patterns
               best_practices : list string)
            (metadata : odict PyVal)
| Requested (experiences : list LearningExperience)
            (capability_focus : string) (knowledge_summary : string).

Record KnowledgeTransfer := {
  transfer_id : nat;
  from_agent : string;
  to_agent : string;
  knowledge_type : string;
  content : Content;
  t_confidence : Q;
  t_timestamp : Z;
  status : Status
}.

Record LearningMetrics := {
  total_experiences : nat;
  successful_transfers : nat;
  failed_transfers : nat;
  collaboration_count : nat;
  knowledge_base_size : nat
}.

(** The in-memory state of the coordinator; [uuid_count] is the number of
    uuids drawn so far. *)
Record State := {
  agent_profiles : odict AgentProfile;
  learning_experiences : list LearningExperience;
  knowledge_transfers : gmap nat KnowledgeTransfer;
  active_agents : gset string;
  collaboration_network : gmap string (list string);
  learning_metrics : LearningMetrics;
  uuid_count : nat
}.

(** [deque(maxlen=10000)] *)
Definition max_experiences : nat := 100 * 100.

(** [__init__] *)
Definition init : State :=
  {| agent_profiles := [];
     learning_experiences := [];
     knowledge_transfers := ∅;
     active_agents := ∅;
     collaboration_network := ∅;
     learning_metrics :=
       {| total_experiences := 0; successful_transfers := 0;
          failed_transfers := 0; collaboration_count := 0;
          knowledge_base_size := 0 |};
     uuid_count := 0 |}.

Definition set_profiles (ps : odict AgentProfile) (s : State) : State :=
  {| agent_profiles := ps;
     learning_experiences := learning_experiences s;
     knowledge_transfers := knowledge_transfers s;
     active_agents := active_agents s;
     collaboration_network := collaboration_network s;
     learning_metrics := learning_metrics s;
     uuid_count := uuid_count s |}.

Definition set_experiences (l : list LearningExperience) (s : State) : State :=
  {| agent_profiles := agent_profiles s;
     learning_experiences := l;
     knowledge_transfers := knowledge_transfers s;
     active_agents := active_agents s;
     collaboration_network := collaboration_network s;
     learning_metrics := learning_metrics s;
     uuid_count := uuid_count s |}.

Definition set_transfers (m : gmap nat KnowledgeTransfer) (s : State) : State :=
  {| agent_profiles := agent_profiles s;
     learning_experiences := learning_experiences s;
     knowledge_transfers := m;
     active_agents := active_agents s;
     collaboration_network := collaboration_network s;
     learning_metrics := learning_metrics s;
     uuid_count := uuid_count s |}.

Definition set_network (n : gmap string (list string)) (s : State) : State :=
  {| agent_profiles := agent_profiles s;
     learning_experiences := learning_experiences s;
     knowledge_transfers := knowledge_transfers s;
     active_agents := active_agents s;
     collaboration_network := n;
     learning_metrics := learning_metrics s;
     uuid_count := uuid_count s |}.

Definition set_metrics (m : LearningMetrics) (s : State) : State :=
  {| agent_profiles := agent_profiles s;
     learning_experiences := learning_experiences s;
     knowledge_transfers := knowledge_transfers s;
     active_agents := active_agents s;
     collaboration_network := collaboration_network s;
     learning_metrics := m;
     uuid_count := uuid_count s |}.

(** [uuid.uuid4()] *)
Definition uuid4 (s : State) : nat * State :=
  (uuid_count s,
   {| agent_profiles := agent_profiles s;
      learning_experiences := learning_experiences s;
      knowledge_transfers := knowledge_transfers s;
      active_agents := active_agents s;
      collaboration_network := collaboration_network s;
      learning_metrics := learning_metrics s;
      uuid_count := S (uuid_count s) |}).

(** [register_agent]; the list of capabilities is the caller's own, not
    shared with another profile. *)
Definition register_agent (now : Z) (agent_id agent_type : string)
    (caps : list AgentCapability) (s : State) : AgentProfile * State :=
  let profile :=
    {| p_agent_id := agent_id;
       p_agent_type := agent_type;
       capabilities := caps;
       experience_count := 0;
       success_rate := 0;
       average_confidence := 0;
       specializations := [];
       collaboration_history := [];
       last_active := now;
       reputation_score := 0.5%Q |} in
  (profile,
   {| agent_profiles := od_set agent_id profile (agent_profiles s);
      learning_experiences := learning_experiences s;
      knowledge_transfers := knowledge_transfers s;
      active_agents := {[agent_id]} ∪ active_agents s;
      collaboration_network := collaboration_network s;
      learning_metrics := learning_metrics s;
      uuid_count := uuid_count s |}).

(** [x in l] for a list of strings. *)
Definition str_in (x : string) (l : list string) : bool :=
  existsb (String.eqb x) l.

(** [l.append(x)] guarded by [if x not in l]. *)
Definition append_new (x : string) (l : list string) : list string :=
  if str_in x l then l else l ++ [x].

Definition cap_in (c : AgentCapability) (l : list AgentCapability) : bool :=
  existsb (fun c' => bool_decide (c = c')) l.

(** The body of [_update_agent_profile] once the profile is found. *)
Definition update_profile (now : Z) (experience : LearningExperience)
    (profile : AgentProfile) : AgentProfile :=
  let experience_count' := experience_count profile + 1 in
  let observed : Q := (if success experience then 1 else 0)%Q in
  let alpha : Q := 0.3%Q in
  let success_rate' :=
    if decide (experience_count' = 1) then observed
    else ((1 - alpha) * success_rate profile + alpha * observed)%Q in
  let average_confidence' :=
    if decide (experience_count' = 1) then confidence experience
    else ((1 - alpha) * average_confidence profile
          + alpha * confidence experience)%Q in
  let reputation_boost :=
    (confidence experience * (if success experience then 1 else -0.5)%Q)%Q in
  let reputation' :=
    Qmin 1 (Qmax 0 (reputation_score profile + reputation_boost * 0.1)%Q) in
  let specializations' :=
    if success experience && Qltb 0.8%Q (confidence experience)
    then append_new (capability_value (capability experience))
                    (specializations profile)
    else specializations profile in
  {| p_agent_id := p_agent_id profile;
     p_agent_type := p_agent_type profile;
     capabilities := capabilities profile;
     experience_count := experience_count';
     success_rate := success_rate';
     average_confidence := average_confidence';
     specializations := specializations';
     collaboration_history := collaboration_history profile;
     last_active := now;
     reputation_score := reputation' |}.

Definition _update_agent_profile (now : Z) (agent : string)
    (experience : LearningExperience) (s : State) : State :=
  match od_get agent (agent_profiles s) with
  | None => s
  | Some profile =>
      set_profiles
        (od_set agent (update_profile now experience profile) (agent_profiles s))
        s
  end.

(** [s.lower()]: the letters A to Z are lowered and every other byte is
    kept, which is the result of [str.lower] for a text whose cased letters
    are ASCII. *)
Definition py_lower_char (c : ascii) : ascii :=
  let n := nat_of_ascii c in
  if (65 <=? n) && (n <=? 90) then ascii_of_nat (n + 32) else c.

Fixpoint py_lower (s : string) : string :=
  match s with
  | EmptyString => EmptyString
  | String c r => String (py_lower_char c) (py_lower r)
  end.

(** [needle in hay] *)
Fixpoint str_contains (needle hay : string) : bool :=
  if String.prefix needle hay then true
  else match hay with
       | EmptyString => false
       | String _ r => str_contains needle r
       end.

Definition hex_digit (n : nat) : ascii :=
  ascii_of_nat (if n <? 10 then 48 + n else 87 + n).

(** One character of [repr(s)] between the quotes: the quote in use and
    the backslash are escaped, TAB, LF and CR are written [\t], [\n] and
    [\r], the other control characters of ASCII [\xNN]. *)
Definition repr_char (quote : ascii) (c : ascii) : string :=
  let n := nat_of_ascii c in
  if Ascii.eqb c quote || (n =? 92) then
    String (ascii_of_nat 92) (String c EmptyString)
  else if n =? 9 then "\t"
  else if n =? 10 then "\n"
  else if n =? 13 then "\r"
  else if (n <? 32) || (n =? 127) then
    String (ascii_of_nat 92)
      (String "x" (String (hex_digit (n / 16))
                     (String (hex_digit (n mod 16)) EmptyString)))
  else String c EmptyString.

Fixpoint repr_chars (quote : ascii) (s : string) : string :=
  match s with
  | EmptyString => EmptyString
  | String c r => String.append (repr_char quote c) (repr_chars quote r)
  end.

Fixpoint has_char (c : ascii) (s : string) : bool :=
  match s with
  | EmptyString => false
  | String c' r => Ascii.eqb c c' || has_char c r
  end.

(** [repr(s)]: double quotes are used when the text holds a single quote
    and no double one. Characters beyond ASCII are kept as they are, which
    is what [repr] does with the printable ones. *)
Definition py_repr (s : string) : string :=
  let single := ascii_of_nat 39 in
  let double := ascii_of_nat 34 in
  let quote :=
    if has_char single s && negb (has_char double s) then double else single in
  String quote (String.append (repr_chars quote s) (String quote EmptyString)).

(** [str(context)] *)
Definition py_str_dict (d : odict string) : string :=
  String.append "{"
    (String.append
       (String.concat ", "
          (map (fun kv => String.append (py_repr (fst kv))
                            (String.append ": " (py_repr (snd kv)))) d))
       "}").

(** Does the agent behind [profile], registered as [agent], benefit from
    the experience?  The three tests of the loop body, in order. *)
Definition is_relevant (network : gmap string (list string))
    (experience : LearningExperience) (agent : string)
    (profile : AgentProfile) : bool :=
  if String.eqb agent (agent_id experience) then false
  else if cap_in (capability experience) (capabilities profile) then true
  else
    let agent_specializations := map py_lower (specializations profile) in
    let experience_context := py_lower (py_str_dict (context experience)) in
    if existsb (fun spec => str_contains spec experience_context)
               agent_specializations
    then true
    else str_in (agent_id experience) (default [] (network !! agent)).

Definition _find_relevant_agents (experience : LearningExperience) (s : State)
    : list string :=
  take 5
    (map fst
       (List.filter
          (fun kv => is_relevant (collaboration_network s) experience
                       (fst kv) (snd kv))
          (agent_profiles s))).

Definition _summarize_context (context : odict string) : string :=
  let element (label key : string) : list string :=
    match od_get key context with
    | Some v => [String.append label v]
    | None => []
    end in
  let key_elements :=
    element "Task: " "task_type" ++ element "Complexity: " "complexity"
    ++ element "Domain: " "domain" in
  match key_elements with
  | [] => "General context"
  | _ => String.concat " | " key_elements
  end.

Definition _extract_knowledge_content (experience : LearningExperience)
    : Content :=
  Extracted (capability_value (capability experience))
            (_summarize_context (context experience))
            (lessons_learned experience)
            (o_success_patterns (outcome experience))
            (o_failure_patterns (outcome experience))
            (o_best_practices (outcome experience))
            (metadata experience).

(** One iteration of [for agent_id in relevant_agents] in
    [share_learning_experience]. *)
Definition offer_transfer (now : Z) (experience : LearningExperience)
    (s : State) (agent : string) : State :=
  if String.eqb agent (agent_id experience) then s
  else
    let '(tid, s1) := uuid4 s in
    let transfer :=
      {| transfer_id := tid;
         from_agent := agent_id experience;
         to_agent := agent;
         knowledge_type := capability_value (capability experience);
         content := _extract_knowledge_content experience;
         t_confidence := confidence experience;
         t_timestamp := now;
         status := pending |} in
    let s2 := set_transfers (<[tid := transfer]> (knowledge_transfers s1)) s1 in
    set_network
      (<[agent_id experience :=
           default [] (collaboration_network s2 !! agent_id experience)
           ++ [agent]]> (collaboration_network s2))
      s2.

Definition share_learning_experience (now : Z) (experience : LearningExperience)
    (s : State) : bool * State :=
  let s1 :=
    set_experiences
      (deque_append max_experiences experience (learning_experiences s)) s in
  let s2 := _update_agent_profile now (agent_id experience) experience s1 in
  let relevant_agents := _find_relevant_agents experience s2 in
  let s3 := fold_left (offer_transfer now experience) relevant_agents s2 in
  let s4 :=
    set_metrics
      {| total_experiences := total_experiences (learning_metrics s3) + 1;
         successful_transfers := successful_transfers (learning_metrics s3);
         failed_transfers := failed_transfers (learning_metrics s3);
         collaboration_count := collaboration_count (learning_metrics s3);
         knowledge_base_size := length (learning_experiences s3) |}
      s3 in
  (true, s4).

(** The comprehension of [request_knowledge_transfer]. *)
Definition transferable (from : string) (cap : AgentCapability)
    (exp : LearningExperience) : bool :=
  String.eqb (agent_id exp) from
  && String.eqb (capability_value (capability exp)) (capability_value cap)
  && bool_decide (success exp = true)
  && Qltb 0.7%Q (confidence exp).

Definition Qsum (l : list Q) : Q := fold_left Qplus l 0%Q.

(** The transfer built by [request_knowledge_transfer] from the relevant
    experiences; its confidence is their exact mean, of which the source
    keeps the float it gets by rounding each sum and the quotient. *)
Definition requested_transfer (now : Z) (tid : nat) (from to : string)
    (cap : AgentCapability) (relevant_experiences : list LearningExperience)
    : KnowledgeTransfer :=
  {| transfer_id := tid;
     from_agent := from;
     to_agent := to;
     knowledge_type := capability_value cap;
     content :=
       Requested (lastn 3 relevant_experiences) (capability_value cap)
         (String.append "Knowledge transfer for "
            (String.append (capability_value cap)
               (String.append " from " from)));
     t_confidence :=
       (Qsum (map confidence relevant_experiences)
        / inject_Z (Z.of_nat (length relevant_experiences)))%Q;
     t_timestamp := now;
     status := pending |}.

Definition request_knowledge_transfer (now : Z) (from to : string)
    (cap : AgentCapability) (s : State) : option nat * State :=
  let relevant_experiences :=
    List.filter (transferable from cap) (learning_experiences s) in
  match relevant_experiences with
  | [] => (None, s)
  | _ =>
      let '(tid, s1) := uuid4 s in
      let transfer :=
        requested_transfer now tid from to cap relevant_experiences in
      let s2 := set_transfers (<[tid := transfer]> (knowledge_transfers s1)) s1 in
      let peers := default [] (collaboration_network s2 !! from) in
      let s3 :=
        set_network (<[from := append_new to peers]> (collaboration_network s2))
                    s2 in
      (Some tid, s3)
  end.

(** The body of [_apply_knowledge_to_agent] once the profile is found and
    the capability is parsed. *)
Definition receive_knowledge (cap : AgentCapability) (knowledge_type : string)
    (profile : AgentProfile) : AgentProfile :=
  {| p_agent_id := p_agent_id profile;
     p_agent_type := p_agent_type profile;
     capabilities :=
       if cap_in cap (capabilities profile) then capabilities profile
       else capabilities profile ++ [cap];
     experience_count := experience_count profile;
     success_rate := success_rate profile;
     average_confidence := average_confidence profile;
     specializations := append_new knowledge_type (specializations profile);
     collaboration_history := collaboration_history profile;
     last_active := last_active profile;
     reputation_score := Qmin 1 (reputation_score profile + 0.05)%Q |}.

Definition _apply_knowledge_to_agent (transfer : KnowledgeTransfer) (s : State)
    : State :=
  let target_agent_id := to_agent transfer in
  match od_get target_agent_id (agent_profiles s) with
  | None => s
  | Some profile =>
      match capability_of_value (knowledge_type transfer) with
      | None => s       (* ValueError: logged by the handler *)
      | Some cap =>
          set_profiles
            (od_set target_agent_id
               (receive_knowledge cap (knowledge_type transfer) profile)
               (agent_profiles s))
            s
      end
  end.

(** The experience built by [_learn_from_transfer_success]. *)
Definition transfer_experience (now : Z) (eid : nat) (cap : AgentCapability)
    (transfer : KnowledgeTransfer) : LearningExperience :=
  {| experience_id := IdUuid eid;
     agent_id := from_agent transfer;
     agent_type := "learning_coordinator";
     learning_type := KNOWLEDGE_TRANSFER;
     capability := cap;
     context :=
       [("transfer_type", "knowledge_sharing");
        ("target_agent", to_agent transfer);
        ("knowledge_type", knowledge_type transfer)];
     outcome :=
       {| o_success_patterns := []; o_failure_patterns := [];
          o_best_practices := [];
          o_other :=
            [("success", PyBool true);
             ("collaboration_benefit", PyStr "knowledge_shared");
             ("reputation_impact", PyStr "positive")] |};
     success := true;
     confidence := t_confidence transfer;
     lessons_learned :=
       [String.append "Knowledge transfer for "
          (String.append (knowledge_type transfer) " was successful");
        "Collaboration between agents improves overall system performance";
        "High-confidence knowledge is more likely to be accepted"];
     timestamp := now;
     metadata := [("transfer_id", PyUuid (transfer_id transfer))] |}.

Definition _learn_from_transfer_success (now : Z) (transfer : KnowledgeTransfer)
    (s : State) : State :=
  let '(eid, s1) := uuid4 s in
  match capability_of_value (knowledge_type transfer) with
  | None => s1          (* ValueError: logged by the handler *)
  | Some cap =>
      snd (share_learning_experience now
             (transfer_experience now eid cap transfer) s1)
  end.

Definition set_status (st : Status) (t : KnowledgeTransfer) : KnowledgeTransfer :=
  {| transfer_id := transfer_id t;
     from_agent := from_agent t;
     to_agent := to_agent t;
     knowledge_type := knowledge_type t;
     content := content t;
     t_confidence := t_confidence t;
     t_timestamp := t_timestamp t;
     status := st |}.

Definition process_knowledge_transfer (now : Z) (tid : nat) (accept : bool)
    (s : State) : bool * State :=
  match knowledge_transfers s !! tid with
  | None => (false, s)
  | Some transfer =>
      if accept then
        let transfer' := set_status accepted transfer in
        let s1 := set_transfers (<[tid := transfer']> (knowledge_transfers s)) s in
        let s2 := _apply_knowledge_to_agent transfer' s1 in
        let s3 := _learn_from_transfer_success now transfer' s2 in
        let m := learning_metrics s3 in
        (true,
         set_metrics
           {| total_experiences := total_experiences m;
              successful_transfers := successful_transfers m + 1;
              failed_transfers := failed_transfers m;
              collaboration_count := collaboration_count m;
              knowledge_base_size := knowledge_base_size m |}
           s3)
      else
        let transfer' := set_status rejected transfer in
        let s1 := set_transfers (<[tid := transfer']> (knowledge_transfers s)) s in
        let m := learning_metrics s1 in
        (true,
         set_metrics
           {| total_experiences := total_experiences m;
              successful_transfers := successful_transfers m;
              failed_transfers := failed_transfers m + 1;
              collaboration_count := collaboration_count m;
              knowledge_base_size := knowledge_base_size m |}
           s1)
  end.

(** ** Readers of the experience store *)

(** A recommendation dictionary of [get_agent_recommendations]; the texts
    of ['reason'] and ['suggested_action'] are determined by the fields kept
    here. *)
Inductive Recommendation :=
| LearnFromExpert (recommended_agent capability : string) (confidence : Q)
                  (experiences : nat)
| PatternBased (capability : string) (confidence : Q) (context : string).

(** [d[key].append(x)] on a [defaultdict(list)]. *)
Definition group_append {A} (key : string) (x : A) (d : odict (list A))
    : odict (list A) :=
  od_set key (default [] (od_get key d) ++ [x]) d.

(** The first comprehension of [get_agent_recommendations]. *)
Definition recommendable (agent : string) (cap : AgentCapability)
    (exp : LearningExperience) : bool :=
  String.eqb (capability_value (capability exp)) (capability_value cap)
  && bool_decide (success exp = true)
  && negb (String.eqb (agent_id exp) agent)
  && Qltb 0.7%Q (confidence exp).

Definition count_successes (l : list LearningExperience) : nat :=
  length (List.filter success l).

Definition Qof_nat (n : nat) : Q := inject_Z (Z.of_nat n).

(** The loop over [agent_performance]; the mean confidence is the exact
    one, which the source rounds before it compares it with 0.8. *)
Definition expert_recommendations (experiences : list LearningExperience)
    (agent : string) (cap : AgentCapability) : list Recommendation :=
  let relevant_experiences := List.filter (recommendable agent cap) experiences in
  let agent_performance :=
    fold_left (fun d exp => group_append (agent_id exp) exp d)
              relevant_experiences [] in
  flat_map
    (fun kv =>
       let experiences := snd kv in
       if decide (2 <= length experiences) then
         let avg_confidence :=
           (Qsum (map confidence experiences) / Qof_nat (length experiences))%Q in
         let success_rate :=
           (Qof_nat (count_successes experiences)
            / Qof_nat (length experiences))%Q in
         if Qltb 0.8%Q avg_confidence && Qltb 0.7%Q success_rate
         then [LearnFromExpert (fst kv) (capability_value cap) avg_confidence
                 (length experiences)]
         else []
       else [])
    agent_performance.

(** [sorted(items, key=lambda x: x[1], reverse=True)], stable. *)
Fixpoint insert_by_count (x : string * nat) (l : list (string * nat))
    : list (string * nat) :=
  match l with
  | [] => [x]
  | y :: r =>
      if snd y <=? snd x then x :: y :: r else y :: insert_by_count x r
  end.

Definition sort_by_count_desc (l : list (string * nat)) : list (string * nat) :=
  fold_right insert_by_count [] l.

(** [common_contexts[key] += 1] on a [defaultdict(int)]. *)
Definition count_up (key : string) (d : odict nat) : odict nat :=
  od_set key (default 0 (od_get key d) + 1) d.

(** [_get_pattern_recommendations]; the tally of lessons it also builds
    is not used for its result. *)
Definition _get_pattern_recommendations (experiences : list LearningExperience)
    (cap : AgentCapability) : list Recommendation :=
  let successful_experiences :=
    List.filter
      (fun exp =>
         String.eqb (capability_value (capability exp)) (capability_value cap)
         && bool_decide (success exp = true))
      experiences in
  if decide (3 <= length successful_experiences) then
    let common_contexts :=
      fold_left (fun d exp => count_up (_summarize_context (context exp)) d)
                successful_experiences [] in
    let top_contexts := take 3 (sort_by_count_desc common_contexts) in
    flat_map
      (fun kv =>
         if decide (2 <= snd kv) then
           [PatternBased (capability_value cap)
              (Qmin 0.9 (Qof_nat (snd kv) * 0.2)%Q) (fst kv)]
         else [])
      top_contexts
  else [].

(** [get_agent_recommendations], as a function of the experiences read. *)
Definition recommendations_from (experiences : list LearningExperience)
    (agent : string) (cap : AgentCapability) : list Recommendation :=
  take 5 (expert_recommendations experiences agent cap
          ++ _get_pattern_recommendations experiences cap).

Definition get_agent_recommendations (agent : string) (cap : AgentCapability)
    (s : State) : list Recommendation :=
  recommendations_from (learning_experiences s) agent cap.


(** An entry of [report['learning_patterns']]. *)
Record Pattern := {
  pat_experience_count : nat;
  pat_success_rate : Q;
  pat_average_confidence : Q;
  pat_trend : string
}.

(** [report['learning_patterns']], as a function of the experiences read. *)
Definition learning_patterns_from (experiences : list LearningExperience)
    : odict Pattern :=
  let capability_experiences :=
    fold_left
      (fun d exp => group_append (capability_value (capability exp)) exp d)
      experiences [] in
  flat_map
    (fun kv =>
       let experiences := snd kv in
       if decide (5 <= length experiences) then
         let success_rate :=
           (Qof_nat (count_successes experiences)
            / Qof_nat (length experiences))%Q in
         let avg_confidence :=
           (Qsum (map confidence experiences) / Qof_nat (length experiences))%Q in
         [(fst kv,
           {| pat_experience_count := length experiences;
              pat_success_rate := success_rate;
              pat_average_confidence := avg_confidence;
              pat_trend := if Qltb 0.7%Q success_rate then "improving"
                           else "needs_attention" |})]
       else [])
    capability_experiences.

(** The ['learning_patterns'] entry of [generate_learning_report], the
    one entry of the report that reads the experiences. *)
Definition report_learning_patterns (s : State) : odict Pattern :=
  learning_patterns_from (learning_experiences s).

(** The ['metrics'] entry of the report: a copy of the counters. *)
Definition report_metrics (s : State) : LearningMetrics := learning_metrics s.

(** An entry of [report['agent_statistics']]. *)
Record AgentStatistics := {
  stat_type : string;
  stat_experience_count : nat;
  stat_success_rate : Q;
  stat_reputation : Q;
  stat_specializations : list string
}.

Definition statistics_of (profile : AgentProfile) : AgentStatistics :=
  {| stat_type := p_agent_type profile;
     stat_experience_count := experience_count profile;
     stat_success_rate := success_rate profile;
     stat_reputation := reputation_score profile;
     stat_specializations := specializations profile |}.

(** The ['agent_statistics'] entry of the report, read off the profiles. *)
Definition report_agent_statistics (s : State) : odict AgentStatistics :=
  map (fun kv => (fst kv, statistics_of (snd kv))) (agent_profiles s).

(** The calls a client can make on the coordinator. *)
Inductive Op :=
| OpRegister (now : Z) (agent_id agent_type : string)
             (caps : list AgentCapability)
| OpShare (now : Z) (experience : LearningExperience)
| OpRequest (now : Z) (from to : string) (cap : AgentCapability)
| OpProcess (now : Z) (tid : nat) (accept : bool).

Definition step (s : State) (op : Op) : State :=
  match op with
  | OpRegister now a ty caps => snd (register_agent now a ty caps s)
  | OpShare now e => snd (share_learning_experience now e s)
  | OpRequest now from to cap => snd (request_knowledge_transfer now from to cap s)
  | OpProcess now tid accept => snd (process_knowledge_transfer now tid accept s)
  end.

Definition run (ops : list Op) (s : State) : State := fold_left step ops s.

(** ** Invariants and relations used to state the properties *)

Definition unit_interval (x : Q) : Prop := (0 <= x /\ x <= 1)%Q.

Definition rates_bounded (p : AgentProfile) : Prop :=
  unit_interval (success_rate p) /\ unit_interval (reputation_score p).

Definition confidence_bounded (p : AgentProfile) : Prop :=
  unit_interval (average_confidence p).

(** Every transfer on record was filed under a uuid already drawn, names a
    capability, and is not marked [applied]. *)
Definition wf (s : State) : Prop :=
  map_Forall
    (fun k t => k < uuid_count s
                /\ is_Some (capability_of_value (knowledge_type t))
                /\ status t <> applied)
    (knowledge_transfers s).

#[export] Instance wf_dec (s : State) : Decision (wf s).
Proof. unfold wf. apply _. Defined.

(** A transfer as [share_learning_experience] files it for an experience. *)
Definition offered_for (e : LearningExperience) (t : KnowledgeTransfer) : Prop :=
  status t = pending
  /\ knowledge_type t = capability_value (capability e)
  /\ t_confidence t = confidence e.

(** [s'] holds the transfers of [s], untouched, and new ones offered for [e]
    under uuids drawn in between. *)
Definition transfers_extended (e : LearningExperience) (s s' : State) : Prop :=
  uuid_count s <= uuid_count s'
  /\ (forall k, k < uuid_count s ->
        knowledge_transfers s' !! k = knowledge_transfers s !! k)
  /\ (forall k t, knowledge_transfers s' !! k = Some t ->
        knowledge_transfers s !! k = Some t
        \/ (uuid_count s <= k < uuid_count s' /\ offered_for e t)).

(** The confidences on record all lie in the unit interval. *)
Definition confidences_bounded (s : State) : Prop :=
  Forall (fun kv => confidence_bounded (snd kv)) (agent_profiles s)
  /\ Forall (fun e => unit_interval (confidence e)) (learning_experiences s)
  /\ map_Forall (fun _ t => unit_interval (t_confidence t))
                (knowledge_transfers s).

(** A call whose experience, if any, reports a confidence in the unit
    interval. *)
Definition confident_op (op : Op) : Prop :=
  match op with
  | OpShare _ e => unit_interval (confidence e)
  | _ => True
  end.

(** ** Concrete scenarios *)

Definition testing_experience (agent : string) (c : Q) : LearningExperience :=
  {| experience_id := IdStr "exp";
     agent_id := agent;
     agent_type := "TestingAgent";
     learning_type := EXPERIENCE_SHARING;
     capability := TESTING;
     context := [("task_type", "integration_testing")];
     outcome := {| o_success_patterns := []; o_failure_patterns := [];
                   o_best_practices := []; o_other := [] |};
     success := true;
     confidence := c;
     lessons_learned := [];
     timestamp := 0;
     metadata := [] |}.

(** Agents A ([testing]) and B ([code_review]) register. *)
Definition register_ops : list Op :=
  [OpRegister 0 "A" "TestingAgent" [TESTING];
   OpRegister 0 "B" "CodeReviewAgent" [CODE_REVIEW]].

Definition two_agents : State := run register_ops init.

(** ... then A shares three successful testing experiences at confidence
    0.9. *)
Definition scenario_ops : list Op :=
  register_ops
  ++ [OpShare 1 (testing_experience "A" 0.9);
      OpShare 2 (testing_experience "A" 0.9);
      OpShare 3 (testing_experience "A" 0.9)].

Definition shared_thrice : State := run scenario_ops init.

(** ... then a transfer of testing from A to B is requested. *)
Definition requested_state : State :=
  run (scenario_ops ++ [OpRequest 4 "A" "B" TESTING]) init.

(** ... and accepted. *)
Definition accepted_state : State :=
  run (scenario_ops ++ [OpRequest 4 "A" "B" TESTING; OpProcess 5 0 true]) init.


(** A transfer from A to an agent that never registered is requested. *)
Definition stranger_state : State :=
  run (scenario_ops ++ [OpRequest 4 "A" "Z" TESTING]) init.

(** An agent whose first experience reports a confidence of 1.5. *)
Definition overconfident : State :=
  run [OpRegister 0 "A" "TestingAgent" [TESTING];
       OpShare 1 (testing_experience "A" 1.5)] init.

(** A batch of [share_learning_experience] calls. *)
Definition share_ops (shares : list (Z * LearningExperience)) : list Op :=
  map (fun x => OpShare (fst x) (snd x)) shares.

(** The number of experiences of a batch that an agent shared. *)
Definition shared_by (a : string) (shares : list (Z * LearningExperience))
    : nat :=
  length (List.filter (fun x => String.eqb (agent_id (snd x)) a) shares).

(** Ten thousand experiences of B, which fill the store. *)
Definition full_batch : list (Z * LearningExperience) :=
  repeat (1%Z, testing_experience "B" 0.9) max_experiences.

(** The reputation on record for an agent, if it is registered. *)
Definition reputation_of (agent : string) (s : State) : option Q :=
  reputation_score <$> od_get agent (agent_profiles s).


Definition status_of (tid : nat) (s : State) : option Status :=
  status <$> knowledge_transfers s !! tid.


(** ** Collaboration opportunities *)


(** [set(cap.value for cap in profile.capabilities)] *)
Definition capability_values (profile : AgentProfile) : gset string :=
  list_to_set (map capability_value (capabilities profile)).






(** ** Removing inactive agents *)

(** [del d[k]] *)
Definition od_del {V} (k : string) (d : odict V) : odict V :=
  List.filter (fun kv => negb (String.eqb (fst kv) k)) d.

(** One iteration of [for agent_id in inactive_agents]. *)
Definition remove_agent (s : State) (agent : string) : State :=
  {| agent_profiles := od_del agent (agent_profiles s);
     learning_experiences := learning_experiences s;
     knowledge_transfers := knowledge_transfers s;
     active_agents := active_agents s ∖ {[agent]};
     collaboration_network := collaboration_network s;
     learning_metrics := learning_metrics s;
     uuid_count := uuid_count s |}.

(** [profile.last_active < cutoff_time] *)
Definition is_inactive (cutoff_time : Z) (profile : AgentProfile) : bool :=
  bool_decide (last_active profile < cutoff_time)%Z.

(** The first and the last [datetime]: the years 1 to 9999. *)
Definition datetime_min : Z := (-62135596800000000)%Z.
Definition datetime_max : Z := 253402300799999999%Z.

(** [now - timedelta(days=n)]; [None] is the [OverflowError] raised when
    the [timedelta] (of at most 999999999 days) or the date computed is
    out of range. *)
Definition days_before (now : Z) (n : Z) : option Z :=
  if ((-999999999 <=? n) && (n <=? 999999999))%Z then
    let t := (now - n * 86400 * 1000000)%Z in
    if ((datetime_min <=? t) && (t <=? datetime_max))%Z then Some t else None
  else None.

(** [cleanup_inactive_agents]; when the cut-off cannot be computed the
    handler returns 0 and nothing has been removed. *)
Definition cleanup_inactive_agents (now : Z) (max_inactive_days : Z) (s : State)
    : nat * State :=
  match days_before now max_inactive_days with
  | None => (0, s)
  | Some cutoff_time =>
      let inactive_agents :=
        map fst (List.filter (fun kv => is_inactive cutoff_time (snd kv))
                             (agent_profiles s)) in
      (length inactive_agents, fold_left remove_agent inactive_agents s)
  end.

(** ** The knowledge gaps of the learning report *)

(** [set(cap.value for cap in AgentCapability)] *)
Definition all_capability_values : gset string :=
  list_to_set (map capability_value all_capabilities).

(** The capabilities of the registered agents, as the loop over the
    profiles collects them. *)
Definition agent_capabilities (s : State) : gset string :=
  fold_left (fun acc kv => acc ∪ capability_values (snd kv))
            (agent_profiles s) ∅.

Definition missing_capabilities (s : State) : gset string :=
  all_capability_values ∖ agent_capabilities s.

(** The ['severity'] of a gap. *)
Definition gap_severity (cap : string) : string :=
  if str_in cap ["security_scanning"; "deployment"] then "high" else "medium".

(** ** LearningEnabledAgent *)



End Coordinator.

(** * AutoGenFactory *)

Module Factory.





End Factory.

(** * Facts about sequences and ordered dictionaries *)

Section Sequences.
Context {A : Type}.
Implicit Types (l : list A) (x : A).

Lemma lastn_all n l : length l <= n -> lastn n l = l.
Proof.
  intros H. unfold lastn. replace (length l - n) with 0 by lia. reflexivity.
Qed.

Lemma lastn_length n l : length (lastn n l) = Nat.min n (length l).
Proof. unfold lastn. rewrite length_drop. lia. Qed.

Lemma lastn_cons_full n x l : n <= length l -> lastn n (x :: l) = lastn n l.
Proof.
  intros H. unfold lastn. simpl length.
  replace (S (length l) - n) with (S (length l - n)) by lia. reflexivity.
Qed.

Lemma deque_append_length m x l :
  length l <= m -> 0 < m -> length (deque_append m x l) <= m.
Proof.
  intros Hl Hm. unfold deque_append. destruct (decide (m <= length l)).
  - destruct l; simpl in *; [lia|]. rewrite length_app. simpl. lia.
  - rewrite length_app. simpl. lia.
Qed.

(** Appending to a bounded deque keeps the last [m] elements of what was
    offered. *)
Lemma deque_append_lastn m x l :
  length l <= m -> 0 < m -> deque_append m x l = lastn m (l ++ [x]).
Proof.
  intros Hl Hm. unfold deque_append. destruct (decide (m <= length l)).
  - destruct l as [|a t]; simpl in *; [lia|].
    rewrite lastn_cons_full by (rewrite length_app; simpl; lia).
    symmetry. apply lastn_all. rewrite length_app. simpl. lia.
  - symmetry. apply lastn_all. rewrite length_app. simpl. lia.
Qed.

Lemma lastn_app_lastn m l1 l2 :
  lastn m (lastn m l1 ++ l2) = lastn m (l1 ++ l2).
Proof.
  unfold lastn. rewrite !length_app, length_drop.
  rewrite !skipn_app, drop_drop, length_drop.
  f_equal; f_equal; lia.
Qed.

(** A run of appends on a bounded deque is FIFO: what remains is the last
    [m] elements of the old content followed by the new elements. *)
Lemma deque_fold_lastn m (xs : list A) l :
  length l <= m -> 0 < m ->
  fold_left (fun d x => deque_append m x d) xs l = lastn m (l ++ xs).
Proof.
  intros Hl Hm. revert l Hl.
  induction xs as [|x xs IH]; intros l Hl; simpl.
  - rewrite app_nil_r. symmetry. by apply lastn_all.
  - rewrite IH by (by apply deque_append_length).
    rewrite deque_append_lastn by done.
    rewrite lastn_app_lastn. by rewrite <- app_assoc.
Qed.

Lemma Forall_tail (P : A -> Prop) l : Forall P l -> Forall P (tail l).
Proof. destruct 1; simpl; auto. Qed.

Lemma Forall_deque_append (P : A -> Prop) m x l :
  Forall P l -> P x -> Forall P (deque_append m x l).
Proof.
  intros Hl Hx. unfold deque_append. destruct (decide _);
    apply Forall_app; split; auto using Forall_tail.
Qed.
End Sequences.

Section OrderedDict.
Context {V : Type}.
Implicit Types (d : odict V) (k : string) (v : V).

Lemma od_get_set_eq k v d : od_get k (od_set k v d) = Some v.
Proof.
  induction d as [|[k' v'] r IH]; simpl.
  - by rewrite String.eqb_refl.
  - destruct (String.eqb k k') eqn:E; simpl.
    + by rewrite String.eqb_refl.
    + by rewrite E.
Qed.

Lemma od_get_set_ne k k' v d : k <> k' -> od_get k' (od_set k v d) = od_get k' d.
Proof.
  intros Hne. induction d as [|[k0 v0] r IH]; simpl.
  - destruct (String.eqb k' k) eqn:E; [|done].
    apply String.eqb_eq in E. congruence.
  - destruct (String.eqb k k0) eqn:E; simpl.
    + apply String.eqb_eq in E. subst k0.
      destruct (String.eqb k' k) eqn:E'; [|done].
      apply String.eqb_eq in E'. congruence.
    + by rewrite IH.
Qed.

(** Assigning to a key that is present adds no key and moves none. *)
Lemma od_set_keys k v d : is_Some (od_get k d) -> map fst (od_set k v d) = map fst d.
Proof.
  induction d as [|[k0 v0] r IH]; simpl; intros [w Hw]; [done|].
  destruct (String.eqb k k0) eqn:E; simpl.
  - apply String.eqb_eq in E. by subst.
  - f_equal. apply IH. eauto.
Qed.

Lemma od_set_Forall (P : V -> Prop) k v d :
  Forall (fun kv => P (snd kv)) d -> P v ->
  Forall (fun kv => P (snd kv)) (od_set k v d).
Proof.
  intros Hd Hv. induction Hd as [|[k0 v0] r H0 Hr IH]; simpl.
  - by constructor.
  - destruct (String.eqb k k0); constructor; auto.
Qed.

Lemma od_get_Forall (P : V -> Prop) k v d :
  Forall (fun kv => P (snd kv)) d -> od_get k d = Some v -> P v.
Proof.
  induction 1 as [|[k0 v0] r H0 Hr IH]; simpl; [done|].
  destruct (String.eqb k k0); [|done]. by intros [= <-].
Qed.
End OrderedDict.

(** * PatternLearningSystem: recording outcomes *)

Section PatternLearningFacts.
Import PatternLearning.
Implicit Types (s : PatternLearningSystem) (d : DeploymentData)
  (db : gmap string (list Entry)) (key : string).

Lemma store_pattern_same key entry db :
  entries_under key (store_pattern key entry db)
  = deque_append max_patterns_per_error entry (entries_under key db).
Proof.
  unfold entries_under, store_pattern, deque_append.
  rewrite lookup_insert_eq. simpl. by destruct (decide _).
Qed.

Lemma store_pattern_other key k entry db :
  k <> key -> store_pattern key entry db !! k = db !! k.
Proof. intros H. unfold store_pattern. by rewrite lookup_insert_ne. Qed.

(** What a call that passes the validation does to the two stores. *)
Lemma learn_valid now d s key success :
  valid_for key success d ->
  fst (learn_from_deployment now d s) = true
  /\ store_of success (snd (learn_from_deployment now d s))
     = store_pattern key (entry_of now success d) (store_of success s)
  /\ store_of (negb success) (snd (learn_from_deployment now d s))
     = store_of (negb success) s.
Proof.
  intros (Hk & Hstrip & Hs). unfold learn_from_deployment.
  rewrite Hk, Hs.
  destruct (str_falsy (py_strip key)) eqn:E.
  { destruct (py_strip key); [done | discriminate]. }
  destruct success, (d_execution_time d); simpl; auto.
Qed.

Lemma learn_invalid now d s :
  key_invalid d \/ success_invalid d ->
  learn_from_deployment now d s = (false, s).
Proof.
  unfold key_invalid, success_invalid, learn_from_deployment.
  destruct (d_error_type d) as [[| | | |k|]|], (d_success d) as [[]|];
    try reflexivity; intros [H|H]; try contradiction; try reflexivity.
  by rewrite H.
Qed.

Lemma store_pattern_capped key entry db :
  (forall k, length (entries_under k db) <= max_patterns_per_error) ->
  forall k, length (entries_under k (store_pattern key entry db))
            <= max_patterns_per_error.
Proof.
  intros H k. destruct (decide (k = key)) as [->|Hne].
  - rewrite store_pattern_same. apply deque_append_length; [apply H|].
    unfold max_patterns_per_error. lia.
  - unfold entries_under. rewrite store_pattern_other by done. apply H.
Qed.

Lemma learn_capped now d s :
  capped s -> capped (snd (learn_from_deployment now d s)).
Proof.
  intros H. unfold learn_from_deployment.
  destruct (d_error_type d) as [[| | | |k|]|], (d_success d) as [[|b'| | | |]|];
    simpl; try exact H.
  destruct (str_falsy (py_strip k)); simpl; [exact H|].
  assert (Hs : forall key, length (entries_under key (success_patterns s))
                           <= max_patterns_per_error) by (intros; apply H).
  assert (He : forall key, length (entries_under key (error_database s))
                           <= max_patterns_per_error) by (intros; apply H).
  destruct b', (d_execution_time d); simpl; intros key; simpl;
    split; auto using store_pattern_capped.
Qed.

Lemma learn_all_capped calls s : capped s -> capped (learn_all calls s).
Proof.
  revert s. induction calls as [|c calls IH]; intros s H; simpl; [done|].
  apply IH. by apply learn_capped.
Qed.

Lemma init_capped : capped init.
Proof. intros key. unfold entries_under. simpl. rewrite lookup_empty. simpl. lia. Qed.

(** A batch of valid calls for one key and one outcome behaves as appends
    on a deque of capacity fifty. *)
Lemma learn_all_fifo key success calls s :
  Forall (fun c => valid_for key success (snd c)) calls ->
  entries_under key (store_of success (learn_all calls s))
  = fold_left (fun l e => deque_append max_patterns_per_error e l)
      (map (fun c => entry_of (fst c) success (snd c)) calls)
      (entries_under key (store_of success s)).
Proof.
  intros H. revert s. induction H as [|c calls Hc _ IH]; intros s; simpl; [done|].
  rewrite IH. f_equal.
  destruct (learn_valid (fst c) (snd c) s key success Hc) as (_ & -> & _).
  apply store_pattern_same.
Qed.

(** C7.  [learn_from_deployment] returns [False] and leaves the whole state
    as it was when the key is missing, not a string or blank, or when
    [success] is missing or not a boolean; a call that passes the
    validation returns [True] and appends exactly one record, built from
    the call, to the key's list in the store of its outcome (the oldest
    record leaving when fifty are held); the other keys of that store and
    the other store are unchanged. *)
Theorem C7_learn_from_deployment_validation now d s :
  (key_invalid d \/ success_invalid d ->
   learn_from_deployment now d s = (false, s))
  /\ (forall key success,
        valid_for key success d ->
        let s' := snd (learn_from_deployment now d s) in
        let l := entries_under key (store_of success s) in
        fst (learn_from_deployment now d s) = true
        /\ entries_under key (store_of success s')
           = (if decide (50 <= length l) then tail l else l)
             ++ [entry_of now success d]
        /\ (forall k, k <> key ->
              store_of success s' !! k = store_of success s !! k)
        /\ store_of (negb success) s' = store_of (negb success) s).
Proof.
  split; [apply learn_invalid|].
  intros key success Hv. simpl.
  destruct (learn_valid now d s key success Hv) as (Hr & Hst & Hoth).
  split; [done|]. rewrite Hst. repeat split.
  - rewrite store_pattern_same. unfold deque_append, max_patterns_per_error.
    by destruct (decide _).
  - intros k Hk. by apply store_pattern_other.
  - done.
Qed.

Lemma C7_witness :
  let d := sample_data "deploy" "restart" true in
  valid_for "deploy" true d
  /\ learn_from_deployment 0 {| d_error_type := Some (PyStr "  ");
                                d_success := Some (PyBool true);
                                d_solution := None; d_timestamp := None;
                                d_context := None;
                                d_execution_time := None |} init
     = (false, init)
  /\ fst (learn_from_deployment 0 d init) = true.
Proof.
  assert (Hv : valid_for "deploy" true (sample_data "deploy" "restart" true)).
  { repeat split; vm_compute; congruence. }
  split; [exact Hv|]. split.
  - apply (C7_learn_from_deployment_validation 0 _ init). left. reflexivity.
  - apply (proj2 (C7_learn_from_deployment_validation 0 _ init) "deploy" true Hv).
Defined.

(** A key made of whitespace beyond ASCII is blank as well. *)
Lemma blank_key_beyond_ascii :
  py_strip no_break_space = ""
  /\ learn_from_deployment 0 (sample_data no_break_space "restart" true) init
     = (false, init).
Proof. split; reflexivity. Qed.

(** C2, as stated, fails: one hundred valid records under one key, half
    of them failures, leave one hundred entries under that key. *)
Lemma C2_counterexample :
  length mixed_calls = 100
  /\ Forall (fun c => exists b, valid_for "deploy" b (snd c)) mixed_calls
  /\ ~ length (all_patterns "deploy" (learn_all mixed_calls init)) <= 50.
Proof.
  split; [reflexivity|]. split.
  - unfold mixed_calls. apply Forall_flat_map, Forall_forall. intros _ _.
    repeat constructor;
      [exists true | exists false]; repeat split; vm_compute; congruence.
  - assert (length (all_patterns "deploy" (learn_all mixed_calls init)) = 100)
      as -> by (vm_compute; reflexivity).
    lia.
Qed.

(** C2, amended.  Each of the two stores holds at most fifty entries per
    key, whatever calls are made; records of one outcome under one key are
    kept first-in first-out, so after a batch of them the store holds the
    last fifty in order; one hundred of them leave exactly fifty. *)
Theorem C2_per_store_cap :
  (forall calls key,
     length (entries_under key (success_patterns (learn_all calls init))) <= 50
     /\ length (entries_under key (error_database (learn_all calls init))) <= 50)
  /\ (forall key success calls,
        Forall (fun c => valid_for key success (snd c)) calls ->
        let kept := entries_under key (store_of success (learn_all calls init)) in
        kept = lastn 50 (map (fun c => entry_of (fst c) success (snd c)) calls)
        /\ (length calls = 100 -> length kept = 50)).
Proof.
  split.
  - intros calls key. apply (learn_all_capped calls init init_capped key).
  - intros key success calls Hv. simpl.
    assert (Heq : entries_under key (store_of success (learn_all calls init))
                  = lastn 50 (map (fun c => entry_of (fst c) success (snd c)) calls)).
    { rewrite (learn_all_fifo key success calls init Hv).
      replace (entries_under key (store_of success init)) with (@nil Entry)
        by (by destruct success).
      rewrite deque_fold_lastn; simpl; auto; unfold max_patterns_per_error; lia. }
    split; [exact Heq|].
    intros Hlen. rewrite Heq, lastn_length, length_map. lia.
Qed.

Lemma C2_witness :
  Forall (fun c => valid_for "deploy" true (snd c)) uniform_calls
  /\ length uniform_calls = 100
  /\ length (entries_under "deploy"
               (store_of true (learn_all uniform_calls init))) = 50.
Proof.
  assert (Hv : Forall (fun c => valid_for "deploy" true (snd c)) uniform_calls).
  { unfold uniform_calls. apply Forall_map, Forall_forall. intros i _.
    repeat split; vm_compute; congruence. }
  split; [exact Hv|]. split; [reflexivity|].
  apply (proj2 C2_per_store_cap "deploy" true uniform_calls Hv). reflexivity.
Defined.
End PatternLearningFacts.

(** * PatternLearningSystem: ranking the remembered solutions *)

Section OrderedDictKeys.
Context {V : Type}.
Implicit Types (d : odict V) (k : string) (v : V).

Lemma od_get_In k v d : od_get k d = Some v -> In (k, v) d.
Proof.
  induction d as [|[k0 v0] r IH]; simpl; [done|].
  destruct (String.eqb k k0) eqn:E.
  - apply String.eqb_eq in E. intros [= <-]. left. by subst.
  - intros H. right. by apply IH.
Qed.


Lemma od_In_get k v d : NoDup (map fst d) -> In (k, v) d -> od_get k d = Some v.
Proof.
  induction d as [|[k0 v0] r IH]; simpl; [done|].
  intros Hnd. apply NoDup_cons in Hnd as [Hk Hnd]. intros [[= -> ->]|H].
  - by rewrite String.eqb_refl.
  - destruct (String.eqb k k0) eqn:E; [|by apply IH].
    apply String.eqb_eq in E. subst k0. destruct Hk.
    apply list_elem_of_In, in_map_iff. by exists (k, v).
Qed.

Lemma od_set_keys_new k v d :
  od_get k d = None -> map fst (od_set k v d) = map fst d ++ [k].
Proof.
  induction d as [|[k0 v0] r IH]; simpl; [done|].
  destruct (String.eqb k k0); [done|]. intros H. simpl. f_equal. by apply IH.
Qed.

End OrderedDictKeys.

Section RankingFacts.
Import PatternLearning.
Implicit Types (p : Entry) (sol : string) (acc : odict StatsAcc)
  (l : list Entry) (st : SolutionStats).

Lemma counted_solution_spec p sol :
  counted_solution p = Some sol <-> e_solution p = Some sol /\ rankable sol.
Proof.
  unfold counted_solution, rankable. destruct (e_solution p) as [x|].
  2: { split; [discriminate | intros [H _]; discriminate]. }
  destruct (str_falsy x) eqn:E1; simpl.
  - destruct x; [|discriminate]. split; [discriminate|].
    intros [[= <-] [H _]]. by destruct H.
  - destruct (String.eqb x "unknown") eqn:E2.
    + apply String.eqb_eq in E2. subst x. split; [discriminate|].
      intros [[= <-] [_ H]]. by destruct H.
    + apply String.eqb_neq in E2. split.
      * intros [= <-]. split; [done|]. split; [|done]. by intros ->.
      * by intros [[= <-] _].
Qed.




Lemma tally_fold cutoff rs base :
  let a := fold_left (tally cutoff) rs base in
  count a = count base + length rs
  /\ success_count a = success_count base + length (List.filter e_success rs)
  /\ recent_count a
     = recent_count base
       + length (List.filter (fun p => bool_decide (cutoff < e_timestamp p)%Z) rs)
  /\ total_execution_time a = fold_left add_time rs (total_execution_time base).
Proof.
  revert base. induction rs as [|p rs IH]; intros base; simpl.
  - repeat split; lia.
  - destruct (IH (tally cutoff base p)) as (-> & -> & -> & ->).
    unfold tally; simpl. repeat split.
    + lia.
    + destruct (e_success p); simpl; lia.
    + destruct (decide (cutoff < e_timestamp p)%Z).
      * rewrite bool_decide_eq_true_2 by done. simpl. lia.
      * by rewrite bool_decide_eq_false_2 by done.
Qed.





(** ** The stable descending sort *)







Lemma suggest_solution_cases now key s :
  suggest_solution now key s
  = match _select_best_solution
            (_calculate_solution_stats now (all_patterns key s)) with
    | Some best =>
        if Qle_bool min_success_rate (sc_success_rate best)
        then Some (sc_solution best) else None
    | None => None
    end.
Proof.
  unfold suggest_solution, all_patterns.
  destruct (error_database s !! key) as [e|], (success_patterns s !! key) as [k|];
    simpl; first [done | by destruct (_ ++ _) | by destruct k].
Qed.

(** The ledger of the specification's first test: ten successes and one
    failure of a solution give it a success rate of 10/11, and it is
    suggested; an unseen key gives nothing. *)
Lemma suggest_after_ten_successes :
  suggest_solution 0 "deploy" ten_to_one = Some "restart"
  /\ suggest_solution 0 "unseen" ten_to_one = None
  /\ map (fun kv => (fst kv, success_rate (snd kv)))
         (_calculate_solution_stats 0 (all_patterns "deploy" ten_to_one))
     = [("restart", (10 # 11)%Q)].
Proof. vm_compute. repeat split; reflexivity. Qed.
End RankingFacts.

(** ** Binary64: order and commutativity *)

Section FloatOrder.











End FloatOrder.

(** ** The ranking in binary64 *)

Section RankingFacts64.
Import PatternLearning.
Implicit Types (p : Entry) (sol : string) (acc : odict Binary64.StatsAcc)
  (l : list Entry) (st : Binary64.SolutionStats).








(** ** The stable descending sort *)











(** Rounding decides between solutions whose composite scores are equal as
    exact numbers: on [near_tie] both scores are 0.625; in exact
    arithmetic A, met first, stays ahead and its success rate of 0.5 gives
    no suggestion, while the source computes 0.6249999999999999 for A and
    suggests B. *)
Lemma rounding_decides_near_ties :
  Binary64.suggest_solution (days 40) "deploy" near_tie = Some "B"
  /\ suggest_solution (days 40) "deploy" near_tie = None
  /\ map (fun kv => (fst kv, Qred (spec_composite (snd kv))))
         (_calculate_solution_stats (days 40) (all_patterns "deploy" near_tie))
     = [("A", (5 # 8)%Q); ("B", (5 # 8)%Q)].
Proof. vm_compute. repeat split; reflexivity. Qed.

End RankingFacts64.

(** * ContinuousImprovementEngine: the gate on automatic improvements *)

Section ImprovementFacts.
Import Improvement.
Implicit Types (e : Engine) (x y : Suggestion) (l : list Suggestion).

Lemma suggestion_eqb_risk x y :
  suggestion_eqb x y = true -> s_risk_level x = s_risk_level y.
Proof.
  unfold suggestion_eqb. rewrite !andb_true_iff.
  intros [[[[[[_ _] _] H] _] _] _]. by apply bool_decide_eq_true in H.
Qed.

Lemma list_remove_non_low x l l' :
  is_low_risk x = true -> list_remove x l = Some l' ->
  List.filter non_low l' = List.filter non_low l.
Proof.
  intros Hx. revert l'. induction l as [|y l IH]; intros l'; simpl; [done|].
  destruct (suggestion_eqb y x) eqn:E.
  - intros [= <-]. apply suggestion_eqb_risk in E.
    assert (non_low y = false) as ->; [|done].
    unfold non_low, is_low_risk in *. rewrite E. by rewrite Hx.
  - destruct (list_remove x l) as [r|]; [|done].
    intros [= <-]. simpl. by rewrite (IH r eq_refl).
Qed.

Lemma apply_improvement_suggestions x e :
  optimization_suggestions (snd (apply_improvement x e))
  = optimization_suggestions e
  /\ applied_improvements (snd (apply_improvement x e))
     = applied_improvements e.
Proof.
  unfold apply_improvement, _apply_memory_optimization.
  destruct (s_type x) as [[]|]; simpl; auto.
  repeat destruct (decide _); simpl; auto.
Qed.

Lemma log_improvement_suggestions now x e :
  optimization_suggestions (log_improvement now x e)
  = optimization_suggestions e.
Proof. unfold log_improvement. by destruct (s_type x), (s_risk_level x). Qed.

(** [log_improvement] either logs nothing or appends one entry and keeps
    the last hundred. *)
Lemma log_improvement_applied now x e :
  applied_improvements (log_improvement now x e) = applied_improvements e
  \/ exists entry,
       applied_improvements (log_improvement now x e)
       = lastn 100 (applied_improvements e ++ [entry]).
Proof.
  unfold log_improvement. destruct (s_type x), (s_risk_level x); auto.
  right. eexists. simpl. destruct (decide _) as [H|H]; [reflexivity|].
  symmetry. apply lastn_all. lia.
Qed.

Lemma log_improvement_bound now x e :
  length (applied_improvements (log_improvement now x e))
  <= Nat.max 100 (length (applied_improvements e)).
Proof.
  destruct (log_improvement_applied now x e) as [->|[entry ->]]; [lia|].
  rewrite lastn_length. lia.
Qed.

(** What one iteration of the main loop preserves or bounds. *)
Lemma implement_step_facts now res e x :
  is_low_risk x = true ->
  let st := implement_step now (res, e) x in
  List.filter non_low (optimization_suggestions (snd st))
  = List.filter non_low (optimization_suggestions e)
  /\ implemented (fst st) <= S (implemented res)
  /\ implemented res <= implemented (fst st)
  /\ length (applied_improvements (snd st))
     <= Nat.max 100 (length (applied_improvements e))
  /\ length (details (fst st)) = S (length (details res)).
Proof.
  intros Hx. unfold implement_step.
  destruct (apply_improvement_suggestions x e) as [Hs Ha].
  destruct (apply_improvement x e) as [[] e1] eqn:E; simpl in *.
  - pose proof (log_improvement_suggestions now x e1) as Hl.
    pose proof (log_improvement_bound now x e1) as Hb.
    destruct (list_remove x (optimization_suggestions (log_improvement now x e1)))
      as [l'|] eqn:R; simpl.
    + apply (list_remove_non_low x _ _ Hx) in R.
      rewrite R, Hl, Hs, <- Ha. unfold append_detail, on_exception.
      destruct (s_title x), (s_risk_level x); simpl;
        rewrite ?length_app; simpl; repeat split; auto; lia.
    + rewrite Hl, Hs, <- Ha. unfold on_exception; simpl.
      rewrite ?length_app; simpl. repeat split; auto; lia.
  - rewrite Hs, Ha. unfold append_detail, on_exception.
    destruct (s_title x), (s_risk_level x); simpl;
      rewrite ?length_app; simpl; repeat split; auto; lia.
Qed.

Lemma cleanup_step_facts e x :
  is_low_risk x = true ->
  List.filter non_low (optimization_suggestions (cleanup_step e x))
  = List.filter non_low (optimization_suggestions e)
  /\ applied_improvements (cleanup_step e x) = applied_improvements e.
Proof.
  intros Hx. unfold cleanup_step.
  destruct (list_contains x (optimization_suggestions e)); [|done].
  destruct (list_remove x (optimization_suggestions e)) as [l'|] eqn:R; [|done].
  simpl. split; [|done]. by apply (list_remove_non_low x).
Qed.

Lemma low_risk_prefix n l : Forall (fun x => is_low_risk x = true)
                                   (take n (List.filter is_low_risk l)).
Proof.
  apply Forall_take, Forall_forall. intros x Hx.
  apply list_elem_of_In, filter_In in Hx. tauto.
Qed.

(** The main loop, over any list of LOW suggestions. *)
Lemma implement_loop_facts now xs res e :
  Forall (fun x => is_low_risk x = true) xs ->
  List.filter non_low
    (optimization_suggestions (snd (fold_left (implement_step now) xs (res, e))))
  = List.filter non_low (optimization_suggestions e)
  /\ implemented (fst (fold_left (implement_step now) xs (res, e)))
     <= implemented res + length xs
  /\ length (applied_improvements
               (snd (fold_left (implement_step now) xs (res, e))))
     <= Nat.max 100 (length (applied_improvements e))
  /\ length (details (fst (fold_left (implement_step now) xs (res, e))))
     = length (details res) + length xs.
Proof.
  intros Hxs. revert res e.
  induction Hxs as [|x xs Hx _ IH]; intros res e; cbn [fold_left length].
  - cbn [fst snd]. repeat split; lia.
  - pose proof (implement_step_facts now res e x Hx) as H. cbv zeta in H.
    destruct (implement_step now (res, e) x) as [res1 e1].
    cbn [fst snd] in H. destruct H as (H1 & H2 & _ & H3 & H4).
    destruct (IH res1 e1) as (I1 & I2 & I3 & I4).
    rewrite I1, H1, I4, H4. repeat split; lia.
Qed.

Lemma cleanup_loop_facts xs e :
  Forall (fun x => is_low_risk x = true) xs ->
  List.filter non_low (optimization_suggestions (fold_left cleanup_step xs e))
  = List.filter non_low (optimization_suggestions e)
  /\ applied_improvements (fold_left cleanup_step xs e)
     = applied_improvements e.
Proof.
  intros Hxs. revert e. induction Hxs as [|x xs Hx _ IH]; intros e; simpl; [done|].
  destruct (IH (cleanup_step e x)) as [-> ->].
  by apply cleanup_step_facts.
Qed.

(** For every backlog, [implement_improvements] leaves the suggestions
    whose risk is not LOW where they were, in their order; it applies at
    most five suggestions and reports one detail for each suggestion of
    the batch, so a failure does not stop the batch. *)
Theorem implement_improvements_gate now e :
  let r := implement_improvements now e in
  List.filter non_low (optimization_suggestions (snd r))
  = List.filter non_low (optimization_suggestions e)
  /\ implemented (fst r) <= 5
  /\ length (details (fst r))
     = Nat.min 5 (length (List.filter is_low_risk (optimization_suggestions e)))
  /\ length (applied_improvements (snd r))
     <= Nat.max 100 (length (applied_improvements e)).
Proof.
  unfold implement_improvements.
  set (low := List.filter is_low_risk (optimization_suggestions e)).
  pose proof (implement_loop_facts now (take 5 low) results_zero e
                (low_risk_prefix 5 _)) as H.
  destruct (fold_left (implement_step now) (take 5 low) (results_zero, e))
    as [res e1]. cbn [fst snd] in *.
  destruct H as (H1 & H2 & H3 & H4). cbn [implemented details results_zero] in *.
  destruct (cleanup_loop_facts (take (implemented res) low) e1
              (low_risk_prefix _ _)) as [C1 C2].
  rewrite C1, C2, H1, H4, length_take in *. repeat split; lia.
Qed.

(** C3, evaluated where the code departs from it.  Six analyses of the
    same metrics leave twelve pending suggestions, six of them LOW and
    equal to one another.  [implement_improvements] applies five of them,
    none fails, and the closing loop then removes the sixth as well: no
    LOW suggestion remains pending, where the claim leaves one. *)
Theorem C3_equal_suggestions_removed_unapplied :
  let e := repeated_backlog in
  let r := implement_improvements 0 e in
  length (optimization_suggestions e) = 12
  /\ length (List.filter is_low_risk (optimization_suggestions e)) = 6
  /\ implemented (fst r) = 5
  /\ failed (fst r) = 0
  /\ length (applied_improvements (snd r)) = 5
  /\ List.filter is_low_risk (optimization_suggestions (snd r)) = []
  /\ List.filter non_low (optimization_suggestions (snd r))
     = List.filter non_low (optimization_suggestions e)
  /\ length (optimization_suggestions (snd r)) = 6.
Proof. vm_compute. repeat split; reflexivity. Qed.

(** The same closing loop drops a suggestion that failed to apply: with
    a LOW suggestion of invalid type followed by a valid one, one is
    applied, one is counted as failed, and the backlog ends up empty. *)
Lemma failed_suggestion_dropped_from_backlog :
  let r := implement_improvements 0 mixed_backlog in
  implemented (fst r) = 1
  /\ failed (fst r) = 1
  /\ map det_success (details (fst r)) = [false; true]
  /\ optimization_suggestions (snd r) = [].
Proof. vm_compute. repeat split; reflexivity. Qed.

Lemma generate_appends metrics e :
  optimization_suggestions (snd (generate_optimization_suggestions metrics e))
  = optimization_suggestions e
    ++ fst (generate_optimization_suggestions metrics e)
  /\ applied_improvements (snd (generate_optimization_suggestions metrics e))
     = applied_improvements e.
Proof. done. Qed.

Lemma run_applied_bound ops e :
  length (applied_improvements e) <= 100 ->
  length (applied_improvements (run ops e)) <= 100.
Proof.
  revert e. induction ops as [|op ops IH]; intros e H; simpl; [done|].
  apply IH. destruct op as [metrics|now]; simpl; [done|].
  pose proof (implement_improvements_gate now e) as G. cbv zeta in G. lia.
Qed.

(** C8, as stated, fails.  After 1001 cycles of analysis and
    implementation on metrics with a high error rate the backlog holds
    1001 suggestions; and the applied log, full after 111 cycles, still
    holds 100 entries after the next append instead of being halved. *)
Lemma C8_counterexample :
  ~ length (optimization_suggestions (run (cycles 1001) init)) <= 1000
  /\ length (applied_improvements (run (cycles 111) init)) = 100
  /\ length (applied_improvements (run (cycles 112) init)) = 100.
Proof.
  assert (length (optimization_suggestions (run (cycles 1001) init)) = 1001)
    as -> by (vm_compute; reflexivity).
  split; [lia|]. split; vm_compute; reflexivity.
Qed.

(** C8, amended.  Over every sequence of generate and implement cycles the
    applied log holds at most 100 entries: logging an improvement appends
    one entry and keeps the last 100.  The backlog has no cap:
    [generate_optimization_suggestions] appends its suggestions to it and
    trims nothing. *)
Theorem C8_applied_log_cap :
  (forall ops, length (applied_improvements (run ops init)) <= 100)
  /\ (forall now x e,
        applied_improvements (log_improvement now x e) = applied_improvements e
        \/ exists entry,
             applied_improvements (log_improvement now x e)
             = lastn 100 (applied_improvements e ++ [entry]))
  /\ (forall metrics e,
        optimization_suggestions
          (snd (generate_optimization_suggestions metrics e))
        = optimization_suggestions e
          ++ fst (generate_optimization_suggestions metrics e)).
Proof.
  split; [|split].
  - intros ops. apply run_applied_bound. simpl. lia.
  - apply log_improvement_applied.
  - intros metrics e. apply generate_appends.
Qed.
End ImprovementFacts.

(** * InterAgentLearningCoordinator: experiences, profiles and transfers *)

Section CoordinatorFacts.
Import Coordinator.
Implicit Types (s : State) (e : LearningExperience) (t : KnowledgeTransfer)
  (p : AgentProfile) (a : string).

#[local] Arguments share_learning_experience : simpl never.
#[local] Arguments _update_agent_profile : simpl never.
#[local] Arguments _apply_knowledge_to_agent : simpl never.
#[local] Arguments _learn_from_transfer_success : simpl never.
#[local] Arguments _find_relevant_agents : simpl never.
#[local] Arguments deque_append : simpl never.
#[local] Arguments transfer_experience : simpl never.
#[local] Arguments requested_transfer : simpl never.

(** ** Filing transfers *)

Lemma transfers_extended_refl e s : transfers_extended e s s.
Proof. split; [lia|]. split; auto. Qed.

Lemma transfers_extended_trans e s1 s2 s3 :
  transfers_extended e s1 s2 -> transfers_extended e s2 s3 ->
  transfers_extended e s1 s3.
Proof.
  intros (L1 & K1 & N1) (L2 & K2 & N2). split; [lia|]. split.
  - intros k Hk. rewrite K2 by lia. by apply K1.
  - intros k t Hk. destruct (N2 k t Hk) as [H|[H Ho]].
    + destruct (N1 k t H) as [H'|[H' Ho]]; [by left|].
      right. split; [lia|done].
    + right. split; [lia|done].
Qed.

Lemma offer_transfer_spec now e s a :
  agent_profiles (offer_transfer now e s a) = agent_profiles s
  /\ learning_experiences (offer_transfer now e s a) = learning_experiences s
  /\ transfers_extended e s (offer_transfer now e s a).
Proof.
  unfold offer_transfer. destruct (String.eqb a (agent_id e)).
  { repeat split; auto using transfers_extended_refl. }
  unfold uuid4, transfers_extended. simpl. repeat split; simpl; auto.
  - intros k Hk. apply lookup_insert_ne. lia.
  - intros k t. destruct (decide (uuid_count s = k)) as [<-|Hne].
    + rewrite lookup_insert_eq. intros [= <-]. right.
      split; [lia|]. by repeat split.
    + rewrite lookup_insert_ne by done. by left.
Qed.

Lemma offer_fold_spec now e agents s :
  agent_profiles (fold_left (offer_transfer now e) agents s) = agent_profiles s
  /\ learning_experiences (fold_left (offer_transfer now e) agents s)
     = learning_experiences s
  /\ transfers_extended e s (fold_left (offer_transfer now e) agents s).
Proof.
  revert s. induction agents as [|a agents IH]; intros s; simpl.
  - split; [done|]. split; [done|]. apply transfers_extended_refl.
  - destruct (IH (offer_transfer now e s a)) as (-> & -> & H).
    destruct (offer_transfer_spec now e s a) as (-> & -> & H').
    split; [done|]. split; [done|]. by eapply transfers_extended_trans.
Qed.

(** ** Sharing an experience *)

Lemma update_agent_profile_fields now a e s :
  learning_experiences (_update_agent_profile now a e s) = learning_experiences s
  /\ knowledge_transfers (_update_agent_profile now a e s) = knowledge_transfers s
  /\ uuid_count (_update_agent_profile now a e s) = uuid_count s.
Proof. unfold _update_agent_profile. by destruct (od_get _ _). Qed.

(** The state after [share_learning_experience]: it returns [True]; the
    experience is appended to the bounded store; only the author's profile
    is updated; transfers are only added, under fresh uuids. *)
Lemma share_spec now e s :
  let s' := snd (share_learning_experience now e s) in
  fst (share_learning_experience now e s) = true
  /\ learning_experiences s'
     = deque_append max_experiences e (learning_experiences s)
  /\ agent_profiles s'
     = agent_profiles (_update_agent_profile now (agent_id e) e s)
  /\ transfers_extended e s s'.
Proof.
  unfold share_learning_experience. cbv zeta. cbn [fst snd].
  set (s1 := set_experiences _ s).
  set (s2 := _update_agent_profile now (agent_id e) e s1).
  destruct (offer_fold_spec now e (_find_relevant_agents e s2) s2) as (Hp & He & Ht).
  destruct (update_agent_profile_fields now (agent_id e) e s1) as (He2 & Ht2 & Hu2).
  split; [done|]. cbn [set_metrics learning_experiences agent_profiles].
  rewrite He, Hp. fold s2 in He2, Ht2, Hu2.
  split; [rewrite He2; reflexivity|]. split.
  - unfold s2, _update_agent_profile. subst s1. simpl.
    by destruct (od_get _ _).
  - destruct Ht as (L & K & N). unfold transfers_extended. simpl.
    rewrite Hu2, Ht2 in *. simpl in *. auto.
Qed.

(** ** Profiles *)

Lemma update_agent_profile_get now b e s a :
  od_get a (agent_profiles (_update_agent_profile now b e s))
  = if decide (a = b) then update_profile now e <$> od_get a (agent_profiles s)
    else od_get a (agent_profiles s).
Proof.
  unfold _update_agent_profile.
  destruct (od_get b (agent_profiles s)) as [p|] eqn:E; simpl.
  - destruct (decide (a = b)) as [->|Hne].
    + by rewrite od_get_set_eq, E.
    + by rewrite od_get_set_ne.
  - destruct (decide (a = b)) as [->|Hne]; [by rewrite E|done].
Qed.

Lemma update_agent_profile_keys now b e s :
  map fst (agent_profiles (_update_agent_profile now b e s))
  = map fst (agent_profiles s).
Proof.
  unfold _update_agent_profile.
  destruct (od_get b (agent_profiles s)) as [p|] eqn:E; simpl; [|done].
  apply od_set_keys. eauto.
Qed.

Lemma update_agent_profile_Forall (P : AgentProfile -> Prop) now b e s :
  (forall p, P p -> P (update_profile now e p)) ->
  Forall (fun kv => P (snd kv)) (agent_profiles s) ->
  Forall (fun kv => P (snd kv))
         (agent_profiles (_update_agent_profile now b e s)).
Proof.
  intros HP H. unfold _update_agent_profile.
  destruct (od_get b (agent_profiles s)) as [p|] eqn:E; simpl; [|done].
  apply od_set_Forall; [done|]. apply HP. by eapply od_get_Forall.
Qed.

Lemma apply_knowledge_fields t s :
  learning_experiences (_apply_knowledge_to_agent t s) = learning_experiences s
  /\ knowledge_transfers (_apply_knowledge_to_agent t s) = knowledge_transfers s
  /\ uuid_count (_apply_knowledge_to_agent t s) = uuid_count s
  /\ map fst (agent_profiles (_apply_knowledge_to_agent t s))
     = map fst (agent_profiles s).
Proof.
  unfold _apply_knowledge_to_agent.
  destruct (od_get _ _) as [p|] eqn:E; [|done].
  destruct (capability_of_value _); [|done].
  simpl. repeat split. apply od_set_keys. eauto.
Qed.

Lemma apply_knowledge_get t s a :
  od_get a (agent_profiles (_apply_knowledge_to_agent t s))
  = if decide (a = to_agent t) then
      match capability_of_value (knowledge_type t) with
      | Some cap =>
          receive_knowledge cap (knowledge_type t)
            <$> od_get a (agent_profiles s)
      | None => od_get a (agent_profiles s)
      end
    else od_get a (agent_profiles s).
Proof.
  unfold _apply_knowledge_to_agent.
  destruct (od_get (to_agent t) (agent_profiles s)) as [p|] eqn:E.
  - destruct (capability_of_value _) as [cap|]; simpl.
    + destruct (decide (a = to_agent t)) as [->|Hne].
      * by rewrite od_get_set_eq, E.
      * by rewrite od_get_set_ne.
    + by destruct (decide _).
  - destruct (decide (a = to_agent t)) as [->|Hne]; [|done].
    rewrite E. by destruct (capability_of_value _).
Qed.

Lemma apply_knowledge_Forall (P : AgentProfile -> Prop) t s :
  (forall cap p, P p -> P (receive_knowledge cap (knowledge_type t) p)) ->
  Forall (fun kv => P (snd kv)) (agent_profiles s) ->
  Forall (fun kv => P (snd kv)) (agent_profiles (_apply_knowledge_to_agent t s)).
Proof.
  intros HP H. unfold _apply_knowledge_to_agent.
  destruct (od_get _ _) as [p|] eqn:E; [|done].
  destruct (capability_of_value _); [|done]. simpl.
  apply od_set_Forall; [done|]. apply HP. by eapply od_get_Forall.
Qed.

Lemma capability_of_value_inv c : capability_of_value (capability_value c) = Some c.
Proof. by destruct c. Qed.

(** ** Bounds on the rates of a profile *)

Lemma clamp_unit x : unit_interval (Qmin 1 (Qmax 0 x)).
Proof.
  split; [|apply Q.le_min_l]. apply Q.min_glb; [lra | apply Q.le_max_l].
Qed.

Lemma update_profile_rates now e p :
  rates_bounded p -> rates_bounded (update_profile now e p).
Proof.
  intros [[Hs0 Hs1] _]. split; [|apply clamp_unit].
  unfold update_profile; cbn [success_rate].
  destruct (decide _), (success e); split; lra.
Qed.

Lemma update_profile_confidence now e p :
  unit_interval (confidence e) ->
  confidence_bounded p -> confidence_bounded (update_profile now e p).
Proof.
  intros [Hc0 Hc1] [Hp0 Hp1]. unfold confidence_bounded, update_profile;
    cbn [average_confidence].
  destruct (decide _); split; lra.
Qed.

Lemma receive_knowledge_rates cap kt p :
  rates_bounded p -> rates_bounded (receive_knowledge cap kt p).
Proof.
  intros [Hs [Hr0 Hr1]]. split; [done|]. cbn [receive_knowledge reputation_score].
  split; [|apply Q.le_min_l]. apply Q.min_glb; lra.
Qed.

(** ** Requesting and processing a transfer *)

Lemma request_none now from to cap s :
  List.filter (transferable from cap) (learning_experiences s) = [] ->
  request_knowledge_transfer now from to cap s = (None, s).
Proof. intros H. unfold request_knowledge_transfer. by rewrite H. Qed.

Lemma request_some now from to cap s :
  List.filter (transferable from cap) (learning_experiences s) <> [] ->
  let rel := List.filter (transferable from cap) (learning_experiences s) in
  let s' := snd (request_knowledge_transfer now from to cap s) in
  fst (request_knowledge_transfer now from to cap s) = Some (uuid_count s)
  /\ knowledge_transfers s'
     = <[uuid_count s := requested_transfer now (uuid_count s) from to cap rel]>
         (knowledge_transfers s)
  /\ agent_profiles s' = agent_profiles s
  /\ learning_experiences s' = learning_experiences s
  /\ uuid_count s' = S (uuid_count s).
Proof.
  intros H. unfold request_knowledge_transfer.
  destruct (List.filter _ _) as [|x r] eqn:E; [done|]. by simpl.
Qed.

Lemma learn_spec now t s c :
  capability_of_value (knowledge_type t) = Some c ->
  let e := transfer_experience now (uuid_count s) c t in
  let s' := _learn_from_transfer_success now t s in
  learning_experiences s' = deque_append max_experiences e (learning_experiences s)
  /\ agent_profiles s'
     = agent_profiles (_update_agent_profile now (from_agent t) e s)
  /\ transfers_extended e s s'.
Proof.
  intros Hc. unfold _learn_from_transfer_success. cbn [uuid4]. rewrite Hc.
  set (s1 := {| uuid_count := S (uuid_count s) |}).
  set (e := transfer_experience now (uuid_count s) c t).
  destruct (share_spec now e s1) as (_ & He & Hp & (L & K & N)). cbv zeta.
  split; [exact He|]. split.
  - rewrite Hp. unfold _update_agent_profile. subst s1. simpl.
    by destruct (od_get _ _).
  - subst s1. cbn [uuid_count knowledge_transfers] in L, K, N.
    split; [lia|]. split.
    + intros k Hk. apply K. lia.
    + intros k t0 Hk. destruct (N k t0 Hk) as [H|[H Ho]]; [by left|].
      right. split; [lia|done].
Qed.

Lemma process_missing now tid accept s :
  knowledge_transfers s !! tid = None ->
  process_knowledge_transfer now tid accept s = (false, s).
Proof. intros H. unfold process_knowledge_transfer. by rewrite H. Qed.

Lemma process_reject_spec now tid t s :
  knowledge_transfers s !! tid = Some t ->
  let s' := snd (process_knowledge_transfer now tid false s) in
  fst (process_knowledge_transfer now tid false s) = true
  /\ knowledge_transfers s' = <[tid := set_status rejected t]> (knowledge_transfers s)
  /\ agent_profiles s' = agent_profiles s
  /\ learning_experiences s' = learning_experiences s
  /\ uuid_count s' = uuid_count s.
Proof. intros H. unfold process_knowledge_transfer. rewrite H. by simpl. Qed.

(** The state after an accepted transfer whose identifier was drawn
    before and whose knowledge type names the capability [c]. *)
Lemma process_accept_spec now tid t s c :
  knowledge_transfers s !! tid = Some t ->
  tid < uuid_count s ->
  capability_of_value (knowledge_type t) = Some c ->
  let t' := set_status accepted t in
  let e := transfer_experience now (uuid_count s) c t' in
  let s' := snd (process_knowledge_transfer now tid true s) in
  fst (process_knowledge_transfer now tid true s) = true
  /\ knowledge_transfers s' !! tid = Some t'
  /\ learning_experiences s'
     = deque_append max_experiences e (learning_experiences s)
  /\ (forall a,
        od_get a (agent_profiles s')
        = let after_apply :=
            if decide (a = to_agent t)
            then receive_knowledge c (knowledge_type t)
                   <$> od_get a (agent_profiles s)
            else od_get a (agent_profiles s) in
          if decide (a = from_agent t)
          then update_profile now e <$> after_apply else after_apply)
  /\ map fst (agent_profiles s') = map fst (agent_profiles s)
  /\ uuid_count s <= uuid_count s'
  /\ (forall k t0, knowledge_transfers s' !! k = Some t0 ->
        (k = tid /\ t0 = t')
        \/ (k <> tid /\ knowledge_transfers s !! k = Some t0)
        \/ (uuid_count s <= k < uuid_count s' /\ offered_for e t0)).
Proof.
  intros Ht Hlt Hc. unfold process_knowledge_transfer. rewrite Ht.
  cbv zeta. cbn [fst snd].
  set (t' := set_status accepted t).
  set (s1 := set_transfers (<[tid:=t']> (knowledge_transfers s)) s).
  set (s2 := _apply_knowledge_to_agent t' s1).
  destruct (apply_knowledge_fields t' s1) as (He2 & Ht2 & Hu2 & Hk2).
  fold s2 in He2, Ht2, Hu2, Hk2.
  assert (Hc' : capability_of_value (knowledge_type t') = Some c) by done.
  destruct (learn_spec now t' s2 c Hc') as (He3 & Hp3 & (L & K & N)).
  rewrite Hu2 in *. subst s1. simpl in *.
  split; [done|]. split.
  { rewrite K by done. rewrite Ht2. apply lookup_insert_eq. }
  split; [by rewrite He3, He2|]. split.
  { intros a. rewrite Hp3, update_agent_profile_get.
    unfold s2. rewrite apply_knowledge_get. simpl. rewrite Hc. done. }
  split.
  { by rewrite Hp3, update_agent_profile_keys, Hk2. }
  split; [done|].
  intros k t0 Hk. destruct (N k t0 Hk) as [H|H]; [|by right; right].
  rewrite Ht2 in H. destruct (decide (tid = k)) as [<-|Hne].
  - rewrite lookup_insert_eq in H. left. split; congruence.
  - rewrite lookup_insert_ne in H by done. right. left. split; congruence.
Qed.

Lemma process_accept_Forall (P : AgentProfile -> Prop) now tid t s c :
  knowledge_transfers s !! tid = Some t ->
  capability_of_value (knowledge_type t) = Some c ->
  (forall cap p, P p -> P (receive_knowledge cap (knowledge_type t) p)) ->
  (forall p, P p ->
     P (update_profile now
          (transfer_experience now (uuid_count s) c (set_status accepted t)) p)) ->
  Forall (fun kv => P (snd kv)) (agent_profiles s) ->
  Forall (fun kv => P (snd kv))
         (agent_profiles (snd (process_knowledge_transfer now tid true s))).
Proof.
  intros Ht Hc HR HU H. unfold process_knowledge_transfer. rewrite Ht.
  cbv zeta. cbn [fst snd set_metrics agent_profiles].
  set (t' := set_status accepted t).
  set (s1 := set_transfers (<[tid:=t']> (knowledge_transfers s)) s).
  destruct (learn_spec now t' (_apply_knowledge_to_agent t' s1) c Hc)
    as (_ & -> & _).
  destruct (apply_knowledge_fields t' s1) as (_ & _ & -> & _).
  apply update_agent_profile_Forall; [exact HU|].
  apply apply_knowledge_Forall; [exact HR | exact H].
Qed.

(** ** The invariant on transfers *)

Lemma wf_init : wf init.
Proof. unfold wf. simpl. apply map_Forall_empty. Qed.

Lemma wf_extended e s s' : wf s -> transfers_extended e s s' -> wf s'.
Proof.
  intros Hwf (L & K & N) k t Hk.
  destruct (N k t Hk) as [H|[H (Hst & Hkt & _)]].
  - destruct (Hwf k t H) as (H1 & H2 & H3). split; [lia|done].
  - split; [lia|]. split.
    + rewrite Hkt, capability_of_value_inv. eauto.
    + by rewrite Hst.
Qed.

Lemma step_wf s op : wf s -> wf (step s op).
Proof.
  intros Hwf. destruct op as [now a ty caps|now e|now from to cap|now tid accept];
    cbn [step].
  - exact Hwf.
  - destruct (share_spec now e s) as (_ & _ & _ & H). by eapply wf_extended.
  - destruct (List.filter (transferable from cap) (learning_experiences s))
      as [|x r] eqn:E.
    + by rewrite request_none.
    + destruct (request_some now from to cap s) as (_ & Ht & _ & _ & Hu);
        [by rewrite E|].
      intros k t. rewrite Ht, Hu. clear Ht Hu.
      destruct (decide (uuid_count s = k)) as [<-|Hne].
      * rewrite lookup_insert_eq. intros [= <-]. split; [lia|].
        unfold requested_transfer. cbn [knowledge_type status].
        rewrite capability_of_value_inv. split; [eauto|done].
      * rewrite lookup_insert_ne by done. intros H.
        destruct (Hwf k t H) as (H1 & H2 & H3). split; [lia|done].
  - destruct (knowledge_transfers s !! tid) as [t|] eqn:Ht;
      [|by rewrite process_missing].
    destruct (Hwf tid t Ht) as (Hlt & [c Hc] & Hst).
    destruct accept.
    + destruct (process_accept_spec now tid t s c Ht Hlt Hc)
        as (_ & _ & _ & _ & _ & Hle & N).
      intros k t0 Hk. destruct (N k t0 Hk) as [[-> ->]|[[_ H]|[H (Ho & Hkt & _)]]].
      * split; [lia|]. cbn [set_status knowledge_type status]. split; [eauto|done].
      * destruct (Hwf k t0 H) as (H1 & H2 & H3). split; [lia|done].
      * split; [lia|]. rewrite Hkt, capability_of_value_inv, Ho.
        split; [eauto|done].
    + destruct (process_reject_spec now tid t s Ht) as (_ & Hm & _ & _ & Hu).
      intros k t0. rewrite Hm, Hu.
      destruct (decide (tid = k)) as [<-|Hne].
      * rewrite lookup_insert_eq. intros [= <-]. split; [done|].
        cbn [set_status knowledge_type status]. split; [eauto|done].
      * rewrite lookup_insert_ne by done. apply Hwf.
Qed.



(** ** Rates and reputation stay in the unit interval *)

Lemma step_rates s op :
  Forall (fun kv => rates_bounded (snd kv)) (agent_profiles s) ->
  Forall (fun kv => rates_bounded (snd kv)) (agent_profiles (step s op)).
Proof.
  intros H. destruct op as [now a ty caps|now e|now from to cap|now tid accept];
    cbn [step].
  - cbn [register_agent snd agent_profiles]. apply od_set_Forall; [done|].
    split; split; cbn; lra.
  - destruct (share_spec now e s) as (_ & _ & -> & _).
    apply update_agent_profile_Forall; auto using update_profile_rates.
  - destruct (List.filter (transferable from cap) (learning_experiences s))
      as [|x r] eqn:E.
    + by rewrite request_none.
    + destruct (request_some now from to cap s) as (_ & _ & -> & _);
        [by rewrite E|done].
  - destruct (knowledge_transfers s !! tid) as [t|] eqn:Ht;
      [|by rewrite process_missing].
    destruct accept.
    + destruct (capability_of_value (knowledge_type t)) as [c|] eqn:Hc.
      * eapply process_accept_Forall; eauto using update_profile_rates,
          receive_knowledge_rates.
      * unfold process_knowledge_transfer. rewrite Ht.
        cbn [fst snd set_metrics agent_profiles].
        unfold _learn_from_transfer_success, _apply_knowledge_to_agent.
        cbn [knowledge_type set_status]. rewrite Hc.
        by destruct (od_get _ _).
    + by destruct (process_reject_spec now tid t s Ht) as (_ & _ & -> & _).
Qed.

Lemma run_rates ops s :
  Forall (fun kv => rates_bounded (snd kv)) (agent_profiles s) ->
  Forall (fun kv => rates_bounded (snd kv)) (agent_profiles (run ops s)).
Proof.
  revert s. induction ops as [|op ops IH]; intros s H; simpl; [done|].
  apply IH. by apply step_rates.
Qed.

(** ** Confidences stay in the unit interval when the inputs do *)

Lemma Qsum_bounds (l : list Q) (a : Q) :
  Forall unit_interval l ->
  (a <= fold_left Qplus l a
   /\ fold_left Qplus l a <= a + inject_Z (Z.of_nat (length l)))%Q.
Proof.
  intros H. revert a. induction H as [|x l [Hx0 Hx1] _ IH]; intros a.
  - change (inject_Z (Z.of_nat (length (@nil Q)))) with 0%Q. simpl. split; lra.
  - cbn [fold_left length]. destruct (IH (a + x)%Q) as [I1 I2].
    rewrite Nat2Z.inj_succ, <- Z.add_1_r, inject_Z_plus.
    change (inject_Z 1) with 1%Q. split; lra.
Qed.

Lemma mean_unit (l : list Q) :
  Forall unit_interval l -> l <> [] ->
  unit_interval (Qsum l / inject_Z (Z.of_nat (length l))).
Proof.
  intros H Hne. destruct (Qsum_bounds l 0 H) as [H0 H1].
  assert (Hpos : (0 < inject_Z (Z.of_nat (length l)))%Q).
  { change 0%Q with (inject_Z 0). rewrite <- Zlt_Qlt.
    destruct l; [done|]. simpl. lia. }
  unfold Qsum. split.
  - apply Qle_shift_div_l; [done|]. lra.
  - apply Qle_shift_div_r; [done|]. lra.
Qed.

Lemma step_confidences s op :
  confident_op op -> wf s -> confidences_bounded s ->
  confidences_bounded (step s op).
Proof.
  intros Hop Hwf (HP & HE & HT).
  destruct op as [now a ty caps|now e|now from to cap|now tid accept];
    cbn [step].
  - split; [|done]. cbn [register_agent snd agent_profiles].
    apply od_set_Forall; [done|]. split; cbn; lra.
  - destruct (share_spec now e s) as (_ & He & Hp & (_ & _ & N)).
    unfold confidences_bounded. rewrite He, Hp. split; [|split].
    + apply update_agent_profile_Forall; auto using update_profile_confidence.
    + by apply Forall_deque_append.
    + intros k t Hk. destruct (N k t Hk) as [H|[_ (_ & _ & ->)]]; [|done].
      by apply (HT k t).
  - destruct (List.filter (transferable from cap) (learning_experiences s))
      as [|x r] eqn:E.
    + by rewrite request_none.
    + destruct (request_some now from to cap s) as (_ & Ht & Hp & He & _);
        [by rewrite E|].
      unfold confidences_bounded. rewrite Ht, Hp, He.
      split; [done|]. split; [done|].
      apply map_Forall_insert_2; [|done].
      unfold requested_transfer. cbn [t_confidence].
      rewrite <- (length_map confidence).
      apply mean_unit; [|by rewrite E].
      apply Forall_map, Forall_forall. intros y Hy.
      apply list_elem_of_In, filter_In in Hy. destruct Hy as [Hy _].
      apply list_elem_of_In in Hy. by apply (proj1 (Forall_forall _ _) HE).
  - destruct (knowledge_transfers s !! tid) as [t|] eqn:Ht;
      [|by rewrite process_missing].
    destruct (Hwf tid t Ht) as (Hlt & [c Hc] & _).
    pose proof (HT tid t Ht) as Hconf. cbv beta in Hconf.
    destruct accept.
    + destruct (process_accept_spec now tid t s c Ht Hlt Hc)
        as (_ & _ & He & _ & _ & _ & N).
      split; [|split].
      * eapply process_accept_Forall; eauto.
        intros p Hp. by apply update_profile_confidence.
      * rewrite He. by apply Forall_deque_append.
      * intros k t0 Hk.
        destruct (N k t0 Hk) as [[-> ->]|[[_ H]|[_ (_ & _ & ->)]]];
          [done | by apply (HT k t0) | done].
    + destruct (process_reject_spec now tid t s Ht) as (_ & Hm & Hp & He & _).
      unfold confidences_bounded. rewrite Hm, Hp, He.
      split; [done|]. split; [done|]. by apply map_Forall_insert_2.
Qed.

Lemma run_confidences ops s :
  Forall confident_op ops -> wf s -> confidences_bounded s ->
  confidences_bounded (run ops s).
Proof.
  intros Hops. revert s. induction Hops as [|op ops Hop _ IH]; intros s Hwf H;
    simpl; [done|].
  apply IH; [by apply step_wf | by apply step_confidences].
Qed.

Lemma init_confidences : confidences_bounded init.
Proof.
  split; [constructor|]. split; [constructor|]. apply map_Forall_empty.
Qed.

(** ** The experience store *)

Lemma max_experiences_pos : 0 < max_experiences.
Proof. unfold max_experiences. lia. Qed.

Lemma process_experiences now tid accept s :
  learning_experiences (snd (process_knowledge_transfer now tid accept s))
  = learning_experiences s
  \/ exists e,
       learning_experiences (snd (process_knowledge_transfer now tid accept s))
       = deque_append max_experiences e (learning_experiences s).
Proof.
  destruct (knowledge_transfers s !! tid) as [t|] eqn:Ht;
    [|left; by rewrite process_missing].
  destruct accept;
    [|left; by destruct (process_reject_spec now tid t s Ht) as (_ & _ & _ & -> & _)].
  unfold process_knowledge_transfer. rewrite Ht.
  cbn [fst snd set_metrics learning_experiences].
  set (t' := set_status accepted t).
  set (s1 := set_transfers (<[tid:=t']> (knowledge_transfers s)) s).
  destruct (apply_knowledge_fields t' s1) as (He2 & _).
  destruct (capability_of_value (knowledge_type t')) as [c|] eqn:Hc.
  - destruct (learn_spec now t' (_apply_knowledge_to_agent t' s1) c Hc)
      as (-> & _). right. eexists. by rewrite He2.
  - left. unfold _learn_from_transfer_success. rewrite Hc. cbn. by rewrite He2.
Qed.

Lemma step_store_bound s op :
  length (learning_experiences s) <= max_experiences ->
  length (learning_experiences (step s op)) <= max_experiences.
Proof.
  intros H. destruct op as [now a ty caps|now e|now from to cap|now tid accept];
    cbn [step].
  - done.
  - destruct (share_spec now e s) as (_ & -> & _).
    apply deque_append_length; auto using max_experiences_pos.
  - destruct (List.filter (transferable from cap) (learning_experiences s))
      as [|x r] eqn:E.
    + by rewrite request_none.
    + destruct (request_some now from to cap s) as (_ & _ & _ & -> & _);
        [by rewrite E|done].
  - destruct (process_experiences now tid accept s) as [->|[e ->]]; [done|].
    apply deque_append_length; auto using max_experiences_pos.
Qed.

Lemma run_store_bound ops s :
  length (learning_experiences s) <= max_experiences ->
  length (learning_experiences (run ops s)) <= max_experiences.
Proof.
  revert s. induction ops as [|op ops IH]; intros s H; simpl; [done|].
  apply IH. by apply step_store_bound.
Qed.

Lemma share_ops_store shares s :
  length (learning_experiences s) <= max_experiences ->
  learning_experiences (run (share_ops shares) s)
  = lastn max_experiences (learning_experiences s ++ map snd shares).
Proof.
  revert s. induction shares as [|[now e] shares IH]; intros s H.
  - simpl. rewrite app_nil_r. symmetry. by apply lastn_all.
  - change (run (share_ops ((now, e) :: shares)) s)
      with (run (share_ops shares) (step s (OpShare now e))).
    rewrite IH by (by apply (step_store_bound s (OpShare now e))).
    cbn [step map snd]. destruct (share_spec now e s) as (_ & -> & _).
    rewrite deque_append_lastn by auto using max_experiences_pos.
    rewrite lastn_app_lastn. by rewrite <- app_assoc.
Qed.

Lemma offer_transfer_metrics now e s a :
  learning_metrics (offer_transfer now e s a) = learning_metrics s.
Proof. unfold offer_transfer. by destruct (String.eqb _ _). Qed.

Lemma offer_fold_metrics now e agents s :
  learning_metrics (fold_left (offer_transfer now e) agents s)
  = learning_metrics s.
Proof.
  revert s. induction agents as [|a agents IH]; intros s; simpl; [done|].
  by rewrite IH, offer_transfer_metrics.
Qed.

Lemma update_agent_profile_metrics now a e s :
  learning_metrics (_update_agent_profile now a e s) = learning_metrics s.
Proof. unfold _update_agent_profile. by destruct (od_get _ _). Qed.

Lemma share_metrics now e s :
  learning_metrics (snd (share_learning_experience now e s))
  = {| total_experiences := total_experiences (learning_metrics s) + 1;
       successful_transfers := successful_transfers (learning_metrics s);
       failed_transfers := failed_transfers (learning_metrics s);
       collaboration_count := collaboration_count (learning_metrics s);
       knowledge_base_size :=
         length (deque_append max_experiences e (learning_experiences s)) |}.
Proof.
  destruct (share_spec now e s) as (_ & He & _). cbv zeta in He.
  unfold share_learning_experience in *. cbv zeta in *.
  cbn [snd set_metrics learning_metrics learning_experiences] in *.
  rewrite He, offer_fold_metrics, update_agent_profile_metrics. done.
Qed.

Lemma share_ops_metrics shares s :
  total_experiences (learning_metrics (run (share_ops shares) s))
  = total_experiences (learning_metrics s) + length shares.
Proof.
  revert s. induction shares as [|[now e] shares IH]; intros s; [simpl; lia|].
  change (run (share_ops ((now, e) :: shares)) s)
    with (run (share_ops shares) (step s (OpShare now e))).
  rewrite IH. cbn [step length]. rewrite share_metrics. cbn. lia.
Qed.

Lemma od_get_map {V W} (f : V -> W) k (d : odict V) :
  od_get k (map (fun kv => (fst kv, f (snd kv))) d) = f <$> od_get k d.
Proof.
  induction d as [|[k0 v0] r IH]; [done|]. cbn [map od_get fst snd].
  by destruct (String.eqb k k0).
Qed.

(** The experience count of a registered agent grows with every experience
    it shares. *)
Lemma share_ops_counts shares s a p :
  od_get a (agent_profiles s) = Some p ->
  exists p',
    od_get a (agent_profiles (run (share_ops shares) s)) = Some p'
    /\ p_agent_type p' = p_agent_type p
    /\ experience_count p' = experience_count p + shared_by a shares.
Proof.
  revert s p. induction shares as [|[now e] shares IH]; intros s p Hp.
  - exists p. unfold shared_by. simpl. split; [done|]. split; [done|lia].
  - change (run (share_ops ((now, e) :: shares)) s)
      with (run (share_ops shares) (step s (OpShare now e))).
    cbn [step]. destruct (share_spec now e s) as (_ & _ & Hpr & _).
    cbv zeta in Hpr.
    pose proof (update_agent_profile_get now (agent_id e) e s a) as Hg.
    rewrite <- Hpr, Hp in Hg. unfold shared_by. cbn [List.filter snd].
    destruct (decide (a = agent_id e)) as [->|Hne].
    + cbn in Hg. destruct (IH _ _ Hg) as (p' & H1 & H2 & H3). exists p'.
      split; [done|]. split; [by rewrite H2|].
      rewrite String.eqb_refl. cbn [length]. rewrite H3. unfold shared_by.
      cbn [update_profile experience_count]. lia.
    + destruct (IH _ _ Hg) as (p' & H1 & H2 & H3). exists p'.
      split; [done|]. split; [done|].
      assert (E : String.eqb (agent_id e) a = false)
        by (apply String.eqb_neq; congruence).
      rewrite E. by rewrite H3.
Qed.

Lemma full_batch_of_B : shared_by "A" full_batch = 0.
Proof.
  unfold shared_by, full_batch. generalize max_experiences.
  induction n as [|n IH]; [reflexivity|]. cbn [repeat List.filter snd]. exact IH.
Qed.

(** C9, as stated, fails for the learning report.  Two batches of more
    than 10000 shared experiences that end with the same 10000 leave the
    same store, and so the same learning patterns, but different reports:
    the metrics of the report count every experience ever shared, and its
    agent statistics count the experiences of agent A that the store has
    evicted. *)
Lemma C9_counterexample :
  let older := (0%Z, testing_experience "A" 0.9) in
  let one := run (share_ops (older :: full_batch)) two_agents in
  let two := run (share_ops (older :: older :: full_batch)) two_agents in
  max_experiences < length (older :: full_batch)
  /\ lastn max_experiences (map snd (older :: full_batch))
     = lastn max_experiences (map snd (older :: older :: full_batch))
  /\ learning_experiences one = learning_experiences two
  /\ report_learning_patterns one = report_learning_patterns two
  /\ total_experiences (report_metrics one) = max_experiences + 1
  /\ total_experiences (report_metrics two) = max_experiences + 2
  /\ (stat_experience_count <$> od_get "A" (report_agent_statistics one)) = Some 1
  /\ (stat_experience_count <$> od_get "A" (report_agent_statistics two)) = Some 2.
Proof.
  cbv zeta.
  assert (Hlen : length full_batch = max_experiences)
    by apply repeat_length.
  assert (Hlast : lastn max_experiences
                    (map snd ((0%Z, testing_experience "A" 0.9) :: full_batch))
                  = lastn max_experiences
                      (map snd ((0%Z, testing_experience "A" 0.9)
                                :: (0%Z, testing_experience "A" 0.9)
                                :: full_batch))).
  { unfold lastn. cbn [map length]. rewrite length_map, Hlen.
    replace (S max_experiences - max_experiences) with 1 by lia.
    replace (S (S max_experiences) - max_experiences) with 2 by lia.
    reflexivity. }
  assert (Hp : od_get "A" (agent_profiles two_agents)
               = Some {| p_agent_id := "A"; p_agent_type := "TestingAgent";
                         capabilities := [TESTING]; experience_count := 0;
                         success_rate := 0; average_confidence := 0;
                         specializations := []; collaboration_history := [];
                         last_active := 0; reputation_score := 0.5 |})
    by reflexivity.
  split; [cbn [length]; lia|]. split; [exact Hlast|].
  assert (Hst : learning_experiences
                  (run (share_ops ((0%Z, testing_experience "A" 0.9) :: full_batch))
                       two_agents)
                = learning_experiences
                    (run (share_ops ((0%Z, testing_experience "A" 0.9)
                                     :: (0%Z, testing_experience "A" 0.9)
                                     :: full_batch))
                         two_agents)).
  { rewrite !share_ops_store by (cbn; lia).
    change (learning_experiences two_agents) with (@nil LearningExperience).
    cbn [app]. exact Hlast. }
  split; [exact Hst|].
  split; [unfold report_learning_patterns; rewrite Hst; reflexivity|].
  clear Hst Hlast.
  unfold report_metrics, report_agent_statistics.
  rewrite !share_ops_metrics, !od_get_map. cbn [length]. rewrite Hlen.
  split; [cbn; lia|]. split; [cbn; lia|].
  split.
  - destruct (share_ops_counts ((0%Z, testing_experience "A" 0.9) :: full_batch)
                _ _ _ Hp) as (p' & -> & _ & Hc).
    cbn [fmap option_fmap option_map stat_experience_count statistics_of].
    f_equal.
    rewrite Hc. unfold shared_by. cbn [List.filter snd agent_id
      testing_experience String.eqb Ascii.eqb Bool.eqb length experience_count].
    fold (shared_by "A" full_batch). rewrite full_batch_of_B. reflexivity.
  - destruct (share_ops_counts ((0%Z, testing_experience "A" 0.9)
                                :: (0%Z, testing_experience "A" 0.9)
                                :: full_batch)
                _ _ _ Hp) as (p' & -> & _ & Hc).
    cbn [fmap option_fmap option_map stat_experience_count statistics_of].
    f_equal.
    rewrite Hc. unfold shared_by. cbn [List.filter snd agent_id
      testing_experience String.eqb Ascii.eqb Bool.eqb length experience_count].
    fold (shared_by "A" full_batch). rewrite full_batch_of_B. reflexivity.
Qed.

(** C9, amended.  The store of experiences never holds more than 10000
    entries, whatever calls are made; sharing appends to it and evicts the
    oldest entry when it is full, so that after a batch of shared
    experiences the store is exactly the last 10000 of them; a transfer
    request, the recommendations and the learning patterns of the report
    are then what they would be if only those last 10000 experiences had
    ever been shared. The metrics and the agent statistics of the report
    are running totals: they count every experience of the batch, evicted
    or not. *)
Theorem C9_experience_store_bounded_fifo :
  Z.of_nat max_experiences = 10000%Z
  /\ (forall ops, length (learning_experiences (run ops init)) <= max_experiences)
  /\ (forall now e s,
        learning_experiences (snd (share_learning_experience now e s))
        = if decide (max_experiences <= length (learning_experiences s))
          then tail (learning_experiences s) ++ [e]
          else learning_experiences s ++ [e])
  /\ (forall shares s,
        learning_experiences s = [] ->
        let s' := run (share_ops shares) s in
        let recent := lastn max_experiences (map snd shares) in
        learning_experiences s' = recent
        /\ (forall now from to cap,
              fst (request_knowledge_transfer now from to cap s') = None
              <-> List.filter (transferable from cap) recent = [])
        /\ (forall now from to cap tid,
              fst (request_knowledge_transfer now from to cap s') = Some tid ->
              knowledge_transfers
                (snd (request_knowledge_transfer now from to cap s')) !! tid
              = Some (requested_transfer now tid from to cap
                        (List.filter (transferable from cap) recent)))
        /\ (forall agent cap,
              get_agent_recommendations agent cap s'
              = recommendations_from recent agent cap)
        /\ report_learning_patterns s' = learning_patterns_from recent
        /\ total_experiences (report_metrics s')
           = total_experiences (report_metrics s) + length shares
        /\ (forall a st,
              od_get a (report_agent_statistics s) = Some st ->
              exists st',
                od_get a (report_agent_statistics s') = Some st'
                /\ stat_experience_count st'
                   = stat_experience_count st + shared_by a shares)).
Proof.
  split; [reflexivity|]. split; [|split].
  - intros ops. apply run_store_bound. simpl. lia.
  - intros now e s. by destruct (share_spec now e s) as (_ & -> & _).
  - intros shares s Hs. cbv zeta.
    assert (Hst : learning_experiences (run (share_ops shares) s)
                  = lastn max_experiences (map snd shares)).
    { rewrite share_ops_store by (rewrite Hs; simpl; lia). by rewrite Hs. }
    split; [exact Hst|]. split; [|split; [|split; [|split; [|split]]]].
    + intros now from to cap. rewrite <- Hst.
      destruct (List.filter (transferable from cap)
                  (learning_experiences (run (share_ops shares) s)))
        as [|x r] eqn:E.
      * by rewrite request_none.
      * destruct (request_some now from to cap (run (share_ops shares) s))
          as (-> & _); [by rewrite E|]. done.
    + intros now from to cap tid. rewrite <- Hst.
      destruct (List.filter (transferable from cap)
                  (learning_experiences (run (share_ops shares) s)))
        as [|x r] eqn:E.
      * by rewrite request_none.
      * destruct (request_some now from to cap (run (share_ops shares) s))
          as (-> & -> & _); [by rewrite E|].
        intros [= <-]. rewrite lookup_insert_eq. by rewrite E.
    + intros agent cap. unfold get_agent_recommendations. by rewrite Hst.
    + unfold report_learning_patterns. by rewrite Hst.
    + apply share_ops_metrics.
    + intros a st. unfold report_agent_statistics. rewrite !od_get_map.
      destruct (od_get a (agent_profiles s)) as [p|] eqn:Hp; [|done].
      intros [= <-].
      destruct (share_ops_counts shares s a p Hp) as (p' & -> & _ & Hc).
      eexists. split; [reflexivity|]. exact Hc.
Qed.

Lemma C9_witness :
  let shares := [(1%Z, testing_experience "A" 0.9);
                 (2%Z, testing_experience "A" 0.9)] in
  learning_experiences two_agents = []
  /\ learning_experiences (run (share_ops shares) two_agents)
     = lastn max_experiences (map snd shares).
Proof.
  assert (H : learning_experiences two_agents = [])
    by (vm_compute; reflexivity).
  split; [exact H|].
  exact (proj1 (proj2 (proj2 (proj2 C9_experience_store_bounded_fifo))
                 [(1%Z, testing_experience "A" 0.9%Q);
                  (2%Z, testing_experience "A" 0.9%Q)]
                 two_agents H)).
Defined.

(** ** Processing a transfer *)

(** C10.  Accepting a transfer on record whose receiver is not registered
    returns [True] and marks the transfer [accepted]; the receiver still
    has no profile afterwards, no profile is created, and the profiles of
    all agents but the sender (who is credited with the meta-experience)
    are unchanged. *)
Theorem C10_unregistered_receiver now tid t s :
  wf s ->
  knowledge_transfers s !! tid = Some t ->
  od_get (to_agent t) (agent_profiles s) = None ->
  let r := process_knowledge_transfer now tid true s in
  fst r = true
  /\ status_of tid (snd r) = Some accepted
  /\ status_of tid (snd r) <> Some pending
  /\ od_get (to_agent t) (agent_profiles (snd r)) = None
  /\ map fst (agent_profiles (snd r)) = map fst (agent_profiles s)
  /\ (forall a, a <> from_agent t ->
        od_get a (agent_profiles (snd r)) = od_get a (agent_profiles s)).
Proof.
  intros Hwf Ht Hto. cbv zeta.
  destruct (Hwf tid t Ht) as (Hlt & [c Hc] & _).
  destruct (process_accept_spec now tid t s c Ht Hlt Hc)
    as (Hr & Hst & _ & Hp & Hk & _).
  split; [done|]. unfold status_of. rewrite Hst. cbn [fmap option_fmap option_map
    set_status status].
  split; [done|]. split; [done|]. split; [|split; [done|]].
  - rewrite Hp. cbv zeta. rewrite Hto. by repeat case_decide.
  - intros a Ha. rewrite Hp. cbv zeta. rewrite (decide_False _ _ Ha).
    destruct (decide (a = to_agent t)) as [->|]; [|done]. by rewrite Hto.
Qed.

Lemma C10_witness :
  knowledge_transfers stranger_state !! 0
  = Some (requested_transfer 4 0 "A" "Z" TESTING
            (learning_experiences shared_thrice))
  /\ fst (process_knowledge_transfer 5 0 true stranger_state) = true
  /\ od_get "Z" (agent_profiles
                   (snd (process_knowledge_transfer 5 0 true stranger_state)))
     = None.
Proof.
  assert (Ht : knowledge_transfers stranger_state !! 0
               = Some (requested_transfer 4 0 "A" "Z" TESTING
                         (learning_experiences shared_thrice)))
    by (vm_compute; reflexivity).
  split; [exact Ht|].
  assert (Hwf : wf stranger_state)
    by (apply (bool_decide_unpack _); vm_compute; exact I).
  assert (Hto : od_get "Z" (agent_profiles stranger_state) = None)
    by (vm_compute; reflexivity).
  destruct (C10_unregistered_receiver 5 0 _ stranger_state Hwf Ht Hto)
    as (H1 & _ & _ & H2 & _).
  split; [exact H1 | exact H2].
Defined.

Lemma cap_in_In c l : cap_in c l = true <-> In c l.
Proof.
  unfold cap_in. rewrite existsb_exists. split.
  - intros (x & Hx & E). apply bool_decide_eq_true in E. by subst.
  - intros H. exists c. split; [done|]. by apply bool_decide_eq_true.
Qed.

Lemma str_in_In x l : str_in x l = true <-> In x l.
Proof.
  unfold str_in. rewrite existsb_exists. split.
  - intros (y & Hy & E). apply String.eqb_eq in E. by subst.
  - intros H. exists x. split; [done|]. apply String.eqb_refl.
Qed.

Lemma receive_knowledge_gains c kt p :
  In c (capabilities (receive_knowledge c kt p))
  /\ In kt (specializations (receive_knowledge c kt p)).
Proof.
  cbn [receive_knowledge capabilities specializations]. split.
  - destruct (cap_in c (capabilities p)) eqn:E.
    + by apply cap_in_In.
    + apply in_or_app. right. by left.
  - unfold append_new. destruct (str_in kt (specializations p)) eqn:E.
    + by apply str_in_In.
    + apply in_or_app. right. by left.
Qed.





(** Accepting is not idempotent either: processing the accepted transfer
    of the scenario a second time raises the receiver's reputation again. *)
Lemma accepted_transfer_reapplied :
  let r := process_knowledge_transfer 6 0 true accepted_state in
  fst r = true
  /\ match reputation_of "B" accepted_state, reputation_of "B" (snd r) with
     | Some before, Some after => (before < after)%Q
     | _, _ => False
     end.
Proof. vm_compute. split; reflexivity. Qed.



(** ** Bounds on the profiles *)

(** C5, as stated, fails: an agent whose first experience reports a
    confidence of 1.5 has an average confidence of 1.5. *)
Lemma C5_counterexample :
  match od_get "A" (agent_profiles overconfident) with
  | Some p => (average_confidence p == 1.5)%Q
              /\ ~ unit_interval (average_confidence p)
  | None => False
  end.
Proof.
  vm_compute. split; [reflexivity|]. intros [_ H]. by apply H.
Qed.

(** C5, amended.  After every sequence of registrations, shared
    experiences, transfer requests and processed transfers, the success
    rate and the reputation of every registered agent lie in [0,1]; the
    average confidence does too when every shared experience reports a
    confidence in [0,1].  The first experience of an agent sets its
    success rate and average confidence to the observed values, later
    ones move them by an exponential average of rate 0.3; every
    reputation update is clamped. *)
Theorem C5_profile_bounds :
  (forall ops, Forall (fun kv => rates_bounded (snd kv))
                      (agent_profiles (run ops init)))
  /\ (forall ops,
        Forall confident_op ops ->
        Forall (fun kv => confidence_bounded (snd kv))
               (agent_profiles (run ops init)))
  /\ (forall now e p,
        let observed : Q := if success e then 1%Q else 0%Q in
        let p' := update_profile now e p in
        (experience_count p = 0 ->
         success_rate p' = observed /\ average_confidence p' = confidence e)
        /\ (experience_count p <> 0 ->
            success_rate p' = ((1 - 0.3) * success_rate p + 0.3 * observed)%Q
            /\ average_confidence p'
               = ((1 - 0.3) * average_confidence p + 0.3 * confidence e)%Q)
        /\ reputation_score p'
           = Qmin 1 (Qmax 0 (reputation_score p
                             + confidence e
                               * (if success e then 1 else -0.5) * 0.1)%Q))
  /\ (forall c kt p,
        reputation_score (receive_knowledge c kt p)
        = Qmin 1 (reputation_score p + 0.05)%Q).
Proof.
  split; [|split; [|split]].
  - intros ops. apply run_rates. constructor.
  - intros ops Hops.
    by destruct (run_confidences ops init Hops wf_init init_confidences).
  - intros now e p. cbv zeta. unfold update_profile.
    cbn [success_rate average_confidence reputation_score]. split; [|split].
    + intros H. destruct (decide _) as [_|Hn]; [done | lia].
    + intros H. destruct (decide _) as [Hn|_]; [lia | done].
    + done.
  - done.
Qed.

Lemma C5_witness :
  let ops := [OpRegister 0 "A" "TestingAgent" [TESTING];
              OpShare 1 (testing_experience "A" 0.9)] in
  Forall confident_op ops
  /\ Forall (fun kv => confidence_bounded (snd kv))
            (agent_profiles (run ops init)).
Proof.
  assert (H : Forall confident_op
                [OpRegister 0 "A" "TestingAgent" [TESTING];
                 OpShare 1 (testing_experience "A" 0.9)]).
  { repeat constructor; unfold Qle; simpl; lia. }
  split; [exact H|].
  exact (proj1 (proj2 C5_profile_bounds) _ H).
Defined.
End CoordinatorFacts.

(** * Further facts about the embedded code *)

(** ** Numbers *)

Section Numbers.

Lemma Qltb_lt (x y : Q) : Qltb x y = true <-> (x < y)%Q.
Proof.
  unfold Qltb. rewrite negb_true_iff. split.
  - intros H. apply Qnot_le_lt. intros Hle. apply Qle_bool_iff in Hle.
    congruence.
  - intros H. destruct (Qle_bool y x) eqn:E; [|done].
    apply Qle_bool_iff in E. lra.
Qed.

Lemma inject_nat_pos n : 0 < n -> (0 < inject_Z (Z.of_nat n))%Q.
Proof. intros H. rewrite <- (Zlt_Qlt 0). lia. Qed.

Lemma Qsum_at_most (c : Q) (l : list Q) (a : Q) :
  Forall (fun x => (x <= c)%Q) l ->
  (fold_left Qplus l a <= a + c * inject_Z (Z.of_nat (length l)))%Q.
Proof.
  intros H. revert a. induction H as [|x l Hx _ IH]; intros a.
  - change (inject_Z (Z.of_nat (length (@nil Q)))) with 0%Q. simpl. lra.
  - cbn [fold_left length]. specialize (IH (a + x)%Q).
    rewrite Nat2Z.inj_succ, <- Z.add_1_r, inject_Z_plus.
    change (inject_Z 1) with 1%Q. lra.
Qed.



End Numbers.

(** ** The pattern ledger *)

Section PatternLearningMore.
Import PatternLearning.
Implicit Types (s : PatternLearningSystem) (d : DeploymentData) (key : string).

Lemma learn_metrics_cases now d s :
  performance_metrics (snd (learn_from_deployment now d s)) = performance_metrics s
  \/ exists k t,
       performance_metrics (snd (learn_from_deployment now d s))
       = <[k := deque_append 100 t (default [] (performance_metrics s !! k))]>
           (performance_metrics s).
Proof.
  unfold learn_from_deployment.
  destruct (d_error_type d) as [[| | | |k|]|], (d_success d) as [[|ok| | | |]|];
    simpl; auto.
  destruct (str_falsy (py_strip k)); simpl; auto.
  destruct (d_execution_time d) as [t|]; [|destruct ok; auto].
  right. destruct ok; simpl; eauto.
Qed.

Lemma learn_all_metrics_bounded calls s :
  (forall key, length (default [] (performance_metrics s !! key)) <= 100) ->
  forall key,
    length (default [] (performance_metrics (learn_all calls s) !! key)) <= 100.
Proof.
  revert s. induction calls as [|c calls IH]; intros s H; simpl; [done|].
  apply IH. intros key.
  destruct (learn_metrics_cases (fst c) (snd c) s) as [->|(k & t & ->)]; [done|].
  destruct (decide (k = key)) as [->|Hne].
  - rewrite lookup_insert_eq. simpl. apply deque_append_length; [apply H | lia].
  - by rewrite lookup_insert_ne.
Qed.

(** X1.  The execution times kept per key and outcome never exceed one
    hundred, whatever calls are made; a call without an
    ['execution_time'] key records none, and a valid call with one
    appends it, oldest out first, under ["<key>_success"] or
    ["<key>_failure"]. *)
Theorem X1_performance_metrics_bounded :
  (forall calls key,
     length (default [] (performance_metrics (learn_all calls init) !! key)) <= 100)
  /\ (forall now d s,
        d_execution_time d = None ->
        performance_metrics (snd (learn_from_deployment now d s))
        = performance_metrics s)
  /\ (forall now d s key success t,
        valid_for key success d ->
        d_execution_time d = Some t ->
        let k := String.append key (if success then "_success" else "_failure") in
        default [] (performance_metrics (snd (learn_from_deployment now d s)) !! k)
        = deque_append 100 t (default [] (performance_metrics s !! k))).
Proof.
  split; [|split].
  - intros calls key. apply learn_all_metrics_bounded. intros k. simpl.
    rewrite lookup_empty. simpl. lia.
  - intros now d s Ht. unfold learn_from_deployment.
    destruct (d_error_type d) as [[| | | |k|]|], (d_success d) as [[|ok| | | |]|];
      simpl; auto.
    destruct (str_falsy (py_strip k)); simpl; auto.
    rewrite Ht. by destruct ok.
  - intros now d s key success t (Hk & Hstrip & Hs) Ht. cbv zeta.
    unfold learn_from_deployment. rewrite Hk, Hs, Ht.
    destruct (str_falsy (py_strip key)) eqn:E.
    { destruct (py_strip key); [done | discriminate]. }
    destruct success; simpl; by rewrite lookup_insert_eq.
Qed.

Lemma X1_performance_metrics_bounded_witness :
  default []
    (performance_metrics
       (snd (learn_from_deployment 0
               {| d_error_type := Some (PyStr "timeout");
                  d_success := Some (PyBool true);
                  d_solution := Some "retry";
                  d_timestamp := None;
                  d_context := None;
                  d_execution_time := Some (Some 2%Q) |}
               init))
     !! String.append "timeout" "_success")
  = deque_append 100 (Some 2%Q)
      (default [] (performance_metrics init !! String.append "timeout" "_success")).
Proof.
  apply (proj2 (proj2 X1_performance_metrics_bounded) 0%Z _ init "timeout" true).
  - split; [reflexivity|]. split; [vm_compute; discriminate | reflexivity].
  - reflexivity.
Defined.

(** ** Suggestions and the records behind them *)

Lemma rate_threshold (a b : nat) :
  0 < b -> (0.7 <= Qnat a / Qnat b)%Q <-> 7 * b <= 10 * a.
Proof.
  intros Hb. unfold Qnat.
  assert (Hpos : (0 < inject_Z (Z.of_nat b))%Q).
  { change 0%Q with (inject_Z 0). rewrite <- Zlt_Qlt. lia. }
  rewrite <- (Qmult_le_r _ _ _ Hpos).
  assert (E : (inject_Z (Z.of_nat a) / inject_Z (Z.of_nat b)
               * inject_Z (Z.of_nat b) == inject_Z (Z.of_nat a))%Q).
  { field. intros H. rewrite H in Hpos. by apply Qlt_irrefl in Hpos. }
  rewrite E. unfold Qle. simpl. lia.
Qed.



Lemma single_solution_fold cutoff sol (l : list Entry) a :
  Forall (fun p => counted_solution p = Some sol) l ->
  fold_left (stats_step cutoff) l [(sol, a)]
  = [(sol, fold_left (tally cutoff) l a)].
Proof.
  intros H. revert a. induction H as [|p l Hp _ IH]; intros a; simpl; [done|].
  unfold stats_step at 2. rewrite Hp. simpl. rewrite String.eqb_refl. simpl.
  apply IH.
Qed.

(** X3.  When every record kept under a key carries the same solution,
    that solution is suggested exactly when at least 70% of the records
    are successes. *)
Theorem X3_single_solution_suggested now key s sol :
  rankable sol ->
  all_patterns key s <> [] ->
  Forall (fun p => e_solution p = Some sol) (all_patterns key s) ->
  let total := length (all_patterns key s) in
  let successes := length (List.filter e_success (all_patterns key s)) in
  suggest_solution now key s
  = if decide (7 * total <= 10 * successes) then Some sol else None.
Proof.
  intros Hr Hne Hall. cbv zeta. rewrite suggest_solution_cases.
  set (l := all_patterns key s) in *.
  assert (Hc : Forall (fun p => counted_solution p = Some sol) l).
  { eapply Forall_impl; [exact Hall|]. intros p Hp. by apply counted_solution_spec. }
  destruct l as [|p0 l0] eqn:El; [done|].
  unfold _calculate_solution_stats. cbv zeta.
  apply Forall_cons in Hc as [Hc0 Hc1].
  cbn [fold_left]. unfold stats_step at 2. rewrite Hc0. cbn [od_get od_set default].
  rewrite single_solution_fold by done.
  change (fold_left (tally (now - days 30)) l0 (tally (now - days 30) stats_zero p0))
    with (fold_left (tally (now - days 30)) (p0 :: l0) stats_zero).
  destruct (tally_fold (now - days 30) (p0 :: l0) stats_zero) as (Hcnt & Hsuc & _).
  cbv zeta in Hcnt, Hsuc. cbn [map fst snd _select_best_solution].
  cbn [sort_by_score_desc fold_right insert_by_score head].
  cbn [sc_success_rate sc_solution score_solution].
  unfold finalize_stats. rewrite Hcnt.
  destruct (decide (0 < count stats_zero + length (p0 :: l0))) as [Hpos|Hn];
    [|simpl in Hn; lia].
  cbn [success_rate]. rewrite Hsuc. cbn [count success_count stats_zero Nat.add].
  unfold min_success_rate.
  assert (Hlen : 0 < length (p0 :: l0)) by (simpl; lia).
  destruct (decide (7 * length (p0 :: l0) <= 10 * _)) as [Hd|Hd].
  - apply (rate_threshold _ _ Hlen) in Hd.
    apply Qle_bool_iff in Hd. by rewrite Hd.
  - destruct (Qle_bool _ _) eqn:E; [|done].
    apply Qle_bool_iff, (rate_threshold _ _ Hlen) in E. done.
Qed.

Lemma X3_single_solution_suggested_witness :
  rankable "restart"
  /\ suggest_solution 0 "deploy" ten_to_one
     = if decide (7 * length (all_patterns "deploy" ten_to_one)
                  <= 10 * length (List.filter e_success
                                    (all_patterns "deploy" ten_to_one)))
       then Some "restart" else None.
Proof.
  assert (Hr : rankable "restart") by (split; discriminate).
  split; [exact Hr|].
  apply (X3_single_solution_suggested 0 "deploy" ten_to_one "restart" Hr).
  - vm_compute. discriminate.
  - vm_compute. repeat constructor.
Defined.


(** ** The statistics of the ledger *)

Lemma od_set_sum {V} (f : V -> nat) k v (d : odict V) :
  list_sum (map (fun kv => f (snd kv)) (od_set k v d))
  + match od_get k d with Some o => f o | None => 0 end
  = list_sum (map (fun kv => f (snd kv)) d) + f v.
Proof.
  induction d as [|[k0 v0] r IH]; simpl; [lia|].
  destruct (String.eqb k k0); simpl; lia.
Qed.

Lemma stats_fold_counts cutoff l (acc : odict StatsAcc) :
  let counted := List.filter (fun p => bool_decide (is_Some (counted_solution p))) l in
  list_sum (map (fun kv => count (snd kv)) (fold_left (stats_step cutoff) l acc))
  = list_sum (map (fun kv => count (snd kv)) acc) + length counted
  /\ list_sum (map (fun kv => success_count (snd kv))
                   (fold_left (stats_step cutoff) l acc))
     = list_sum (map (fun kv => success_count (snd kv)) acc)
       + length (List.filter e_success counted).
Proof.
  cbv zeta. revert acc. induction l as [|p l IH]; intros acc.
  - simpl. lia.
  - cbn [fold_left List.filter]. destruct (IH (stats_step cutoff acc p)) as [-> ->].
    unfold stats_step. destruct (counted_solution p) as [sol|] eqn:E.
    + rewrite bool_decide_eq_true_2 by eauto.
      pose proof (od_set_sum count sol
                    (tally cutoff (default stats_zero (od_get sol acc)) p) acc)
        as Hc.
      pose proof (od_set_sum success_count sol
                    (tally cutoff (default stats_zero (od_get sol acc)) p) acc)
        as Hs.
      cbn [List.filter length].
      destruct (od_get sol acc) as [o|]; simpl in Hc, Hs |- *;
        destruct (e_success p); simpl in Hs |- *; split; lia.
    + rewrite bool_decide_eq_false_2 by (intros [? ?]; done). done.
Qed.

Lemma finalized_sum (f : StatsAcc -> nat) (d : odict StatsAcc) :
  list_sum (map (fun st => f (st_acc st))
              (map snd (map (fun kv => (fst kv, finalize_stats (snd kv))) d)))
  = list_sum (map (fun kv => f (snd kv)) d).
Proof.
  induction d as [|[k a] r IH]; simpl; [done|]. rewrite IH. f_equal.
  unfold finalize_stats. by destruct (decide _).
Qed.

Lemma all_stats_sums now (L : list (list Entry)) :
  let all_stats :=
    flat_map (fun patterns => map snd (_calculate_solution_stats now patterns)) L in
  let counted :=
    List.filter (fun p => bool_decide (is_Some (counted_solution p))) (concat L) in
  list_sum (map (fun st => count (st_acc st)) all_stats) = length counted
  /\ list_sum (map (fun st => success_count (st_acc st)) all_stats)
     = length (List.filter e_success counted).
Proof.
  cbv zeta. induction L as [|l L [IH1 IH2]]; [done|].
  cbn [flat_map concat]. rewrite !map_app, !list_sum_app, IH1, IH2.
  rewrite !List.filter_app, !length_app.
  unfold _calculate_solution_stats. cbv zeta. rewrite !finalized_sum.
  destruct (stats_fold_counts (now - days 30) l []) as [-> ->]. simpl. lia.
Qed.

Lemma list_sum_lengths {A} (L : list (list A)) :
  list_sum (map length L) = length (concat L).
Proof.
  induction L as [|l L IH]; simpl; [done|]. by rewrite length_app, IH.
Qed.

Lemma Qnat_ratio_unit (a b : nat) :
  a <= b -> 0 < b -> (0 <= Qnat a / Qnat b /\ Qnat a / Qnat b <= 1)%Q.
Proof.
  intros Hab Hb. unfold Qnat.
  assert (Hpos : (0 < inject_Z (Z.of_nat b))%Q).
  { rewrite <- (Zlt_Qlt 0). lia. }
  assert (Ha : (0 <= inject_Z (Z.of_nat a))%Q).
  { rewrite <- (Zle_Qle 0). lia. }
  assert (Hle : (inject_Z (Z.of_nat a) <= inject_Z (Z.of_nat b))%Q).
  { rewrite <- Zle_Qle. lia. }
  split.
  - apply Qle_shift_div_l; [done|]. lra.
  - apply Qle_shift_div_r; [done|]. lra.
Qed.

(** X4.  The average success rate that [get_learning_stats] reports is
    taken over the stored entries that carry a solution other than the
    empty one and ["unknown"]: it is the share of successes among them,
    and 0 when there is none, so it always lies between 0 and 1; entries
    without such a solution count in the totals but not in the rate. *)
Theorem X4_learning_stats_rate now s :
  let entries :=
    concat (dict_values (error_database s)
            ++ dict_values (success_patterns s)) in
  let counted :=
    List.filter (fun p => bool_decide (is_Some (counted_solution p))) entries in
  let st := get_learning_stats now s in
  total_error_patterns st + total_success_patterns st = length entries
  /\ average_success_rate st
     = (if decide (counted = []) then 0
        else Qnat (length (List.filter e_success counted))
             / Qnat (length counted))%Q
  /\ (0 <= average_success_rate st /\ average_success_rate st <= 1)%Q
  /\ unique_error_types st = size (error_database s).
Proof.
  cbv zeta. unfold get_learning_stats. cbv zeta.
  cbn [total_error_patterns total_success_patterns average_success_rate
       unique_error_types].
  set (L := dict_values (error_database s) ++ dict_values (success_patterns s)).
  destruct (all_stats_sums now L) as [Hc Hs]. cbv zeta in Hc, Hs.
  rewrite Hc, Hs.
  assert (Htot : list_sum (map length (dict_values (error_database s)))
                 + list_sum (map length (dict_values (success_patterns s)))
                 = length (concat L)).
  { rewrite <- list_sum_lengths. unfold L. by rewrite map_app, list_sum_app. }
  rewrite Htot.
  set (counted := List.filter _ (concat L)) in *.
  assert (Hle : length counted <= length (concat L))
    by apply List.filter_length_le.
  assert (Hsl : length (List.filter e_success counted) <= length counted)
    by apply List.filter_length_le.
  assert (Hrate :
    (if decide (0 < length (concat L)) then
       if decide (0 < length counted)
       then (Qnat (length (List.filter e_success counted))
             / Qnat (length counted))%Q
       else 0%Q
     else 0%Q)
    = (if decide (counted = []) then 0
       else Qnat (length (List.filter e_success counted))
            / Qnat (length counted))%Q).
  { destruct (decide (counted = [])) as [->|Hne].
    - by repeat destruct (decide _).
    - assert (0 < length counted) by (destruct counted; [done | simpl; lia]).
      rewrite !decide_True by lia. done. }
  split; [done|]. split; [exact Hrate|]. split; [|done].
  rewrite Hrate. destruct (decide (counted = [])) as [|Hne]; [lra|].
  apply Qnat_ratio_unit; [done|]. destruct counted; [done | simpl; lia].
Qed.

(** ** The ledger under the task runner *)









End PatternLearningMore.

(** ** The improvement engine *)

Section ImprovementMore.
Import Improvement.
Implicit Types (e : Engine) (x : Suggestion).

Lemma step_extends_non_low e op :
  exists more,
    List.filter non_low (optimization_suggestions (step e op))
    = List.filter non_low (optimization_suggestions e) ++ more.
Proof.
  destruct op as [metrics|now]; cbn [step].
  - exists (List.filter non_low (fst (generate_optimization_suggestions metrics e))).
    rewrite (proj1 (generate_appends metrics e)). apply List.filter_app.
  - exists []. rewrite app_nil_r.
    apply (implement_improvements_gate now e).
Qed.

(** X6.  A suggestion whose risk is not LOW is never removed: over every
    sequence of analysis and implementation cycles, the suggestions of
    MEDIUM, HIGH or CRITICAL risk (and those without a valid risk) that
    were pending remain pending, in their order, at the head of the
    later ones. *)
Theorem X6_non_low_suggestions_persist ops e :
  (exists more,
     List.filter non_low (optimization_suggestions (run ops e))
     = List.filter non_low (optimization_suggestions e) ++ more)
  /\ (forall x, In x (optimization_suggestions e) -> non_low x = true ->
        In x (optimization_suggestions (run ops e))).
Proof.
  assert (H : exists more,
             List.filter non_low (optimization_suggestions (run ops e))
             = List.filter non_low (optimization_suggestions e) ++ more).
  { revert e. induction ops as [|op ops IH]; intros e; simpl.
    - exists []. by rewrite app_nil_r.
    - destruct (IH (step e op)) as [m1 H1].
      destruct (step_extends_non_low e op) as [m2 H2].
      exists (m2 ++ m1). fold (run ops (step e op)). by rewrite H1, H2, app_assoc. }
  split; [exact H|].
  intros x Hin Hx. destruct H as [more H].
  assert (Hf : In x (List.filter non_low (optimization_suggestions (run ops e)))).
  { rewrite H. apply in_or_app. left. apply filter_In. by split. }
  apply filter_In in Hf. tauto.
Qed.

Lemma X6_non_low_suggestions_persist_witness :
  In {| s_type := Some SECURITY; s_title := Some "Rotate keys";
        s_description := DescText ""; s_risk_level := Some HIGH;
        s_suggested_action := ""; s_confidence := 0.5; s_metrics := [] |}
     (optimization_suggestions
        (run [OpGenerate busy_metrics; OpImplement 0]
           (set_suggestions
              [{| s_type := Some SECURITY; s_title := Some "Rotate keys";
                  s_description := DescText ""; s_risk_level := Some HIGH;
                  s_suggested_action := ""; s_confidence := 0.5;
                  s_metrics := [] |}]
              init))).
Proof.
  apply (proj2 (X6_non_low_suggestions_persist
                  [OpGenerate busy_metrics; OpImplement 0] _)).
  - left. reflexivity.
  - vm_compute. reflexivity.
Defined.

(** ** The analysis *)

Lemma mean_at_most (c : Q) (l : list Q) :
  Forall (fun q => (q <= c)%Q) l -> l <> [] -> (py_mean l <= c)%Q.
Proof.
  intros H Hne. unfold py_mean.
  pose proof (Qsum_at_most c l 0 H) as Hs.
  assert (Hpos : (0 < inject_Z (Z.of_nat (length l)))%Q).
  { apply inject_nat_pos. destruct l; [done | simpl; lia]. }
  apply Qle_shift_div_r; [done|]. lra.
Qed.




Lemma response_rule_fires memory_usage e :
  rule (m_response_times (collect_metrics memory_usage e)) "average" 30
       response_suggestion <> []
  <-> performance_history e <> []
      /\ (30 < py_mean (map response_time_of (performance_history e)))%Q.
Proof.
  unfold collect_metrics. cbn [m_response_times rule].
  destruct (performance_history e) as [|x r] eqn:E;
    [simpl; split; [done | by intros [? _]]|].
  cbn [map od_get String.eqb Ascii.eqb Bool.eqb].
  destruct (Qltb 30 _) eqn:Q.
  - apply Qltb_lt in Q. split; [done|]. by intros _.
  - split; [done|]. intros [_ H]. apply Qltb_lt in H. congruence.
Qed.





(** ** The engine under the task runner *)

Lemma list_remove_Forall (P : Suggestion -> Prop) x l l' :
  list_remove x l = Some l' -> Forall P l -> Forall P l'.
Proof.
  revert l'. induction l as [|y l IH]; intros l'; simpl; [done|].
  intros H Hl. apply Forall_cons in Hl as [Hy Hl].
  destruct (suggestion_eqb y x).
  - by injection H as <-.
  - destruct (list_remove x l) as [r|]; [|done]. injection H as <-.
    constructor; auto.
Qed.

Lemma lastn_Forall {A} (P : A -> Prop) n (l : list A) :
  Forall P l -> Forall P (lastn n l).
Proof. unfold lastn. apply Forall_drop. Qed.

Lemma apply_improvement_history x e :
  performance_history (snd (apply_improvement x e)) = performance_history e
  \/ performance_history (snd (apply_improvement x e))
     = lastn 500 (performance_history e).
Proof.
  unfold apply_improvement, _apply_memory_optimization.
  destruct (s_type x) as [[]|]; simpl; auto.
  repeat destruct (decide _); simpl; auto.
Qed.

Lemma log_improvement_history now x e :
  performance_history (log_improvement now x e) = performance_history e.
Proof. unfold log_improvement. by destruct (s_type x), (s_risk_level x). Qed.

Lemma log_improvement_titles now x e title :
  s_title x = Some title ->
  Forall (fun a => a_title a = Some title) (applied_improvements e) ->
  Forall (fun a => a_title a = Some title)
         (applied_improvements (log_improvement now x e)).
Proof.
  intros Hx H. unfold log_improvement.
  destruct (s_type x), (s_risk_level x); try done.
  cbn [applied_improvements].
  assert (Forall (fun a => a_title a = Some title)
            (applied_improvements e
             ++ [{| a_timestamp := now; a_title := s_title x;
                    a_type := type_value o; a_risk_level := risk_value r;
                    a_confidence := s_confidence x;
                    a_description := s_description x;
                    a_status := "applied" |}])).
  { apply Forall_app. split; [done|]. by constructor. }
  destruct (decide _); [by apply lastn_Forall | done].
Qed.

Lemma task_engine_suggestions l e :
  task_engine e ->
  Forall (fun x => s_type x <> Some PERFORMANCE
                   /\ (is_low_risk x = true ->
                       s_title x = Some "Suggestion Cleanup")) l ->
  task_engine (set_suggestions l e).
Proof. intros (H1 & H2 & _ & H4 & H5) Hl. by repeat split. Qed.

Lemma implement_step_task now res e x :
  task_engine e -> s_title x = Some "Suggestion Cleanup" ->
  task_engine (snd (implement_step now (res, e) x)).
Proof.
  intros (H1 & H2 & H3 & H4 & H5) Hx. unfold implement_step.
  destruct (apply_improvement_suggestions x e) as [Hs Ha].
  pose proof (apply_improvement_history x e) as Hh.
  destruct (apply_improvement x e) as [ok e1]. cbn [snd] in Hs, Ha, Hh.
  assert (K1 : task_engine e1).
  { split; [|split; [|split; [|split]]]; rewrite ?Hs, ?Ha; try done.
    - destruct Hh as [->| ->]; [done|]. rewrite lastn_length. lia.
    - destruct Hh as [->| ->]; [done|]. by apply lastn_Forall. }
  destruct ok; [|done].
  assert (K2 : task_engine (log_improvement now x e1)).
  { destruct K1 as (L1 & L2 & L3 & L4 & L5).
    split; [|split; [|split; [|split]]].
    - by rewrite log_improvement_history.
    - by rewrite log_improvement_history.
    - by rewrite log_improvement_suggestions.
    - pose proof (log_improvement_bound now x e1). lia.
    - by apply log_improvement_titles. }
  destruct (list_remove x _) as [l|] eqn:R; [|done]. cbn [snd].
  apply task_engine_suggestions; [done|].
  apply (list_remove_Forall _ x _ _ R). by destruct K2 as (_ & _ & ? & _).
Qed.

Lemma implement_loop_task now xs res e :
  task_engine e ->
  Forall (fun x => s_title x = Some "Suggestion Cleanup") xs ->
  task_engine (snd (fold_left (implement_step now) xs (res, e))).
Proof.
  intros He Hxs. revert res e He.
  induction Hxs as [|x xs Hx _ IH]; intros res e He; [done|].
  cbn [fold_left].
  pose proof (implement_step_task now res e x He Hx) as K.
  destruct (implement_step now (res, e) x) as [res' e']. by apply IH.
Qed.

Lemma cleanup_loop_task xs e :
  task_engine e -> task_engine (fold_left cleanup_step xs e).
Proof.
  revert e. induction xs as [|x xs IH]; intros e He; [done|].
  cbn [fold_left]. apply IH. unfold cleanup_step.
  destruct (list_contains _ _); [|done].
  destruct (list_remove x _) as [l|] eqn:R; [|done].
  apply task_engine_suggestions; [done|].
  apply (list_remove_Forall _ x _ _ R). by destruct He as (_ & _ & ? & _).
Qed.

Lemma implement_improvements_task now e :
  task_engine e -> task_engine (snd (implement_improvements now e)).
Proof.
  intros He. unfold implement_improvements. cbv zeta.
  assert (Hlow : forall n,
            Forall (fun x => s_title x = Some "Suggestion Cleanup")
                   (take n (List.filter is_low_risk (optimization_suggestions e)))).
  { intros n. apply Forall_take, Forall_forall. intros x Hx.
    apply list_elem_of_In, filter_In in Hx as [Hin Hx].
    destruct He as (_ & _ & H3 & _). rewrite Forall_forall in H3.
    apply list_elem_of_In in Hin. by apply (H3 x Hin). }
  pose proof (implement_loop_task now _ results_zero e He (Hlow 5)) as K.
  destruct (fold_left (implement_step now) _ _) as [res e1]. cbn [snd] in *.
  by apply cleanup_loop_task.
Qed.

Lemma rule_shape d key threshold mk x :
  In x (rule d key threshold mk) -> exists d' v, x = mk d' v.
Proof.
  unfold rule. destruct d as [d|]; [|done].
  destruct (od_get key d); [|done]. destruct (Qltb _ _); [|done].
  intros [<-|[]]. eauto.
Qed.

Lemma analyze_performance_task now memory_usage e :
  task_engine e -> task_engine (snd (analyze_performance now memory_usage e)).
Proof.
  intros (H1 & H2 & H3 & H4 & H5).
  assert (HB : rule (m_response_times (collect_metrics memory_usage e))
                 "average" 30 response_suggestion = []).
  { destruct (rule _ _ _ _) as [|x r] eqn:E; [done|]. exfalso.
    assert (Hne : rule (m_response_times (collect_metrics memory_usage e))
                    "average" 30 response_suggestion <> []) by by rewrite E.
    apply response_rule_fires in Hne as [Hne Hmean].
    assert (Hm : (py_mean (map response_time_of (performance_history e)) <= 30)%Q).
    { apply mean_at_most; [|by destruct (performance_history e)].
      apply Forall_forall. intros q Hq. apply list_elem_of_In, in_map_iff in Hq.
      destruct Hq as (entry & <- & Hentry). rewrite Forall_forall in H2.
      apply list_elem_of_In in Hentry. unfold response_time_of.
      rewrite (H2 entry Hentry). simpl. lra. }
    lra. }
  unfold analyze_performance, generate_optimization_suggestions. cbv zeta.
  cbn [snd]. rewrite HB. repeat split; try done.
  cbn [optimization_suggestions set_suggestions].
  apply Forall_app. split; [done|]. apply Forall_forall. intros x Hx.
  apply list_elem_of_In in Hx. rewrite !in_app_iff in Hx.
  destruct Hx as [Hx|[[]|[Hx|Hx]]].
  - apply rule_shape in Hx as (d & v & ->). by split.
  - apply rule_shape in Hx as (d & v & ->). by split.
  - destruct (decide _); [|done]. destruct Hx as [<-|[]]. by split.
Qed.

Lemma record_entry_task success e :
  task_engine e -> task_engine (record_entry (task_entry success) e).
Proof.
  intros (H1 & H2 & H3 & H4 & H5). repeat split; try done.
  - cbn [record_entry performance_history]. apply deque_append_length; lia.
  - cbn [record_entry performance_history]. by apply Forall_deque_append.
Qed.

Lemma record_task_task now memory_usage success e :
  task_engine e -> task_engine (record_task now memory_usage success e).
Proof.
  intros He. unfold record_task. cbv zeta.
  pose proof (record_entry_task success e He) as K1.
  destruct (analysis_due _); [|done].
  pose proof (analyze_performance_task now memory_usage _ K1) as K2.
  destruct (analyze_performance now memory_usage _) as [suggestions e2].
  cbn [snd] in K2. destruct suggestions; [done|].
  by apply implement_improvements_task.
Qed.

(** X8.  With [execute_deployment_task] as the only writer of the
    engine, the history never holds more than a thousand entries and
    none of them carries a response time (the runner stores an
    ['execution_time']); so no response-time suggestion is ever pending,
    the only suggestions applied are suggestion cleanups, and the
    applied log holds a hundred entries at most. The analysis is due
    when the length of the history is a multiple of ten, hence after
    every task once the history is full. *)
Theorem X8_task_runner_engine tasks :
  let e := record_tasks tasks init in
  length (performance_history e) <= 1000
  /\ Forall (fun entry => p_response_time entry = None) (performance_history e)
  /\ Forall (fun x => s_type x <> Some PERFORMANCE) (optimization_suggestions e)
  /\ Forall (fun x => is_low_risk x = true ->
                      s_title x = Some "Suggestion Cleanup")
            (optimization_suggestions e)
  /\ length (applied_improvements e) <= 100
  /\ Forall (fun a => a_title a = Some "Suggestion Cleanup")
            (applied_improvements e)
  /\ (forall success e0,
        length (performance_history e0) = 1000 ->
        analysis_due (record_entry (task_entry success) e0) = true).
Proof.
  cbv zeta.
  assert (K : forall e, task_engine e -> task_engine (record_tasks tasks e)).
  { induction tasks as [|t tasks IH]; intros e He; [done|].
    cbn [record_tasks fold_left]. apply IH. by apply record_task_task. }
  assert (K0 : task_engine init).
  { unfold task_engine. cbn. repeat split; auto; lia. }
  destruct (K init K0) as (H1 & H2 & H3 & H4 & H5).
  split; [done|]. split; [done|]. split; [|split; [|split; [done|split; [done|]]]].
  - eapply Forall_impl; [exact H3|]. by intros x [? _].
  - eapply Forall_impl; [exact H3|]. by intros x [_ ?].
  - intros success e0 Hlen. unfold analysis_due.
    cbn [record_entry performance_history]. unfold deque_append.
    rewrite decide_True by lia.
    destruct (performance_history e0) as [|p l]; [simpl in Hlen; lia|].
    cbn [tail]. rewrite length_app. cbn [length] in *.
    replace (length l + 1) with 1000 by lia. reflexivity.
Qed.

Lemma X8_task_runner_engine_witness :
  analysis_due
    (record_entry (task_entry true)
       (record_tasks (repeat (0%Z, [], true) 1000) init)) = true.
Proof.
  apply (proj2 (proj2 (proj2 (proj2 (proj2 (proj2 (X8_task_runner_engine []))))))).
  vm_compute. reflexivity.
Defined.

(** ** The memory optimisation *)

(** X9.  A memory optimisation always reports success and touches
    neither the backlog nor the applied log. A history of more than 800
    entries is cut to its last 500 and the analysis log is then left
    alone, however long; otherwise an analysis log of more than 100
    entries is cut to its last 50. So the history holds at most 800
    entries afterwards, and after two optimisations in a row the
    analysis log holds at most 100. *)
Theorem X9_memory_optimization_trims e :
  let r := _apply_memory_optimization e in
  let r2 := _apply_memory_optimization (snd r) in
  fst r = true
  /\ optimization_suggestions (snd r) = optimization_suggestions e
  /\ applied_improvements (snd r) = applied_improvements e
  /\ length (performance_history (snd r)) <= 800
  /\ (800 < length (performance_history e) ->
      performance_history (snd r) = lastn 500 (performance_history e)
      /\ length (performance_history (snd r)) = 500
      /\ improvement_log (snd r) = improvement_log e)
  /\ (length (performance_history e) <= 800 ->
      performance_history (snd r) = performance_history e
      /\ improvement_log (snd r)
         = (if decide (100 < length (improvement_log e))
            then lastn 50 (improvement_log e) else improvement_log e)
      /\ length (improvement_log (snd r)) <= 100)
  /\ length (improvement_log (snd r2)) <= 100
  /\ performance_history (snd r2) = performance_history (snd r).
Proof.
  cbv zeta.
  assert (H1 : forall e0, length (performance_history e0) <= 800 ->
            performance_history (snd (_apply_memory_optimization e0))
            = performance_history e0
            /\ improvement_log (snd (_apply_memory_optimization e0))
               = (if decide (100 < length (improvement_log e0))
                  then lastn 50 (improvement_log e0) else improvement_log e0)
            /\ length (improvement_log (snd (_apply_memory_optimization e0)))
               <= 100).
  { intros e0 H. unfold _apply_memory_optimization.
    rewrite decide_False by lia.
    destruct (decide (100 < length (improvement_log e0))); cbn.
    - rewrite lastn_length. repeat split; lia.
    - repeat split; lia. }
  assert (H2 : forall e0, 800 < length (performance_history e0) ->
            performance_history (snd (_apply_memory_optimization e0))
            = lastn 500 (performance_history e0)
            /\ length (performance_history (snd (_apply_memory_optimization e0)))
               = 500
            /\ improvement_log (snd (_apply_memory_optimization e0))
               = improvement_log e0).
  { intros e0 H. unfold _apply_memory_optimization.
    rewrite decide_True by lia. cbn. rewrite lastn_length. repeat split; lia. }
  assert (H3 : length (performance_history (snd (_apply_memory_optimization e)))
               <= 800).
  { destruct (decide (800 < length (performance_history e))) as [H|H].
    - destruct (H2 e H) as (_ & -> & _). lia.
    - destruct (H1 e) as (-> & _); lia. }
  split; [unfold _apply_memory_optimization; by repeat destruct (decide _)|].
  split; [unfold _apply_memory_optimization; by repeat destruct (decide _)|].
  split; [unfold _apply_memory_optimization; by repeat destruct (decide _)|].
  split; [exact H3|]. split; [apply H2|]. split; [apply H1|].
  destruct (H1 _ H3) as (-> & _ & Hl). by split.
Qed.

Lemma X9_memory_optimization_trims_witness :
  performance_history (snd (_apply_memory_optimization init))
  = performance_history init.
Proof.
  apply (proj1 (proj1 (proj2 (proj2 (proj2 (proj2 (proj2
           (X9_memory_optimization_trims init)))))) ltac:(cbn; lia))).
Defined.
End ImprovementMore.

(** ** The coordinator *)

Section CoordinatorMore.
Import Coordinator.
Implicit Types (s : State) (e : LearningExperience) (t : KnowledgeTransfer)
  (p : AgentProfile) (a : string).

#[local] Arguments share_learning_experience : simpl never.
#[local] Arguments _update_agent_profile : simpl never.
#[local] Arguments _apply_knowledge_to_agent : simpl never.
#[local] Arguments _learn_from_transfer_success : simpl never.
#[local] Arguments _find_relevant_agents : simpl never.
#[local] Arguments deque_append : simpl never.
#[local] Arguments transfer_experience : simpl never.
#[local] Arguments requested_transfer : simpl never.

(** ** Reputation *)

(** X10.  With a confidence in [0,1], a successful experience never
    lowers the author's reputation and raises it by at most 0.1; a
    failed one never raises it and lowers it by at most 0.05. *)
Theorem X10_reputation_moves_with_outcome now e p :
  unit_interval (reputation_score p) ->
  unit_interval (confidence e) ->
  let r := reputation_score p in
  let r' := reputation_score (update_profile now e p) in
  (success e = true -> (r <= r' /\ r' <= r + 0.1)%Q)
  /\ (success e = false -> (r - 0.05 <= r' /\ r' <= r)%Q).
Proof.
  intros [Hr0 Hr1] [Hc0 Hc1]. cbv zeta. unfold update_profile.
  cbn [reputation_score].
  split; intros ->.
  - set (x := (reputation_score p + confidence e * 1 * 0.1)%Q).
    assert (Hx : (x == reputation_score p + confidence e * 0.1)%Q)
      by (unfold x; ring).
    destruct (Q.max_spec 0 x) as [[Hm1 Hm]|[Hm1 Hm]];
      destruct (Q.min_spec 1 (Qmax 0 x)) as [[Hn1 Hn]|[Hn1 Hn]];
      split; lra.
  - set (x := (reputation_score p + confidence e * -0.5 * 0.1)%Q).
    assert (Hx : (x == reputation_score p - confidence e * 0.05)%Q)
      by (unfold x; ring).
    destruct (Q.max_spec 0 x) as [[Hm1 Hm]|[Hm1 Hm]];
      destruct (Q.min_spec 1 (Qmax 0 x)) as [[Hn1 Hn]|[Hn1 Hn]];
      split; lra.
Qed.

Lemma X10_reputation_moves_with_outcome_witness :
  match od_get "A" (agent_profiles two_agents) with
  | Some p =>
      (reputation_score p
       <= reputation_score (update_profile 1 (testing_experience "A" 0.9) p))%Q
  | None => False
  end.
Proof.
  assert (H : od_get "A" (agent_profiles two_agents)
              = Some {| p_agent_id := "A"; p_agent_type := "TestingAgent";
                        capabilities := [TESTING]; experience_count := 0;
                        success_rate := 0; average_confidence := 0;
                        specializations := []; collaboration_history := [];
                        last_active := 0; reputation_score := 0.5%Q |})
    by (vm_compute; reflexivity).
  rewrite H.
  refine (proj1 (proj1 (X10_reputation_moves_with_outcome 1 (testing_experience "A" 0.9%Q)
                          _ _ _) eq_refl)).
  - split; unfold Qle; simpl; lia.
  - split; unfold Qle; simpl; lia.
Defined.

(** ** Invariants of the profiles *)

(** A property of profiles that registration establishes and that the two
    profile updates preserve holds of every profile after every call. *)
Lemma step_profiles_Forall (P : AgentProfile -> Prop) s op :
  (forall now a ty caps,
     P {| p_agent_id := a; p_agent_type := ty; capabilities := caps;
          experience_count := 0; success_rate := 0; average_confidence := 0;
          specializations := []; collaboration_history := [];
          last_active := now; reputation_score := 0.5%Q |}) ->
  (forall now e p, P p -> P (update_profile now e p)) ->
  (forall c kt p, P p -> P (receive_knowledge c kt p)) ->
  Forall (fun kv => P (snd kv)) (agent_profiles s) ->
  Forall (fun kv => P (snd kv)) (agent_profiles (step s op)).
Proof.
  intros Hreg Hupd Hrcv H.
  destruct op as [now a ty caps|now e|now from to cap|now tid accept]; cbn [step].
  - cbn [register_agent snd agent_profiles]. apply od_set_Forall; auto.
  - destruct (share_spec now e s) as (_ & _ & -> & _).
    apply update_agent_profile_Forall; auto.
  - destruct (List.filter (transferable from cap) (learning_experiences s))
      as [|x r] eqn:E.
    + by rewrite request_none.
    + destruct (request_some now from to cap s) as (_ & _ & -> & _);
        [by rewrite E|done].
  - destruct (knowledge_transfers s !! tid) as [t|] eqn:Ht;
      [|by rewrite process_missing].
    destruct accept.
    + destruct (capability_of_value (knowledge_type t)) as [c|] eqn:Hc.
      * eapply process_accept_Forall; eauto.
      * unfold process_knowledge_transfer. rewrite Ht.
        cbn [fst snd set_metrics agent_profiles].
        unfold _learn_from_transfer_success, _apply_knowledge_to_agent.
        cbn [knowledge_type set_status]. rewrite Hc.
        by destruct (od_get _ _).
    + by destruct (process_reject_spec now tid t s Ht) as (_ & _ & -> & _).
Qed.

Lemma run_profiles_Forall (P : AgentProfile -> Prop) ops s :
  (forall now a ty caps,
     P {| p_agent_id := a; p_agent_type := ty; capabilities := caps;
          experience_count := 0; success_rate := 0; average_confidence := 0;
          specializations := []; collaboration_history := [];
          last_active := now; reputation_score := 0.5%Q |}) ->
  (forall now e p, P p -> P (update_profile now e p)) ->
  (forall c kt p, P p -> P (receive_knowledge c kt p)) ->
  Forall (fun kv => P (snd kv)) (agent_profiles s) ->
  Forall (fun kv => P (snd kv)) (agent_profiles (run ops s)).
Proof.
  intros Hreg Hupd Hrcv. revert s.
  induction ops as [|op ops IH]; intros s H; simpl; [done|].
  apply IH. by apply step_profiles_Forall.
Qed.

Lemma append_new_NoDup x (l : list string) : NoDup l -> NoDup (append_new x l).
Proof.
  intros H. unfold append_new. destruct (str_in x l) eqn:E; [done|].
  apply NoDup_app. split; [done|]. split; [|apply NoDup_singleton].
  intros y Hy Hx. apply list_elem_of_singleton in Hx. subst y.
  apply list_elem_of_In, str_in_In in Hy. congruence.
Qed.

Lemma append_new_incl x (l : list string) y : In y l -> In y (append_new x l).
Proof.
  unfold append_new. destruct (str_in x l); [done|].
  intros H. apply in_or_app. by left.
Qed.

(** X11.  After every sequence of calls the specializations of a profile
    hold no name twice. An experience adds its capability to the
    author's specializations only when it is a success reported with a
    confidence above 0.8, and no update ever removes a specialization. *)
Theorem X11_specializations_distinct_and_kept :
  (forall ops, Forall (fun kv => NoDup (specializations (snd kv)))
                      (agent_profiles (run ops init)))
  /\ (forall now e p,
        specializations (update_profile now e p) <> specializations p ->
        success e = true /\ (0.8 < confidence e)%Q
        /\ ~ In (capability_value (capability e)) (specializations p))
  /\ (forall now e p x,
        In x (specializations p) -> In x (specializations (update_profile now e p)))
  /\ (forall c kt p x,
        In x (specializations p) -> In x (specializations (receive_knowledge c kt p))).
Proof.
  split; [|split; [|split]].
  - intros ops.
    apply (run_profiles_Forall (fun p => NoDup (specializations p)));
      [| | |constructor].
    + intros. constructor.
    + intros now e p Hp. unfold update_profile. cbn [specializations].
      destruct (_ && _); [by apply append_new_NoDup | done].
    + intros c kt p Hp. cbn [receive_knowledge specializations].
      by apply append_new_NoDup.
  - intros now e p. unfold update_profile. cbn [specializations].
    destruct (success e) eqn:Es; simpl; [|done].
    unfold Qltb. destruct (Qle_bool (confidence e) 0.8) eqn:Ec; simpl; [done|].
    intros Hne. split; [done|]. split.
    + apply Qnot_le_lt. intros H. apply Qle_bool_iff in H. congruence.
    + intros Hin. apply Hne. unfold append_new.
      by rewrite (proj2 (str_in_In _ _) Hin).
  - intros now e p x Hx. unfold update_profile. cbn [specializations].
    destruct (_ && _); [by apply append_new_incl | done].
  - intros c kt p x Hx. cbn [receive_knowledge specializations].
    by apply append_new_incl.
Qed.

Lemma X11_specializations_distinct_and_kept_witness :
  In "testing"
     (specializations
        (update_profile 0 (testing_experience "A" 0.3)
           {| p_agent_id := "A"; p_agent_type := "T"; capabilities := [];
              experience_count := 1; success_rate := 1; average_confidence := 1;
              specializations := ["testing"]; collaboration_history := [];
              last_active := 0; reputation_score := 0.5%Q |})).
Proof.
  apply (proj1 (proj2 (proj2 X11_specializations_distinct_and_kept))).
  by left.
Defined.

(** ** The learning metrics *)

Lemma deque_append_length_eq {A} m (x : A) l :
  length l <= m -> 0 < m -> length (deque_append m x l) = Nat.min (S (length l)) m.
Proof.
  intros Hl Hm. unfold deque_append. destruct (decide (m <= length l)).
  - destruct l; cbn [length tail] in *; [lia|]. rewrite length_app. cbn [length]. lia.
  - rewrite length_app. cbn [length]. lia.
Qed.

Lemma apply_knowledge_metrics t s :
  learning_metrics (_apply_knowledge_to_agent t s) = learning_metrics s.
Proof.
  unfold _apply_knowledge_to_agent. destruct (od_get _ _); [|done].
  by destruct (capability_of_value _).
Qed.

Lemma process_metrics now tid accept s :
  let m := learning_metrics s in
  let s' := snd (process_knowledge_transfer now tid accept s) in
  let m' := learning_metrics s' in
  collaboration_count m' = collaboration_count m
  /\ match knowledge_transfers s !! tid with
     | None => m' = m
     | Some t =>
         successful_transfers m'
         = successful_transfers m + (if accept then 1 else 0)
         /\ failed_transfers m' = failed_transfers m + (if accept then 0 else 1)
         /\ (total_experiences m' = total_experiences m
             /\ knowledge_base_size m' = knowledge_base_size m
             /\ learning_experiences s' = learning_experiences s
             \/ accept = true
                /\ total_experiences m' = total_experiences m + 1
                /\ knowledge_base_size m' = length (learning_experiences s')
                /\ exists e, learning_experiences s'
                             = deque_append max_experiences e
                                 (learning_experiences s))
     end.
Proof.
  cbv zeta. unfold process_knowledge_transfer.
  destruct (knowledge_transfers s !! tid) as [t|] eqn:Ht; [|done].
  destruct accept; cbn [snd set_metrics learning_metrics learning_experiences
    collaboration_count successful_transfers failed_transfers total_experiences
    knowledge_base_size].
  - set (t' := set_status accepted t).
    set (s1 := set_transfers (<[tid:=t']> (knowledge_transfers s)) s).
    pose proof (apply_knowledge_metrics t' s1) as Hm2.
    destruct (apply_knowledge_fields t' s1) as (He2 & _).
    unfold _learn_from_transfer_success. cbn [uuid4 knowledge_type set_status t'].
    destruct (capability_of_value (knowledge_type t)) as [c|] eqn:Hc.
    + rewrite share_metrics.
      cbn [collaboration_count successful_transfers failed_transfers
           total_experiences knowledge_base_size learning_metrics
           learning_experiences].
      rewrite Hm2, He2. subst s1. cbn [set_transfers learning_metrics
        learning_experiences].
      split; [done|]. split; [lia|]. split; [lia|]. right.
      split; [done|]. split; [done|].
      match goal with
      | |- context [share_learning_experience ?n ?e ?st] =>
          destruct (share_spec n e st) as (_ & He & _); cbv zeta in He;
          rewrite He
      end.
      cbn [learning_experiences]. split; [done|]. eauto.
    + cbn [learning_metrics learning_experiences]. rewrite Hm2, He2.
      subst s1. cbn [set_transfers learning_metrics learning_experiences].
      split; [done|]. split; [lia|]. split; [lia|]. by left.
  - cbn. split; [done|]. split; [lia|]. split; [lia|]. by left.
Qed.

Lemma step_metrics s op :
  let ok s :=
    knowledge_base_size (learning_metrics s) = length (learning_experiences s)
    /\ length (learning_experiences s)
       = Nat.min (total_experiences (learning_metrics s)) max_experiences
    /\ collaboration_count (learning_metrics s) = 0 in
  ok s -> ok (step s op).
Proof.
  cbv zeta. intros (Hk & Hl & Hc). pose proof max_experiences_pos as Hpos.
  destruct op as [now a ty caps|now e|now from to cap|now tid accept];
    cbn [step].
  - done.
  - destruct (share_spec now e s) as (_ & He & _). cbv zeta in He.
    rewrite share_metrics, He.
    cbn [knowledge_base_size total_experiences collaboration_count].
    rewrite deque_append_length_eq by lia. split; [done|]. split; [lia|done].
  - destruct (List.filter (transferable from cap) (learning_experiences s))
      as [|x r] eqn:E.
    + by rewrite request_none.
    + unfold request_knowledge_transfer. rewrite E. by cbn.
  - destruct (process_metrics now tid accept s) as [Hc' H]. cbv zeta in *.
    destruct (knowledge_transfers s !! tid) as [t|] eqn:Ht.
    + destruct H as (_ & _ & [(Ht' & Hk' & He')|(_ & Ht' & Hk' & e & He')]).
      * rewrite Hk', He', Ht', Hc'. done.
      * rewrite Hk', He', Ht', Hc'. rewrite deque_append_length_eq by lia.
        split; [done|]. split; [lia|done].
    + by rewrite process_missing.
Qed.

(** X12.  After every sequence of calls the metric [knowledge_base_size]
    is the number of experiences in the store, that number is
    [min(total_experiences, 10000)], and [collaboration_count] is still
    0: no call of the coordinator ever changes it. Processing a transfer
    on record adds one to [successful_transfers] when it is accepted and
    one to [failed_transfers] when it is rejected, also when the
    transfer was processed before; an accepted transfer counts one more
    experience unless its knowledge type names no capability. *)
Theorem X12_metrics_track_the_store :
  (forall ops,
     let s := run ops init in
     knowledge_base_size (learning_metrics s) = length (learning_experiences s)
     /\ length (learning_experiences s)
        = Nat.min (total_experiences (learning_metrics s)) max_experiences
     /\ collaboration_count (learning_metrics s) = 0)
  /\ (forall now tid accept t s,
        knowledge_transfers s !! tid = Some t ->
        let m := learning_metrics s in
        let m' := learning_metrics
                    (snd (process_knowledge_transfer now tid accept s)) in
        successful_transfers m'
        = successful_transfers m + (if accept then 1 else 0)
        /\ failed_transfers m' = failed_transfers m + (if accept then 0 else 1)
        /\ total_experiences m'
           = total_experiences m
             + (if accept && bool_decide
                               (is_Some (capability_of_value (knowledge_type t)))
                then 1 else 0)).
Proof.
  split.
  - intros ops. cbv zeta.
    assert (H : forall s,
      knowledge_base_size (learning_metrics s) = length (learning_experiences s)
      /\ length (learning_experiences s)
         = Nat.min (total_experiences (learning_metrics s)) max_experiences
      /\ collaboration_count (learning_metrics s) = 0 ->
      knowledge_base_size (learning_metrics (run ops s))
      = length (learning_experiences (run ops s))
      /\ length (learning_experiences (run ops s))
         = Nat.min (total_experiences (learning_metrics (run ops s)))
                   max_experiences
      /\ collaboration_count (learning_metrics (run ops s)) = 0).
    { induction ops as [|op ops IH]; intros s Hs; [done|].
      cbn [run fold_left]. apply IH. by apply (step_metrics s op). }
    apply H. by cbn.
  - intros now tid accept t s Ht. cbv zeta.
    unfold process_knowledge_transfer. rewrite Ht.
    destruct accept; cbn [snd set_metrics learning_metrics successful_transfers
      failed_transfers total_experiences andb].
    + set (t' := set_status accepted t).
      set (s1 := set_transfers (<[tid:=t']> (knowledge_transfers s)) s).
      pose proof (apply_knowledge_metrics t' s1) as Hm2.
      unfold _learn_from_transfer_success.
      cbn [uuid4 knowledge_type set_status t'].
      destruct (capability_of_value (knowledge_type t)) as [c|] eqn:Hc.
      * rewrite share_metrics.
        cbn [successful_transfers failed_transfers total_experiences
             learning_metrics]. rewrite Hm2. subst s1.
        cbn [set_transfers learning_metrics].
        rewrite bool_decide_eq_true_2 by eauto. lia.
      * cbn [learning_metrics]. rewrite Hm2. subst s1.
        cbn [set_transfers learning_metrics].
        rewrite bool_decide_eq_false_2 by (intros [? ?]; done). lia.
    + cbn. lia.
Qed.

Lemma X12_metrics_track_the_store_witness :
  successful_transfers
    (learning_metrics (snd (process_knowledge_transfer 5 0 true requested_state)))
  = successful_transfers (learning_metrics requested_state) + 1.
Proof.
  assert (H : knowledge_transfers requested_state !! 0
              = Some (requested_transfer 4 0 "A" "B" TESTING
                        (learning_experiences shared_thrice)))
    by (vm_compute; reflexivity).
  exact (proj1 (proj2 X12_metrics_track_the_store 5%Z 0 true _ requested_state H)).
Defined.

(** ** Whom an experience is offered to *)















(** ** Requested transfers *)


Lemma transferable_spec from cap x :
  transferable from cap x = true <->
  agent_id x = from /\ capability x = cap /\ success x = true
  /\ (0.7 < confidence x)%Q.
Proof.
  unfold transferable. rewrite !andb_true_iff, !String.eqb_eq,
    bool_decide_eq_true. unfold Qltb. rewrite negb_true_iff.
  assert (Hc : capability_value (capability x) = capability_value cap
               <-> capability x = cap).
  { split; [|by intros ->]. by destruct (capability x), cap. }
  assert (Hq : Qle_bool (confidence x) 0.7 = false <-> (0.7 < confidence x)%Q).
  { split.
    - intros H. apply Qnot_le_lt. intros Hle. apply Qle_bool_iff in Hle.
      congruence.
    - intros H. destruct (Qle_bool _ _) eqn:E; [|done].
      apply Qle_bool_iff in E. lra. }
  rewrite Hc, Hq. tauto.
Qed.

Lemma In_lastn {A} n (l : list A) x : In x (lastn n l) -> In x l.
Proof.
  unfold lastn. intros H. apply list_elem_of_In.
  apply list_elem_of_In in H. by eapply subseteq_drop.
Qed.

(** X14.  A transfer is requested from the successful experiences of the
    sender in the capability whose confidence exceeds 0.7, whether or
    not either agent is registered. Without such an experience the call
    returns no identifier and changes nothing. Otherwise it files, under
    a fresh identifier, a pending transfer from the sender to the
    receiver whose content is the last three of those experiences at
    most, and it makes the receiver a collaborator of the sender; the
    transfers on record, the registry and the experiences are left as
    they were. *)
Theorem X14_requested_transfer_filed now from to cap s :
  let rel := List.filter (transferable from cap) (learning_experiences s) in
  let r := request_knowledge_transfer now from to cap s in
  (rel = [] -> r = (None, s))
  /\ (rel <> [] ->
      exists t sent,
        fst r = Some (uuid_count s)
        /\ knowledge_transfers (snd r) !! uuid_count s = Some t
        /\ (forall k, k <> uuid_count s ->
              knowledge_transfers (snd r) !! k = knowledge_transfers s !! k)
        /\ agent_profiles (snd r) = agent_profiles s
        /\ learning_experiences (snd r) = learning_experiences s
        /\ from_agent t = from /\ to_agent t = to /\ status t = pending
        /\ knowledge_type t = capability_value cap
        /\ content t
           = Requested sent (capability_value cap)
               (String.append "Knowledge transfer for "
                  (String.append (capability_value cap)
                     (String.append " from " from)))
        /\ sent = lastn 3 rel
        /\ length sent = Nat.min 3 (length rel)
        /\ Forall (fun x => In x (learning_experiences s)
                            /\ agent_id x = from /\ capability x = cap
                            /\ success x = true /\ (0.7 < confidence x)%Q) sent
        /\ match collaboration_network (snd r) !! from with
           | Some peers => In to peers
           | None => False
           end).
Proof.
  cbv zeta. split; [apply request_none|]. intros Hne.
  destruct (request_some now from to cap s Hne) as (Hr & Hk & Hp & He & _).
  cbv zeta in Hk.
  exists (requested_transfer now (uuid_count s) from to cap
            (List.filter (transferable from cap) (learning_experiences s))).
  eexists. split; [done|]. split; [by rewrite Hk, lookup_insert_eq|].
  split.
  { intros k Hne'. by rewrite Hk, lookup_insert_ne. }
  split; [exact Hp|]. split; [exact He|].
  unfold requested_transfer. cbn [from_agent to_agent status knowledge_type
    content].
  split; [done|]. split; [done|]. split; [done|]. split; [done|].
  split; [reflexivity|]. split; [reflexivity|].
  split; [apply lastn_length|]. split.
  - apply Forall_forall. intros x Hx. apply list_elem_of_In, In_lastn in Hx.
    apply filter_In in Hx as [Hin Hx]. split; [done|].
    by apply transferable_spec.
  - unfold request_knowledge_transfer.
    destruct (List.filter _ _) as [|x0 r0]; [done|].
    cbn [snd uuid4 set_transfers set_network collaboration_network].
    rewrite lookup_insert_eq. unfold append_new.
    destruct (str_in to _) eqn:E; [by apply str_in_In|].
    apply in_or_app. right. by left.
Qed.

Lemma X14_requested_transfer_filed_witness :
  request_knowledge_transfer 4 "Z" "B" TESTING shared_thrice
  = (None, shared_thrice).
Proof.
  apply (proj1 (X14_requested_transfer_filed 4 "Z" "B" TESTING shared_thrice)).
  vm_compute. reflexivity.
Defined.

(** ** Recommendations *)














(** ** Collaboration opportunities *)











(** ** Removing inactive agents *)

Lemma filter_twice {A} (f g : A -> bool) (l : list A) :
  List.filter f (List.filter g l) = List.filter (fun x => g x && f x) l.
Proof.
  induction l as [|x l IH]; simpl; [done|].
  destruct (g x); simpl; [|done]. destruct (f x); by rewrite IH.
Qed.

Lemma filter_none {A} (f : A -> bool) (l : list A) :
  (forall x, In x l -> f x = false) -> List.filter f l = [].
Proof.
  induction l as [|x l IH]; simpl; [done|]. intros H.
  rewrite (H x (or_introl eq_refl)). apply IH. intros y Hy. apply H. by right.
Qed.

Lemma remove_agents_fields l s :
  let s' := fold_left remove_agent l s in
  agent_profiles s'
  = List.filter (fun kv => negb (str_in (fst kv) l)) (agent_profiles s)
  /\ active_agents s' = active_agents s ∖ list_to_set l
  /\ learning_experiences s' = learning_experiences s
  /\ knowledge_transfers s' = knowledge_transfers s
  /\ collaboration_network s' = collaboration_network s
  /\ learning_metrics s' = learning_metrics s
  /\ uuid_count s' = uuid_count s.
Proof.
  cbv zeta. revert s. induction l as [|a l IH]; intros s.
  - cbn [fold_left list_to_set foldr]. split.
    + symmetry. apply forallb_filter_id, forallb_forall. by intros.
    + split; [|done]. apply leibniz_equiv. apply set_equiv. intros x.
      rewrite elem_of_difference. split; [|tauto].
      intros H. split; [done|]. apply not_elem_of_empty.
  - cbn [fold_left]. destruct (IH (remove_agent s a))
      as (-> & -> & -> & -> & -> & -> & ->).
    cbn [remove_agent agent_profiles active_agents learning_experiences
         knowledge_transfers collaboration_network learning_metrics uuid_count].
    split; [|split; [|done]].
    + unfold od_del. rewrite filter_twice. apply filter_ext.
      intros [k v]. cbn [fst]. unfold str_in. cbn [existsb].
      by rewrite negb_orb.
    + apply leibniz_equiv. apply set_equiv. intros x.
      rewrite list_to_set_cons, !elem_of_difference, elem_of_union,
        elem_of_singleton. tauto.
Qed.

Lemma inactive_keys s cutoff :
  NoDup (map fst (agent_profiles s)) ->
  List.filter
    (fun kv => negb (str_in (fst kv)
                       (map fst (List.filter
                                   (fun kv => is_inactive cutoff (snd kv))
                                   (agent_profiles s)))))
    (agent_profiles s)
  = List.filter (fun kv => negb (is_inactive cutoff (snd kv))) (agent_profiles s).
Proof.
  intros Hnd. apply filter_ext_in. intros [k v] Hin. cbn [fst snd]. f_equal.
  destruct (is_inactive cutoff v) eqn:E.
  - apply str_in_In, in_map_iff. exists (k, v). split; [done|].
    apply filter_In. by split.
  - destruct (str_in k _) eqn:S; [|done]. exfalso.
    apply str_in_In, in_map_iff in S as ([k' v'] & Hk & Hf). cbn in Hk. subst k'.
    apply filter_In in Hf as [Hin' E']. cbn in E'.
    pose proof (od_In_get _ _ _ Hnd Hin) as G1.
    pose proof (od_In_get _ _ _ Hnd Hin') as G2. congruence.
Qed.

Lemma od_get_filter {V} (f : V -> bool) k (d : odict V) :
  od_get k (List.filter (fun kv => f (snd kv)) d)
  = match od_get k d with
    | Some v => if f v then Some v else od_get k (List.filter (fun kv => f (snd kv)) d)
    | None => None
    end
  /\ (NoDup (map fst d) ->
      od_get k (List.filter (fun kv => f (snd kv)) d)
      = match od_get k d with
        | Some v => if f v then Some v else None
        | None => None
        end).
Proof.
  induction d as [|[k0 v0] r [IH1 IH2]]; [done|]. cbn [List.filter snd od_get map fst].
  split.
  - destruct (f v0) eqn:F; cbn [od_get];
      destruct (String.eqb k k0) eqn:E; try done; by rewrite ?F.
  - intros Hnd. apply NoDup_cons in Hnd as [Hk Hnd]. specialize (IH2 Hnd).
    destruct (f v0) eqn:F; cbn [od_get]; destruct (String.eqb k k0) eqn:E;
      try done; rewrite ?F; try done.
    apply String.eqb_eq in E. subst k0.
    destruct (od_get k (List.filter _ r)) as [w|] eqn:G; [|done].
    exfalso. apply Hk, list_elem_of_In.
    apply od_get_In in G. apply filter_In in G as [G _].
    apply in_map_iff. by exists (k, w).
Qed.

(** X17.  When the cut-off [now - max_inactive_days] is a date, cleaning
    up removes from the registry, and from the set of active agents,
    exactly the agents whose last activity is older than the cut-off,
    keeps the others in their order, and returns the number removed.
    Experiences, transfers, the collaboration network and the metrics stay
    as they were, also those that name a removed agent. A second clean-up
    at the same time removes nothing. When the cut-off is not a date
    (before the year 1 or after the year 9999) the call returns 0 and
    removes nobody. *)
Theorem X17_cleanup_removes_inactive now max_inactive_days s :
  NoDup (map fst (agent_profiles s)) ->
  let r := cleanup_inactive_agents now max_inactive_days s in
  (forall cutoff,
     days_before now max_inactive_days = Some cutoff ->
     cutoff = (now - max_inactive_days * 86400 * 1000000)%Z
     /\ agent_profiles (snd r)
        = List.filter (fun kv => negb (is_inactive cutoff (snd kv)))
            (agent_profiles s)
     /\ fst r + length (agent_profiles (snd r)) = length (agent_profiles s)
     /\ (forall a,
           od_get a (agent_profiles (snd r))
           = match od_get a (agent_profiles s) with
             | Some p => if is_inactive cutoff p then None else Some p
             | None => None
             end)
     /\ active_agents (snd r)
        = active_agents s
          ∖ list_to_set
              (map fst (List.filter (fun kv => is_inactive cutoff (snd kv))
                                    (agent_profiles s))))
  /\ (days_before now max_inactive_days = None -> r = (0, s))
  /\ ((now - max_inactive_days * 86400 * 1000000 < datetime_min)%Z
      \/ (datetime_max < now - max_inactive_days * 86400 * 1000000)%Z ->
      r = (0, s))
  /\ learning_experiences (snd r) = learning_experiences s
  /\ knowledge_transfers (snd r) = knowledge_transfers s
  /\ collaboration_network (snd r) = collaboration_network s
  /\ learning_metrics (snd r) = learning_metrics s
  /\ fst (cleanup_inactive_agents now max_inactive_days (snd r)) = 0
  /\ agent_profiles (snd (cleanup_inactive_agents now max_inactive_days (snd r)))
     = agent_profiles (snd r).
Proof.
  intros Hnd. cbv zeta. unfold cleanup_inactive_agents.
  assert (Hrange : (now - max_inactive_days * 86400 * 1000000 < datetime_min)%Z
                   \/ (datetime_max < now - max_inactive_days * 86400 * 1000000)%Z ->
                   days_before now max_inactive_days = None).
  { intros H. unfold days_before. destruct (_ && _)%bool; [|done]. cbv zeta.
    destruct (_ && _)%bool eqn:E; [|done]. exfalso.
    apply andb_true_iff in E as [E1 E2].
    apply Z.leb_le in E1. apply Z.leb_le in E2. lia. }
  destruct (days_before now max_inactive_days) as [cutoff|] eqn:D.
  2: { cbn [fst snd]. repeat split; try done. }
  clear Hrange. cbv zeta. cbn [fst snd].
  assert (Hc : cutoff = (now - max_inactive_days * 86400 * 1000000)%Z).
  { unfold days_before in D. destruct (_ && _)%bool; [|done]. cbv zeta in D.
    destruct (_ && _)%bool; [|done]. by injection D as <-. }
  set (gone := map fst (List.filter (fun kv => is_inactive cutoff (snd kv))
                                    (agent_profiles s))).
  destruct (remove_agents_fields gone s) as (Hp & Ha & He & Ht & Hn & Hm & _).
  cbv zeta in Hp. unfold gone in Hp at 2. rewrite (inactive_keys s cutoff Hnd) in Hp.
  assert (Hnone : List.filter (fun kv => is_inactive cutoff (snd kv))
                    (agent_profiles (fold_left remove_agent gone s)) = []).
  { rewrite Hp. apply filter_none. intros kv Hkv.
    apply filter_In in Hkv as [_ Hkv]. by apply negb_true_iff in Hkv. }
  split.
  { intros c [= <-]. split; [exact Hc|]. split; [exact Hp|]. split.
    { rewrite Hp. unfold gone. rewrite length_map.
      pose proof (List.filter_length (fun kv => is_inactive cutoff (snd kv))
                    (agent_profiles s)) as L.
      cbn beta in L. lia. }
    split; [|exact Ha].
    intros a. rewrite Hp.
    destruct (od_get_filter (fun p => negb (is_inactive cutoff p)) a
                (agent_profiles s)) as [_ H]. rewrite (H Hnd).
    destruct (od_get a (agent_profiles s)) as [p|]; [|done].
    by destruct (is_inactive cutoff p). }
  split; [done|]. split.
  { intros H. subst cutoff. unfold days_before in D.
    destruct (_ && _)%bool; [|done]. cbv zeta in D.
    destruct (_ && _)%bool eqn:E; [|done]. exfalso.
    apply andb_true_iff in E as [E1 E2].
    apply Z.leb_le in E1. apply Z.leb_le in E2. lia. }
  split; [exact He|]. split; [exact Ht|].
  split; [exact Hn|]. split; [exact Hm|].
  rewrite Hnone. by cbn.
Qed.

Lemma X17_cleanup_removes_inactive_witness :
  agent_profiles
    (snd (cleanup_inactive_agents (8 * 86400 * 1000000) 7 two_agents))
  = List.filter
      (fun kv => negb (is_inactive (1 * 86400 * 1000000)%Z (snd kv)))
      (agent_profiles two_agents).
Proof.
  assert (Hnd : NoDup (map fst (agent_profiles two_agents))).
  { apply (bool_decide_unpack _). vm_compute. exact I. }
  exact (proj1 (proj2 (proj1 (X17_cleanup_removes_inactive
                               (8 * 86400 * 1000000) 7 two_agents Hnd)
                         (1 * 86400 * 1000000)%Z eq_refl))).
Defined.

(** ** Requests made by an agent *)





(** ** The registry *)

(** X19.  Registering stores a fresh profile under the identifier: no
    experience, a reputation of 0.5, no specialization, the capabilities
    given. An identifier that was registered before keeps its place and
    loses the profile it had; the other profiles, the experiences, the
    transfers and the metrics are left as they were. *)
Theorem X19_register_agent_resets now a ty caps s :
  let r := register_agent now a ty caps s in
  od_get a (agent_profiles (snd r)) = Some (fst r)
  /\ experience_count (fst r) = 0
  /\ reputation_score (fst r) = 0.5%Q
  /\ specializations (fst r) = []
  /\ capabilities (fst r) = caps
  /\ (forall b, b <> a ->
        od_get b (agent_profiles (snd r)) = od_get b (agent_profiles s))
  /\ map fst (agent_profiles (snd r))
     = match od_get a (agent_profiles s) with
       | Some _ => map fst (agent_profiles s)
       | None => map fst (agent_profiles s) ++ [a]
       end
  /\ a ∈ active_agents (snd r)
  /\ learning_experiences (snd r) = learning_experiences s
  /\ knowledge_transfers (snd r) = knowledge_transfers s
  /\ learning_metrics (snd r) = learning_metrics s.
Proof.
  cbv zeta. cbn [register_agent fst snd agent_profiles active_agents
    learning_experiences knowledge_transfers learning_metrics
    experience_count reputation_score specializations capabilities].
  split; [apply od_get_set_eq|]. repeat (split; [done|]).
  split; [intros b Hb; by apply od_get_set_ne|]. split.
  - destruct (od_get a (agent_profiles s)) as [p|] eqn:E.
    + apply od_set_keys. eauto.
    + by apply od_set_keys_new.
  - split; [|done]. apply elem_of_union. left. by apply elem_of_singleton.
Qed.

Lemma X19_register_agent_resets_witness :
  od_get "B"
    (agent_profiles (snd (register_agent 9 "A" "TestingAgent" [] accepted_state)))
  = od_get "B" (agent_profiles accepted_state).
Proof.
  apply (proj1 (proj2 (proj2 (proj2 (proj2 (proj2
           (X19_register_agent_resets 9 "A" "TestingAgent" [] accepted_state))))))).
  discriminate.
Defined.

(** ** Knowledge gaps *)

Lemma agent_capabilities_fold (d : odict AgentProfile) (acc : gset string) v :
  v ∈ fold_left (fun acc kv => acc ∪ capability_values (snd kv)) d acc
  <-> v ∈ acc \/ exists kv, In kv d /\ v ∈ capability_values (snd kv).
Proof.
  revert acc. induction d as [|kv d IH]; intros acc; cbn [fold_left].
  - split; [by left|]. by intros [?|(? & [] & _)].
  - rewrite IH, elem_of_union. split.
    + intros [[H|H]|(kv' & Hin & H)]; [by left| |].
      * right. exists kv. split; [by left | done].
      * right. exists kv'. split; [by right | done].
    + intros [H|(kv' & [<-|Hin] & H)]; [by left; left | by left; right|].
      right. by exists kv'.
Qed.

Lemma capability_values_In p c :
  capability_value c ∈ capability_values p <-> In c (capabilities p).
Proof.
  unfold capability_values. rewrite elem_of_list_to_set, list_elem_of_In,
    in_map_iff. split.
  - intros (c' & Hc & Hin). by destruct c, c'.
  - intros H. by exists c.
Qed.

Lemma capability_of_value_Some v c :
  capability_of_value v = Some c -> capability_value c = v.
Proof.
  unfold capability_of_value. intros H. apply find_some in H as [_ H].
  by apply String.eqb_eq in H.
Qed.

(** X20.  The gaps of the learning report are the capabilities that no
    registered agent has; the gaps in security scanning and in
    deployment are the severe ones. Once a transfer to a registered
    agent is accepted, the capability it carries is not a gap. *)
Theorem X20_knowledge_gaps_spec :
  (forall s v,
     v ∈ missing_capabilities s <->
     exists c, v = capability_value c
               /\ forall a p, In (a, p) (agent_profiles s) ->
                              ~ In c (capabilities p))
  /\ (forall v, gap_severity v = "high"
                <-> v = "security_scanning" \/ v = "deployment")
  /\ (forall now tid t s,
        wf s ->
        knowledge_transfers s !! tid = Some t ->
        is_Some (od_get (to_agent t) (agent_profiles s)) ->
        knowledge_type t
        ∉ missing_capabilities (snd (process_knowledge_transfer now tid true s))).
Proof.
  split; [|split].
  - intros s v. unfold missing_capabilities, agent_capabilities.
    rewrite elem_of_difference, agent_capabilities_fold. split.
    + intros [Hall Hno]. unfold all_capability_values in Hall.
      apply elem_of_list_to_set, list_elem_of_In, in_map_iff in Hall
        as (c & <- & _).
      exists c. split; [done|]. intros a p Hin Hc. apply Hno. right.
      exists (a, p). split; [done|]. by apply capability_values_In.
    + intros (c & -> & Hno). split.
      * unfold all_capability_values.
        apply elem_of_list_to_set, list_elem_of_In, in_map_iff.
        exists c. split; [done|]. destruct c; cbn; auto 10.
      * intros [H|([a p] & Hin & H)]; [by apply not_elem_of_empty in H|].
        apply capability_values_In in H. by apply (Hno a p).
  - intros v. unfold gap_severity, str_in. cbn [existsb].
    rewrite orb_false_r. destruct (String.eqb v "security_scanning") eqn:E1.
    { apply String.eqb_eq in E1. split; [by left | done]. }
    destruct (String.eqb v "deployment") eqn:E2.
    { apply String.eqb_eq in E2. split; [by right | done]. }
    apply String.eqb_neq in E1, E2. cbn. split; [done | by intros [|]].
  - intros now tid t s Hwf Ht [p Hp] Hmiss.
    destruct (Hwf tid t Ht) as (Hlt & [c Hc] & _).
    destruct (process_accept_spec now tid t s c Ht Hlt Hc)
      as (_ & _ & _ & Hget & _).
    specialize (Hget (to_agent t)). cbv zeta in Hget.
    rewrite (decide_True (P := to_agent t = to_agent t)) in Hget by done.
    rewrite Hp in Hget. cbn [fmap option_fmap option_map] in Hget.
    set (s' := snd (process_knowledge_transfer now tid true s)) in *.
    assert (Hhas : exists p', od_get (to_agent t) (agent_profiles s') = Some p'
                              /\ In c (capabilities p')).
    { destruct (decide (to_agent t = from_agent t)).
      - eexists. split; [exact Hget|]. cbn [update_profile capabilities].
        apply receive_knowledge_gains.
      - eexists. split; [exact Hget|]. apply receive_knowledge_gains. }
    destruct Hhas as (p' & Hp' & Hin).
    apply capability_of_value_Some in Hc.
    unfold missing_capabilities, agent_capabilities in Hmiss.
    apply elem_of_difference in Hmiss as [_ Hno]. apply Hno.
    apply agent_capabilities_fold. right. exists (to_agent t, p').
    split; [by apply od_get_In|]. rewrite <- Hc. by apply capability_values_In.
Qed.

Lemma X20_knowledge_gaps_spec_witness :
  knowledge_type
    (requested_transfer 4 0 "A" "B" TESTING (learning_experiences shared_thrice))
  ∉ missing_capabilities
      (snd (process_knowledge_transfer 5 0 true requested_state)).
Proof.
  assert (Hwf : wf requested_state).
  { apply (bool_decide_unpack _). vm_compute. exact I. }
  assert (Ht : knowledge_transfers requested_state !! 0
               = Some (requested_transfer 4 0 "A" "B" TESTING
                         (learning_experiences shared_thrice)))
    by (vm_compute; reflexivity).
  apply (proj2 (proj2 X20_knowledge_gaps_spec) 5%Z 0 _ requested_state Hwf Ht).
  vm_compute. eauto.
Defined.
End CoordinatorMore.

(** ** The similarity of error messages *)

Section FactoryFacts.
Import Factory.

















End FactoryFacts.
